(** * Klok-BOT: the automation orchestration core

    A shallow embedding of the retry executor of [src/api/auth.js]
    ([executeWithRetry]) and of the run-state machine and orchestration loop
    of [src/automation.js] ([startAutomation], [pauseAutomation],
    [resumeAutomation], [automationLoop]), with the properties the
    specification states about them.

    Module-level variables of the JavaScript source become fields of an
    explicit state record; every call to a collaborator (API client,
    presentation layer, log sink, timers) is recorded in an effect trace, and
    the answers of the collaborators are inputs of the model.

    The loop and the start are embedded twice: taken whole ([Automation]),
    for what one call does, and cut at their awaits ([Interleaved]), for the
    executions in which calls, timers and commands interleave.  A call that
    nothing interrupts is the same in both. *)

From Stdlib Require Import ZArith QArith List String Bool Lia.
From Equations Require Import Equations.
From ExtLib Require Import Structures.Monad Structures.MonadState Structures.MonadExc.
Import ListNotations.
Import MonadNotation.

Local Open Scope Z_scope.
Local Open Scope string_scope.
Local Open Scope list_scope.
Local Open Scope monad_scope.

(** ** JavaScript errors and their classification *)

Module Js.

(** [error.response], present on HTTP errors raised by the client. *)
Record Response := mkResponse { status : Z }.

(** An [Error] object as the code inspects it: [error.message] and
    [error.response]. *)
Record Error := mkError { message : string; response : option Response }.

(** [s.includes(sub)] *)
Fixpoint includes (s sub : string) : bool :=
  String.prefix sub s ||
  match s with
  | EmptyString => false
  | String _ rest => includes rest sub
  end.

(** The result of awaiting a promise: rejected with an error, or resolved
    with a value. *)
Definition Settled (A : Type) : Type := (Error + A)%type.

End Js.

(** ** The retry executor ([executeWithRetry]) *)

Module Auth.
Import Js.

Definition MAX_RETRIES : nat := 5.
Definition RETRY_DELAY_MS : Q := 2000.
Definition RETRY_MULTIPLIER : Q := 3 # 2.

(** [isNetworkError] of [executeWithRetry]. *)
Definition isNetworkError (error : Error) : bool :=
  includes (message error) "socket hang up" ||
  includes (message error) "network" ||
  includes (message error) "timeout" ||
  includes (message error) "ECONNREFUSED".

(** [isServerError] of [executeWithRetry]:
    [error.response && error.response.status >= 500]. *)
Definition isServerError (error : Error) : bool :=
  match response error with
  | Some r => status r >=? 500
  | None => false
  end.

(** What one run of the executor does, in order. *)
Inductive Event : Type :=
| Invoke                                        (* await requestFn() *)
| LogRetry (requestName : string) (error : Error) (retry : nat) (delayMs : Q)
                                                (* logToFile(...) *)
| Wait (delayMs : Q).                           (* await new Promise(r => setTimeout(r, delay)) *)

Section Executor.

(** [requestFn] is an effectful thunk: each invocation acts on the outside
    world and settles one way or the other. *)
Context {World A : Type}.

Definition Request : Type := World -> Settled A * World.

(** [RETRY_DELAY_MS * Math.pow(RETRY_MULTIPLIER, retryCount)].  The delays a
    run can wait ([retryCount] from 0 to 4) are 2000, 3000, 4500, 6750 and
    10125 ms, all exact as JavaScript numbers, so rationals carry them
    without loss. *)
Definition retryDelay (retryCount : nat) : Q :=
  (RETRY_DELAY_MS * RETRY_MULTIPLIER ^ Z.of_nat retryCount)%Q.

Equations executeWithRetry (requestFn : Request) (requestName : string)
    (retryCount : nat) (w : World)
  : Settled A * World * list Event by wf (MAX_RETRIES - retryCount)%nat lt :=
executeWithRetry requestFn requestName retryCount w with requestFn w := {
  | (inr value, w1) => (inr value, w1, [Invoke])
  | (inl error, w1)
      with (isNetworkError error || isServerError error), lt_dec retryCount MAX_RETRIES := {
      | true, left _ =>
          let nextRetryCount := (retryCount + 1)%nat in
          let delay := retryDelay retryCount in
          let '(r, w2, t) := executeWithRetry requestFn requestName nextRetryCount w1 in
          (r, w2, Invoke :: LogRetry requestName error nextRetryCount delay
                    :: Wait delay :: t)
      | _, _ => (inl error, w1, [Invoke]) } }.
Next Obligation.
  unfold MAX_RETRIES in *.
  do 5 (destruct retryCount as [|retryCount]; [simpl; lia|]). lia.
Qed.

(** The world before the [n]-th further invocation of [requestFn]
    (counting from 0) and how that invocation settles. *)
Fixpoint worldAfter (requestFn : Request) (w : World) (n : nat) : World :=
  match n with
  | O => w
  | S n' => worldAfter requestFn (snd (requestFn w)) n'
  end.

Definition attempt (requestFn : Request) (w : World) (n : nat) : Settled A :=
  fst (requestFn (worldAfter requestFn w n)).

End Executor.

(** Transient-classified: network-class message or server status. *)
Definition transient (error : Error) : bool :=
  isNetworkError error || isServerError error.

(** The first [n] invocations from [w] all fail with a transient error. *)
Definition failsTransiently {World A} (requestFn : @Request World A) (w : World)
    (n : nat) : Prop :=
  forall i, (i < n)%nat ->
    exists error, attempt requestFn w i = inl error /\ transient error = true.

(** How many times a run invoked the operation. *)
Fixpoint invocations (t : list Event) : nat :=
  match t with
  | [] => O
  | Invoke :: rest => S (invocations rest)
  | _ :: rest => invocations rest
  end.

(** The delays a run waited, in order. *)
Fixpoint waits (t : list Event) : list Q :=
  match t with
  | [] => []
  | Wait d :: rest => d :: waits rest
  | _ :: rest => waits rest
  end.

(** The delays waited between attempt [k - 1] (or the start of the run) and
    attempt [k], attempts counted from 1; [None] when the run has no
    attempt [k]. *)
Fixpoint waitsBefore (k : nat) (pending : list Q) (t : list Event) : option (list Q) :=
  match t with
  | [] => None
  | Invoke :: rest =>
      match k with
      | O => None
      | S O => Some pending
      | S k' => waitsBefore k' [] rest
      end
  | Wait d :: rest => waitsBefore k (pending ++ [d]) rest
  | LogRetry _ _ _ _ :: rest => waitsBefore k pending rest
  end.

Definition delayBefore (k : nat) (t : list Event) : option (list Q) :=
  waitsBefore k [] t.

(** An operation against a counter of the calls made so far: it is refused
    [k] times and answers [7] from then on. *)
Definition refusedThenOk (k : nat) : @Request nat Z :=
  fun calls =>
    (if (calls <? k)%nat
     then inl (mkError "connect ECONNREFUSED 127.0.0.1:443" None)
     else inr 7,
     S calls).

(** An operation the server rejects for good (HTTP 401). *)
Definition unauthorized : @Request nat Z :=
  fun calls =>
    (inl (mkError "Request failed with status code 401" (Some (mkResponse 401))),
     S calls).

End Auth.


(** ** The run-state machine and the orchestration loop *)

Module Automation.
Import Js.

Definition MAX_CONSECUTIVE_ERRORS : Z := 3.

(** Handle of the countdown started by [startCooldownDisplay]. *)
Definition Timer : Type := Z.

(** The module-level variables of [automation.js]. *)
Record State := mkState {
  isRunning : bool;
  cooldownTimer : option Timer;
  consecutiveErrors : Z
}.

(** [let isRunning = false; let cooldownTimer = null; let consecutiveErrors = 0;] *)
Definition initial : State := mkState false None 0.

Inductive Level : Type := info | warning | error | success.

(** A template literal, kept as its pieces. *)
Inductive Piece : Type :=
| Str (s : string)
| Num (n : Z)                 (* ${n} *)
| Secs (ms : Z).              (* ${ms / 1000} *)

Definition Text : Type := list Piece.

(** The functions handed to [setTimeout] and to the cooldown coordinator. *)
Inductive Callback : Type :=
| cb_automationLoop           (* automationLoop *)
| cb_ifRunning                (* () => { if (isRunning) { automationLoop(); } } *)
| cb_retry                    (* () => { if (isRunning) { updateStatus("Retrying..."); render(); automationLoop(); } } *)
| cb_autoRestart              (* () => { if (!isRunning) { log(...); startAutomation(); } } *)
| cb_noop.                    (* () => {} *)

(** Calls that leave the module, writes to [consecutiveErrors], and entries
    into the loop, in program order. *)
Inductive Effect : Type :=
| Log (text : Text) (level : Level)
| LogToFile (text : Text)
| CheckLogSize
| UpdateStatus (text : Text) (level : Level)
| Render
| UpdateUserInfo
| UpdatePointsDisplay
| UpdateRateLimitDisplay
| UpdateModelsTable
| StartCooldownDisplay (resetTime : Z) (cb : Callback)
| Login
| GetUserInfo
| GetUserPoints
| GetRateLimit
| GetModels
| SelectDefaultModel
| CreateThread
| CheckRateLimitAvailability
| StartCooldown (cb : Callback)
| GenerateUserMessage
| SendChatMessage (userMessage : string)
| Sleep (ms : Z)                       (* await new Promise(resolve => setTimeout(resolve, ms)) *)
| SetTimeout (cb : Callback) (ms : Z)  (* setTimeout(cb, ms) *)
| SetErrors (n : Z)                    (* consecutiveErrors = n *)
| CallAutomationLoop.                  (* automationLoop() *)

Definition Trace : Type := list Effect.

(** A procedure of the module: it reads and writes the module variables,
    leaves a trace and either returns or throws.  Writes made before a throw
    stay, as in JavaScript. *)
Definition Proc (A : Type) : Type := State -> Settled A * State * Trace.

Definition Proc_ret {A} (a : A) : Proc A := fun s => (inr a, s, []).

Definition Proc_bind {A B} (m : Proc A) (k : A -> Proc B) : Proc B :=
  fun s =>
    match m s with
    | (inl e, s1, t1) => (inl e, s1, t1)
    | (inr a, s1, t1) => let '(r, s2, t2) := k a s1 in (r, s2, t1 ++ t2)
    end.

(** [try { body } catch (e) { handler }] *)
Definition Proc_catch {A} (body : Proc A) (handler : Error -> Proc A) : Proc A :=
  fun s =>
    match body s with
    | (inl e, s1, t1) => let '(r, s2, t2) := handler e s1 in (r, s2, t1 ++ t2)
    | (inr a, s1, t1) => (inr a, s1, t1)
    end.

#[export] Instance Monad_Proc : Monad Proc :=
  {| ret := @Proc_ret; bind := @Proc_bind |}.

#[export] Instance MonadState_Proc : MonadState State Proc :=
  {| get := fun s => (inr s, s, []); put := fun s' _ => (inr tt, s', []) |}.

#[export] Instance MonadExc_Proc : MonadExc Error Proc :=
  {| raise := fun _ e s => (inl e, s, []); catch := @Proc_catch |}.

(** A call that cannot throw into the module (presentation and log sinks,
    timers). *)
Definition emit (e : Effect) : Proc unit := fun s => (inr tt, s, [e]).

(** [await call], where the collaborator settles the promise with [answer]. *)
Definition await {A} (call : Effect) (answer : Settled A) : Proc A :=
  fun s => (answer, s, [call]).

(** A call of an async function that is not awaited: it runs, and a rejection
    of its promise does not reach the caller. *)
Definition spawn (p : Proc unit) : Proc unit :=
  fun s => let '(_, s1, t1) := p s in (inr tt, s1, t1).

Definition set_isRunning (b : bool) : Proc unit :=
  s <- get ;; put (mkState b (cooldownTimer s) (consecutiveErrors s)).

Definition set_cooldownTimer (t : Timer) : Proc unit :=
  s <- get ;; put (mkState (isRunning s) (Some t) (consecutiveErrors s)).

(** [consecutiveErrors = n] *)
Definition set_consecutiveErrors (n : Z) : Proc unit :=
  s <- get ;; put (mkState (isRunning s) (cooldownTimer s) n) ;; emit (SetErrors n).

(** [consecutiveErrors++] *)
Definition incr_consecutiveErrors : Proc unit :=
  s <- get ;; set_consecutiveErrors (consecutiveErrors s + 1).

(** The network-class test written out in both [catch] blocks of the module. *)
Definition looksTransient (e : Error) : bool :=
  includes (message e) "socket hang up" ||
  includes (message e) "network" ||
  includes (message e) "timeout" ||
  includes (message e) "ECONNREFUSED" ||
  match response e with
  | Some r => status r >=? 500
  | None => false
  end.

(** *** What the collaborators answer *)

(** Answers to the awaited calls of one [startAutomation]. *)
Record StartEnv := mkStartEnv {
  start_login : Settled unit;               (* auth.login() *)
  start_getUserInfo : Settled unit;         (* auth.getUserInfo() *)
  start_getUserPoints : Settled unit;       (* points.getUserPoints() *)
  start_getRateLimit : Settled unit;        (* rateLimit.getRateLimit() *)
  start_getModels : Settled unit;           (* models.getModels() *)
  start_selectDefaultModel : Settled unit   (* models.selectDefaultModel() *)
}.

(** Answers to the calls of one cycle of [automationLoop]. *)
Record CycleEnv := mkCycleEnv {
  cooldownActive : bool;                    (* rateLimit.isCooldownActive() *)
  rateLimitAvailable : Settled bool;        (* rateLimit.checkRateLimitAvailability() *)
  lastKnownResetTime : Z;                   (* rateLimit.getLastKnownRateLimit().resetTime *)
  displayTimer : Timer;                     (* startCooldownDisplay(...) *)
  cooldownStarted : Settled unit;           (* rateLimit.startCooldown(...) *)
  generatedMessage : Settled string;        (* groq.generateUserMessage() *)
  chatSent : Settled unit;                  (* chat.sendChatMessage(userMessage) *)
  pointsFetched : Settled unit;             (* points.getUserPoints() *)
  rateLimitFetched : Settled unit;          (* rateLimit.getRateLimit() *)
  randomJitter : Z                          (* Math.floor(Math.random() * 7000) *)
}.

(** *** [getRunningState] and [pauseAutomation] *)

Definition getRunningState : Proc bool := gets isRunning.

Definition pauseAutomation : Proc unit :=
  running <- gets isRunning ;;
  if negb running then
    emit (Log [Str "Automation not running"] warning)
  else
    set_isRunning false ;;
    emit (UpdateStatus [Str "Paused"] warning) ;;
    emit (Log [Str "Automation paused"] warning) ;;
    emit (LogToFile [Str "Automation paused"]) ;;
    emit Render.

(** *** [automationLoop]: one cycle *)

(** The [catch (chatError)] block around the send. *)
Definition onChatError (chatError : Error) : Proc unit :=
  incr_consecutiveErrors ;;
  n <- gets consecutiveErrors ;;
  emit (LogToFile [Str "Chat error (consecutive: "; Num n; Str "/";
                   Num MAX_CONSECUTIVE_ERRORS; Str "): "; Str (message chatError)]) ;;
  if n >=? MAX_CONSECUTIVE_ERRORS then
    emit (Log [Str "Too many consecutive errors ("; Num n;
               Str "). Taking a longer break..."] error) ;;
    emit (UpdateStatus [Str "Multiple errors, pausing..."] error) ;;
    emit Render ;;
    emit (Sleep 180000) ;;
    set_consecutiveErrors 0
  else
    emit (Sleep 10000).

(** The outer [catch (error)] block of the loop. *)
Definition onLoopError (err : Error) : Proc unit :=
  emit (Log [Str "Error in automation loop: "; Str (message err)] error) ;;
  emit (LogToFile [Str "Error in automation loop: "; Str (message err)]) ;;
  emit (UpdateStatus [Str "Error"] error) ;;
  emit Render ;;
  incr_consecutiveErrors ;;
  if looksTransient err then
    n <- gets consecutiveErrors ;;
    backoffTime <-
      (if n >=? MAX_CONSECUTIVE_ERRORS then
         emit (Log [Str "Too many consecutive errors ("; Num n;
                    Str "). Taking a longer break..."] error) ;;
         set_consecutiveErrors 0 ;;
         ret 180000
       else if n >? 1 then ret 15000
       else ret 5000) ;;
    emit (UpdateStatus [Str "Retrying in "; Secs backoffTime; Str "s..."] warning) ;;
    emit Render ;;
    emit (SetTimeout cb_retry backoffTime)
  else
    emit (SetTimeout cb_retry 15000).

(** The outer [try] block of the loop. *)
Definition loopBody (env : CycleEnv) : Proc unit :=
  running <- gets isRunning ;;
  if negb running then ret tt else
  emit CheckLogSize ;;
  if cooldownActive env then emit (SetTimeout cb_automationLoop 1000) else
  available <- await CheckRateLimitAvailability (rateLimitAvailable env) ;;
  if negb available then
    emit (Log [Str "Rate limit reached, starting cooldown"] warning) ;;
    emit (LogToFile [Str "Rate limit reached, starting cooldown"]) ;;
    emit (StartCooldownDisplay (lastKnownResetTime env) cb_noop) ;;
    set_cooldownTimer (displayTimer env) ;;
    await (StartCooldown cb_ifRunning) (cooldownStarted env)
  else
  userMessage <- await GenerateUserMessage (generatedMessage env) ;;
  set_consecutiveErrors 0 ;;
  catch
    (await (SendChatMessage userMessage) (chatSent env) ;;
     set_consecutiveErrors 0)
    onChatError ;;
  catch
    (await GetUserPoints (pointsFetched env) ;;
     emit UpdatePointsDisplay)
    (fun pointsError =>
       emit (LogToFile [Str "Failed to update points display: ";
                        Str (message pointsError)])) ;;
  catch
    (await GetRateLimit (rateLimitFetched env) ;;
     emit UpdateRateLimitDisplay)
    (fun rateLimitError =>
       emit (LogToFile [Str "Failed to update rate limit display: ";
                        Str (message rateLimitError)])) ;;
  emit Render ;;
  let delay := randomJitter env + 3000 in
  emit (Log [Str "Waiting "; Secs delay; Str " seconds before next message..."] info) ;;
  emit (SetTimeout cb_automationLoop delay).

Definition automationLoop (env : CycleEnv) : Proc unit :=
  catch (loopBody env) onLoopError.

(** The statement [automationLoop();]: the call is recorded and not awaited. *)
Definition call_automationLoop (env : CycleEnv) : Proc unit :=
  emit CallAutomationLoop ;;
  spawn (automationLoop env).

(** *** [startAutomation] *)

Definition startAutomation (env : StartEnv) (first : CycleEnv) : Proc unit :=
  running <- gets isRunning ;;
  if running then
    emit (Log [Str "Automation already running"] warning)
  else
    catch
      (set_isRunning true ;;
       set_consecutiveErrors 0 ;;
       emit (UpdateStatus [Str "Starting..."] info) ;;
       emit Render ;;
       emit CheckLogSize ;;
       emit (Log [Str "Starting login..."] info) ;;
       await Login (start_login env) ;;
       await GetUserInfo (start_getUserInfo env) ;;
       emit UpdateUserInfo ;;
       await GetUserPoints (start_getUserPoints env) ;;
       emit UpdatePointsDisplay ;;
       await GetRateLimit (start_getRateLimit env) ;;
       emit UpdateRateLimitDisplay ;;
       await GetModels (start_getModels env) ;;
       emit UpdateModelsTable ;;
       await SelectDefaultModel (start_selectDefaultModel env) ;;
       emit CreateThread ;;
       emit (UpdateStatus [Str "Running"] success) ;;
       emit Render ;;
       call_automationLoop first)
      (fun err =>
         set_isRunning false ;;
         emit (Log [Str "Error starting automation: "; Str (message err)] error) ;;
         emit (LogToFile [Str "Error starting automation: "; Str (message err)]) ;;
         emit (UpdateStatus [Str "Start Failed"] error) ;;
         emit Render ;;
         if looksTransient err then
           emit (Log [Str "Attempting to restart automation in 10 seconds..."] info) ;;
           emit (UpdateStatus [Str "Auto-restarting in 10s..."] warning) ;;
           emit Render ;;
           emit (SetTimeout cb_autoRestart 10000)
         else ret tt).

(** *** [resumeAutomation] *)

Definition resumeAutomation (isCooldownActive : bool) (first : CycleEnv) : Proc unit :=
  running <- gets isRunning ;;
  if running then
    emit (Log [Str "Automation already running"] warning)
  else if isCooldownActive then
    emit (Log [Str "Cannot resume during cooldown"] warning) ;;
    emit (LogToFile [Str "Resume attempt failed - cooldown active"])
  else
    set_isRunning true ;;
    set_consecutiveErrors 0 ;;
    emit (UpdateStatus [Str "Running"] success) ;;
    emit (Log [Str "Automation resumed"] success) ;;
    emit (LogToFile [Str "Automation resumed"]) ;;
    emit Render ;;
    call_automationLoop first.

(** *** Executions *)

(** What runs when a callback is called back. *)
Definition fire (cb : Callback) (env : StartEnv) (cyc : CycleEnv) : Proc unit :=
  match cb with
  | cb_automationLoop => call_automationLoop cyc
  | cb_ifRunning =>
      running <- gets isRunning ;;
      if running then call_automationLoop cyc else ret tt
  | cb_retry =>
      running <- gets isRunning ;;
      if running then
        emit (UpdateStatus [Str "Retrying..."] warning) ;;
        emit Render ;;
        call_automationLoop cyc
      else ret tt
  | cb_autoRestart =>
      running <- gets isRunning ;;
      if negb running then
        emit (Log [Str "Auto-restarting automation..."] info) ;;
        spawn (startAutomation env cyc)
      else ret tt
  | cb_noop => ret tt
  end.

(** One turn of the event loop: a control command, or a callback coming due.
    Cycles are taken whole: commands and callbacks arrive between cycles, and
    a cycle that [startAutomation] or [resumeAutomation] calls runs with it.
    Any sequence of inputs is a run, also one in which a callback comes due
    that nobody scheduled; what holds of all runs holds of the real ones in
    which nothing else runs while a call waits at an await.  The executions
    in which calls interleave at their awaits are those of [Interleaved]
    below. *)
Inductive Input : Type :=
| In_start (env : StartEnv) (first : CycleEnv)
| In_pause
| In_resume (isCooldownActive : bool) (first : CycleEnv)
| In_callback (cb : Callback) (env : StartEnv) (cyc : CycleEnv).

Definition dispatch (i : Input) : Proc unit :=
  match i with
  | In_start env first => spawn (startAutomation env first)
  | In_pause => pauseAutomation
  | In_resume cd first => resumeAutomation cd first
  | In_callback cb env cyc => fire cb env cyc
  end.

Fixpoint run (inputs : list Input) : Proc unit :=
  match inputs with
  | [] => ret tt
  | i :: rest => spawn (dispatch i) ;; run rest
  end.

(** *** Reading a trace *)

Definition stateOf {A} (r : Settled A * State * Trace) : State := snd (fst r).
Definition traceOf {A} (r : Settled A * State * Trace) : Trace := snd r.

(** The values written to [consecutiveErrors], oldest first. *)
Fixpoint errorWrites (t : Trace) : list Z :=
  match t with
  | [] => []
  | SetErrors n :: rest => n :: errorWrites rest
  | _ :: rest => errorWrites rest
  end.

(** The messages handed to [chat.sendChatMessage]. *)
Fixpoint chatSends (t : Trace) : list string :=
  match t with
  | [] => []
  | SendChatMessage m :: rest => m :: chatSends rest
  | _ :: rest => chatSends rest
  end.

(** The synchronous pauses of the chat-error branch, in milliseconds. *)
Fixpoint sleeps (t : Trace) : list Z :=
  match t with
  | [] => []
  | Sleep ms :: rest => ms :: sleeps rest
  | _ :: rest => sleeps rest
  end.

(** The delays of the retries scheduled by the loop-level [catch]. *)
Fixpoint backoffs (t : Trace) : list Z :=
  match t with
  | [] => []
  | SetTimeout cb_retry ms :: rest => ms :: backoffs rest
  | _ :: rest => backoffs rest
  end.

(** All delays handed to [setTimeout], with their callbacks. *)
Fixpoint timeouts (t : Trace) : list (Callback * Z) :=
  match t with
  | [] => []
  | SetTimeout cb ms :: rest => (cb, ms) :: timeouts rest
  | _ :: rest => timeouts rest
  end.

(** The value of [consecutiveErrors] at each [automationLoop()] call of a
    trace that starts with the counter at [c]. *)
Fixpoint errorsAtLoopCalls (c : Z) (t : Trace) : list Z :=
  match t with
  | [] => []
  | SetErrors n :: rest => errorsAtLoopCalls n rest
  | CallAutomationLoop :: rest => c :: errorsAtLoopCalls c rest
  | _ :: rest => errorsAtLoopCalls c rest
  end.

(** How many times a trace calls [automationLoop()]. *)
Definition loopCalls (t : Trace) : nat := List.length (errorsAtLoopCalls 0 t).

(** Every level at which a trace logs to the console. *)
Fixpoint logLevels (t : Trace) : list Level :=
  match t with
  | [] => []
  | Log _ lvl :: rest => lvl :: logLevels rest
  | _ :: rest => logLevels rest
  end.

(** Every error the quota check, the cooldown hand-off or the content
    generator raises in this cycle is network-class. *)
Definition settledTransient {A} (r : Settled A) : bool :=
  match r with
  | inl e => looksTransient e
  | inr _ => true
  end.

Definition cycleTransient (cyc : CycleEnv) : bool :=
  settledTransient (rateLimitAvailable cyc) &&
  settledTransient (cooldownStarted cyc) &&
  settledTransient (generatedMessage cyc).

Definition inputTransient (i : Input) : bool :=
  match i with
  | In_start _ first => cycleTransient first
  | In_pause => true
  | In_resume _ first => cycleTransient first
  | In_callback _ _ cyc => cycleTransient cyc
  end.

(** Every awaited step of a start resolves. *)
Definition settledOk {A} (r : Settled A) : bool :=
  match r with
  | inl _ => false
  | inr _ => true
  end.

Definition startSucceeds (env : StartEnv) : bool :=
  settledOk (start_login env) && settledOk (start_getUserInfo env) &&
  settledOk (start_getUserPoints env) && settledOk (start_getRateLimit env) &&
  settledOk (start_getModels env) && settledOk (start_selectDefaultModel env).

(** A resume is rejected: the module variables are as before and the loop
    is not entered. *)
Definition resumeRejected (isCooldownActive : bool) (first : CycleEnv) (s : State) : Prop :=
  stateOf (resumeAutomation isCooldownActive first s) = s /\
  ~ In CallAutomationLoop (traceOf (resumeAutomation isCooldownActive first s)).

(** *** Scenarios *)

Definition startsFine : StartEnv :=
  mkStartEnv (inr tt) (inr tt) (inr tt) (inr tt) (inr tt) (inr tt).

(** A cycle in which everything works. *)
Definition cycleFine : CycleEnv :=
  mkCycleEnv false (inr true) 0 0 (inr tt) (inr "gm") (inr tt) (inr tt) (inr tt) 1234.

(** A cycle whose chat send is rejected by the server. *)
Definition cycleChatFails : CycleEnv :=
  mkCycleEnv false (inr true) 0 0 (inr tt) (inr "gm")
    (inl (mkError "Request failed with status code 400" (Some (mkResponse 400))))
    (inr tt) (inr tt) 1234.

(** A cycle whose quota check is answered with HTTP 401. *)
Definition cycleQuotaUnauthorized : CycleEnv :=
  mkCycleEnv false
    (inl (mkError "Request failed with status code 401" (Some (mkResponse 401))))
    0 0 (inr tt) (inr "gm") (inr tt) (inr tt) (inr tt) 1234.

(** A cycle whose quota check cannot connect. *)
Definition cycleQuotaRefused : CycleEnv :=
  mkCycleEnv false (inl (mkError "connect ECONNREFUSED 127.0.0.1:443" None))
    0 0 (inr tt) (inr "gm") (inr tt) (inr tt) (inr tt) 1234.

(** A cycle that finds the cooldown active. *)
Definition cycleCoolingDown : CycleEnv :=
  mkCycleEnv true (inr true) 0 0 (inr tt) (inr "gm") (inr tt) (inr tt) (inr tt) 1234.

Definition runningState : State := mkState true None 0.

(** Running, with two loop-level errors already counted. *)
Definition twoErrorsIn : State := mkState true None 2.

(** A start followed by three retries, the quota check refusing the
    connection every time. *)
Definition refusedRun : list Input :=
  [In_start startsFine cycleQuotaRefused;
   In_callback cb_retry startsFine cycleQuotaRefused;
   In_callback cb_retry startsFine cycleQuotaRefused;
   In_callback cb_retry startsFine cycleQuotaRefused].

(** A start followed by three retries, the quota check answering 401 every
    time. *)
Definition unauthorizedRun : list Input :=
  [In_start startsFine cycleQuotaUnauthorized;
   In_callback cb_retry startsFine cycleQuotaUnauthorized;
   In_callback cb_retry startsFine cycleQuotaUnauthorized;
   In_callback cb_retry startsFine cycleQuotaUnauthorized].

(** A start and two further cycles, every chat send failing. *)
Definition chatFailsRun : list Input :=
  [In_start startsFine cycleChatFails;
   In_callback cb_automationLoop startsFine cycleChatFails;
   In_callback cb_automationLoop startsFine cycleChatFails].

End Automation.

(** ** The loop between its awaits

    [automationLoop] and [startAutomation] are async functions: a call runs
    up to its next [await] and is suspended there; what runs next is whatever
    the event loop picks, the continuation of this call or of another one, a
    timer, or a command.  This part cuts both functions at their awaits, so
    that calls can interleave the way they do in the program.  A call that is
    suspended keeps the answers its collaborators will give; the awaited
    collaborators are async functions, so what they throw arrives when the
    await settles. *)

Module Interleaved.
Import Js Automation.

(** The await at which a call of [automationLoop] is suspended. *)
Inductive Point : Type :=
| AtAvailability              (* await rateLimit.checkRateLimitAvailability() *)
| AtStartCooldown             (* await rateLimit.startCooldown(...) *)
| AtGenerate                  (* await groq.generateUserMessage() *)
| AtSend                      (* await chat.sendChatMessage(userMessage) *)
| AtLongPause                 (* await new Promise(resolve => setTimeout(resolve, 180000)) *)
| AtShortPause                (* await new Promise(resolve => setTimeout(resolve, 10000)) *)
| AtPoints                    (* await points.getUserPoints() *)
| AtRateLimit.                (* await rateLimit.getRateLimit() *)

(** The await at which a call of [startAutomation] is suspended. *)
Inductive StartPoint : Type :=
| AtLogin                     (* await auth.login() *)
| AtGetUserInfo               (* await auth.getUserInfo() *)
| AtGetUserPoints             (* await points.getUserPoints() *)
| AtGetRateLimit              (* await rateLimit.getRateLimit() *)
| AtGetModels                 (* await models.getModels() *)
| AtSelectDefaultModel.       (* await models.selectDefaultModel() *)

(** A suspended call. *)
Inductive Task : Type :=
| InCycle (env : CycleEnv) (point : Point)
| InStart (env : StartEnv) (first : CycleEnv) (point : StartPoint).

(** [await call]: the call is made and the function is suspended at
    [point]. *)
Definition suspend {P} (call : Effect) (point : P) : Proc (option P) :=
  emit call ;; ret (Some point).

(** The function returns. *)
Definition finished {P} : Proc (option P) := ret None.

(** The awaited promise settles with [answer]. *)
Definition settle {A} (answer : Settled A) : Proc A := fun s => (answer, s, []).

(** *** [automationLoop] *)

(** The [try] block, from the call up to the first await. *)
Definition enterBody (env : CycleEnv) : Proc (option Point) :=
  running <- gets isRunning ;;
  if negb running then finished else
  emit CheckLogSize ;;
  if cooldownActive env then emit (SetTimeout cb_automationLoop 1000) ;; finished else
  suspend CheckRateLimitAvailability AtAvailability.

(** The [try] block, from the await at [point] up to the next one. *)
Definition resumeBody (env : CycleEnv) (point : Point) : Proc (option Point) :=
  match point with
  | AtAvailability =>
      available <- settle (rateLimitAvailable env) ;;
      if negb available then
        emit (Log [Str "Rate limit reached, starting cooldown"] warning) ;;
        emit (LogToFile [Str "Rate limit reached, starting cooldown"]) ;;
        emit (StartCooldownDisplay (lastKnownResetTime env) cb_noop) ;;
        set_cooldownTimer (displayTimer env) ;;
        suspend (StartCooldown cb_ifRunning) AtStartCooldown
      else
        suspend GenerateUserMessage AtGenerate
  | AtStartCooldown =>
      settle (cooldownStarted env) ;;
      finished
  | AtGenerate =>
      userMessage <- settle (generatedMessage env) ;;
      set_consecutiveErrors 0 ;;
      suspend (SendChatMessage userMessage) AtSend
  | AtSend =>
      paused <-
        catch
          (settle (chatSent env) ;;
           set_consecutiveErrors 0 ;;
           finished)
          (fun chatError =>
             incr_consecutiveErrors ;;
             n <- gets consecutiveErrors ;;
             emit (LogToFile [Str "Chat error (consecutive: "; Num n; Str "/";
                              Num MAX_CONSECUTIVE_ERRORS; Str "): ";
                              Str (message chatError)]) ;;
             if n >=? MAX_CONSECUTIVE_ERRORS then
               emit (Log [Str "Too many consecutive errors ("; Num n;
                          Str "). Taking a longer break..."] error) ;;
               emit (UpdateStatus [Str "Multiple errors, pausing..."] error) ;;
               emit Render ;;
               suspend (Sleep 180000) AtLongPause
             else
               suspend (Sleep 10000) AtShortPause) ;;
      match paused with
      | Some point => ret (Some point)
      | None => suspend GetUserPoints AtPoints
      end
  | AtLongPause =>
      set_consecutiveErrors 0 ;;
      suspend GetUserPoints AtPoints
  | AtShortPause =>
      suspend GetUserPoints AtPoints
  | AtPoints =>
      catch
        (settle (pointsFetched env) ;;
         emit UpdatePointsDisplay)
        (fun pointsError =>
           emit (LogToFile [Str "Failed to update points display: ";
                            Str (message pointsError)])) ;;
      suspend GetRateLimit AtRateLimit
  | AtRateLimit =>
      catch
        (settle (rateLimitFetched env) ;;
         emit UpdateRateLimitDisplay)
        (fun rateLimitError =>
           emit (LogToFile [Str "Failed to update rate limit display: ";
                            Str (message rateLimitError)])) ;;
      emit Render ;;
      let delay := randomJitter env + 3000 in
      emit (Log [Str "Waiting "; Secs delay; Str " seconds before next message..."] info) ;;
      emit (SetTimeout cb_automationLoop delay) ;;
      finished
  end.

(** The outer [try]/[catch] of the loop around a piece of its body. *)
Definition guarded (body : Proc (option Point)) : Proc (option Point) :=
  catch body (fun err => onLoopError err ;; finished).

(** [automationLoop()] up to its first await. *)
Definition enterCycle (env : CycleEnv) : Proc (option Point) :=
  guarded (enterBody env).

(** A suspended [automationLoop] goes on, up to its next await. *)
Definition resumeCycle (env : CycleEnv) (point : Point) : Proc (option Point) :=
  guarded (resumeBody env point).

(** A call that is not awaited: a rejection does not reach the caller. *)
Definition detached {P} (p : Proc (option P)) : Proc (option P) :=
  fun s =>
    let '(r, s1, t1) := p s in
    (inr match r with
         | inr next => next
         | inl _ => None
         end, s1, t1).

(** The statement [automationLoop();]. *)
Definition callLoop (env : CycleEnv) : Proc (option Task) :=
  emit CallAutomationLoop ;;
  next <- detached (enterCycle env) ;;
  ret (option_map (InCycle env) next).

(** *** [startAutomation] *)

(** The [catch] block of [startAutomation]. *)
Definition onStartError (err : Error) : Proc unit :=
  set_isRunning false ;;
  emit (Log [Str "Error starting automation: "; Str (message err)] error) ;;
  emit (LogToFile [Str "Error starting automation: "; Str (message err)]) ;;
  emit (UpdateStatus [Str "Start Failed"] error) ;;
  emit Render ;;
  if looksTransient err then
    emit (Log [Str "Attempting to restart automation in 10 seconds..."] info) ;;
    emit (UpdateStatus [Str "Auto-restarting in 10s..."] warning) ;;
    emit Render ;;
    emit (SetTimeout cb_autoRestart 10000)
  else ret tt.

(** [startAutomation()] up to its first await. *)
Definition enterStart (env : StartEnv) (first : CycleEnv) : Proc (option Task) :=
  running <- gets isRunning ;;
  if running then
    emit (Log [Str "Automation already running"] warning) ;;
    finished
  else
    catch
      (set_isRunning true ;;
       set_consecutiveErrors 0 ;;
       emit (UpdateStatus [Str "Starting..."] info) ;;
       emit Render ;;
       emit CheckLogSize ;;
       emit (Log [Str "Starting login..."] info) ;;
       suspend Login (InStart env first AtLogin))
      (fun err => onStartError err ;; finished).

(** A suspended [startAutomation] goes on, up to its next await. *)
Definition resumeStart (env : StartEnv) (first : CycleEnv) (point : StartPoint)
  : Proc (option Task) :=
  catch
    match point with
    | AtLogin =>
        settle (start_login env) ;;
        suspend GetUserInfo (InStart env first AtGetUserInfo)
    | AtGetUserInfo =>
        settle (start_getUserInfo env) ;;
        emit UpdateUserInfo ;;
        suspend GetUserPoints (InStart env first AtGetUserPoints)
    | AtGetUserPoints =>
        settle (start_getUserPoints env) ;;
        emit UpdatePointsDisplay ;;
        suspend GetRateLimit (InStart env first AtGetRateLimit)
    | AtGetRateLimit =>
        settle (start_getRateLimit env) ;;
        emit UpdateRateLimitDisplay ;;
        suspend GetModels (InStart env first AtGetModels)
    | AtGetModels =>
        settle (start_getModels env) ;;
        emit UpdateModelsTable ;;
        suspend SelectDefaultModel (InStart env first AtSelectDefaultModel)
    | AtSelectDefaultModel =>
        settle (start_selectDefaultModel env) ;;
        emit CreateThread ;;
        emit (UpdateStatus [Str "Running"] success) ;;
        emit Render ;;
        callLoop first
    end
    (fun err => onStartError err ;; finished).

(** *** [pauseAutomation], [resumeAutomation] and the callbacks *)

Definition pauseTurn : Proc (option Task) :=
  pauseAutomation ;; finished.

Definition resumeTurn (isCooldownActive : bool) (first : CycleEnv)
  : Proc (option Task) :=
  running <- gets isRunning ;;
  if running then
    emit (Log [Str "Automation already running"] warning) ;;
    finished
  else if isCooldownActive then
    emit (Log [Str "Cannot resume during cooldown"] warning) ;;
    emit (LogToFile [Str "Resume attempt failed - cooldown active"]) ;;
    finished
  else
    set_isRunning true ;;
    set_consecutiveErrors 0 ;;
    emit (UpdateStatus [Str "Running"] success) ;;
    emit (Log [Str "Automation resumed"] success) ;;
    emit (LogToFile [Str "Automation resumed"]) ;;
    emit Render ;;
    callLoop first.

(** What runs when a callback is called back. *)
Definition fireTurn (cb : Callback) (env : StartEnv) (cyc : CycleEnv)
  : Proc (option Task) :=
  match cb with
  | cb_automationLoop => callLoop cyc
  | cb_ifRunning =>
      running <- gets isRunning ;;
      if running then callLoop cyc else finished
  | cb_retry =>
      running <- gets isRunning ;;
      if running then
        emit (UpdateStatus [Str "Retrying..."] warning) ;;
        emit Render ;;
        callLoop cyc
      else finished
  | cb_autoRestart =>
      running <- gets isRunning ;;
      if negb running then
        emit (Log [Str "Auto-restarting automation..."] info) ;;
        detached (enterStart env cyc)
      else finished
  | cb_noop => finished
  end.

(** A suspended call goes on. *)
Definition resumeTask (task : Task) : Proc (option Task) :=
  match task with
  | InCycle env point =>
      next <- resumeCycle env point ;;
      ret (option_map (InCycle env) next)
  | InStart env first point => resumeStart env first point
  end.

(** *** The event loop *)

(** The module variables, the calls that are suspended, and what has
    happened so far. *)
Record System := mkSystem {
  vars : State;
  suspended : list Task;
  history : Trace
}.

Definition boot : System := mkSystem initial [] [].

(** One turn of the event loop: a command, a callback coming due, or the
    promise settling on which the [k]-th suspended call waits.  Any sequence
    of turns is an execution, also one in which a callback comes due that
    nobody scheduled; what holds of all executions holds of the real
    ones. *)
Inductive Turn : Type :=
| T_start (env : StartEnv) (first : CycleEnv)
| T_pause
| T_resume (isCooldownActive : bool) (first : CycleEnv)
| T_timer (cb : Callback) (env : StartEnv) (cyc : CycleEnv)
| T_settle (k : nat).

Definition without (k : nat) (tasks : list Task) : list Task :=
  firstn k tasks ++ skipn (S k) tasks.

(** [p] runs on the module variables; the call it leaves suspended, if any,
    joins [others]. *)
Definition perform (p : Proc (option Task)) (others : list Task) (sys : System)
  : System :=
  let '(r, s1, t1) := p (vars sys) in
  mkSystem s1
    (others ++ match r with
               | inr (Some task) => [task]
               | _ => []
               end)
    (history sys ++ t1).

Definition turn (i : Turn) (sys : System) : System :=
  match i with
  | T_start env first => perform (detached (enterStart env first)) (suspended sys) sys
  | T_pause => perform pauseTurn (suspended sys) sys
  | T_resume cd first => perform (resumeTurn cd first) (suspended sys) sys
  | T_timer cb env cyc => perform (fireTurn cb env cyc) (suspended sys) sys
  | T_settle k =>
      match nth_error (suspended sys) k with
      | Some task => perform (resumeTask task) (without k (suspended sys)) sys
      | None => sys
      end
  end.

Fixpoint execute (turns : list Turn) (sys : System) : System :=
  match turns with
  | [] => sys
  | i :: rest => execute rest (turn i sys)
  end.

(** *** Cycles in progress *)

Definition isCycle (task : Task) : bool :=
  match task with
  | InCycle _ _ => true
  | InStart _ _ _ => false
  end.

(** How many calls of [automationLoop] are suspended at an await. *)
Definition cyclesInProgress (sys : System) : nat :=
  List.length (filter isCycle (suspended sys)).

(** At no time of the execution are two calls of [automationLoop] suspended
    at an await. *)
Fixpoint oneCycleAtATime (turns : list Turn) (sys : System) : bool :=
  (cyclesInProgress sys <=? 1)%nat &&
  match turns with
  | [] => true
  | i :: rest => oneCycleAtATime rest (turn i sys)
  end.

(** Every loop-level error of the cycles this turn brings in is
    network-class. *)
Definition turnTransient (i : Turn) : bool :=
  match i with
  | T_start _ first => cycleTransient first
  | T_pause => true
  | T_resume _ first => cycleTransient first
  | T_timer _ _ cyc => cycleTransient cyc
  | T_settle _ => true
  end.

(** *** A call that nothing interrupts *)

(** The suspended call goes on to its end, each await settling before
    anything else runs. *)
Fixpoint finishTask (fuel : nat) (next : option Task) : Proc unit :=
  match next, fuel with
  | Some task, S fuel => next' <- resumeTask task ;; finishTask fuel next'
  | _, _ => ret tt
  end.

(** No call runs through more than 12 awaits (6 of a start and 6 of the
    cycle it enters). *)
Definition uninterrupted (p : Proc (option Task)) : Proc unit :=
  next <- p ;; finishTask 12 next.

(** *** What is known of the suspended calls *)

(** What holds of a suspended call, the counter being [c], as long as no two
    cycles are in progress together and all loop-level errors are
    network-class: no cycle is in its long pause, and a cycle that waits for
    its send wrote 0 to the counter. *)
Definition taskSettled (c : Z) (task : Task) : Prop :=
  match task with
  | InCycle env point =>
      cycleTransient env = true /\ point <> AtLongPause /\ (point = AtSend -> c = 0)
  | InStart _ first _ => cycleTransient first = true
  end.

(** The same of the whole system, with the counter at 2 at most between two
    turns. *)
Definition settledSystem (sys : System) : Prop :=
  consecutiveErrors (vars sys) <= 2 /\
  Forall (taskSettled (consecutiveErrors (vars sys))) (suspended sys).

(** [p] leaves the counter alone or writes 0 to it once, and what it leaves
    suspended, if anything, is a start or a cycle of [cyc] at its first
    await. *)
Definition resetsOrKeeps (cyc : CycleEnv) (p : Proc (option Task)) (s : State) : Prop :=
  exists next s1 t,
    p s = (inr next, s1, t) /\
    (errorWrites t = [] /\ consecutiveErrors s1 = consecutiveErrors s \/
     errorWrites t = [0] /\ consecutiveErrors s1 = 0) /\
    match next with
    | None => True
    | Some (InCycle env point) => env = cyc /\ point = AtAvailability
    | Some (InStart _ first _) => first = cyc
    end.

(** *** Scenarios *)

Definition refused : Error := mkError "connect ECONNREFUSED 127.0.0.1:443" None.

(** A cycle whose chat send cannot connect. *)
Definition cycleSendRefused : CycleEnv :=
  mkCycleEnv false (inr true) 0 0 (inr tt) (inr "gm") (inl refused)
    (inr tt) (inr tt) 1234.

(** The six awaits of a start settle. *)
Definition startSettles : list Turn :=
  [T_settle 0; T_settle 0; T_settle 0; T_settle 0; T_settle 0; T_settle 0].

(** Two loops alive: a first loop is suspended at its chat send when the
    operator pauses and resumes; the second loop cannot reach the quota
    check twice; the send of the first loop then fails, and during its long
    pause the second loop fails once more. *)
Definition twoLoops : list Turn :=
  [T_start startsFine cycleSendRefused] ++ startSettles ++
  [T_settle 0;                                (* quota available *)
   T_settle 0;                                (* message generated, send under way *)
   T_pause;
   T_resume false cycleQuotaRefused;          (* a second loop *)
   T_settle 1;                                (* its quota check is refused *)
   T_timer cb_retry startsFine cycleQuotaRefused;
   T_settle 1;                                (* and again *)
   T_settle 0;                                (* the send of the first loop fails *)
   T_timer cb_retry startsFine cycleQuotaRefused;
   T_settle 1].                               (* refused during the long pause *)

(** One loop, the quota check refusing the connection every time. *)
Definition refusedTurns : list Turn :=
  [T_start startsFine cycleQuotaRefused] ++ startSettles ++
  [T_settle 0;
   T_timer cb_retry startsFine cycleQuotaRefused; T_settle 0;
   T_timer cb_retry startsFine cycleQuotaRefused; T_settle 0;
   T_timer cb_retry startsFine cycleQuotaRefused; T_settle 0].

(** One loop, the quota check answering 401 every time. *)
Definition unauthorizedTurns : list Turn :=
  [T_start startsFine cycleQuotaUnauthorized] ++ startSettles ++
  [T_settle 0;
   T_timer cb_retry startsFine cycleQuotaUnauthorized; T_settle 0;
   T_timer cb_retry startsFine cycleQuotaUnauthorized; T_settle 0;
   T_timer cb_retry startsFine cycleQuotaUnauthorized; T_settle 0].

End Interleaved.



(** ** The session client: token file, auth headers, login, user info, API
    requests (the rest of the module of [executeWithRetry])

    The calls to the log sinks ([log], [logToFile], [logApiRequest],
    [logApiResponse], [logApiError]) are left out of this part: they return
    nothing and nothing here depends on them.  What the program evaluates to
    build their arguments is kept where it can throw: the read of
    [cachedUserInfo.user_id] in [login]. *)

Module Session.
Import Js Auth.

(** A JSON value, as far as the module looks at it: whether it is [null]
    and whether it is truthy.  Objects and arrays are kept as their text. *)
Inductive Json : Type :=
| Jnull
| Jbool (b : bool)
| Jnum (n : Z)
| Jstr (s : string)
| Jobj (text : string).

(** A JSON value taken as a condition: [null], [false], [0] and the empty
    string are falsy. *)
Definition truthyJson (j : Json) : bool :=
  match j with
  | Jnull => false
  | Jbool b => b
  | Jnum n => negb (n =? 0)%Z
  | Jstr s => negb (String.eqb s "")
  | Jobj _ => true
  end.

(** An argument or a variable that holds a JSON value or [null], taken as a
    condition. *)
Definition truthyValue (v : option Json) : bool :=
  match v with
  | Some j => truthyJson j
  | None => false
  end.

(** A headers object, read by key. *)
Definition Headers : Type := string -> option string.

(** [{}] *)
Definition noHeaders : Headers := fun _ => None.

(** [{ ...a, ...b }]: the keys of [b] win. *)
Definition spread (a b : Headers) : Headers :=
  fun key =>
    match b key with
    | Some v => Some v
    | None => a key
    end.

(** [{ ...a, [name]: value }] *)
Definition withKey (a : Headers) (name value : string) : Headers :=
  fun key => if String.eqb key name then Some value else a key.

(** The request object handed to axios. *)
Record RequestConfig := mkRequest {
  method : string;
  url : string;
  headers : Headers;
  timeout : option Z;
  data : option Json
}.

(** The network as the module meets it: the answers the server will give to
    the next requests, and the requests sent so far.  Once the answers are
    used up every further request times out. *)
Record Net := mkNet {
  answers : list (Settled Json);
  sent : list RequestConfig
}.

Definition timedOut : Error := mkError "timeout of 10000ms exceeded" None.

(** [await axios(config)], giving [response.data]. *)
Definition axios (config : RequestConfig) (net : Net) : Settled Json * Net :=
  match answers net with
  | [] => (inl timedOut, mkNet [] (sent net ++ [config]))
  | answer :: rest => (answer, mkNet rest (sent net ++ [config]))
  end.

(** What [fileExists] and [readFile] answer for [session-token.key]. *)
Record Files := mkFiles {
  fileExists : Settled bool;
  readFile : Settled (option string)
}.

(** [let sessionToken = null; let cachedUserInfo = null;] *)
Record State := mkState {
  sessionToken : option string;
  cachedUserInfo : option Json
}.

Definition initial : State := mkState None None.

(** The module variables together with the network. *)
Record World := mkWorld { session : State; net : Net }.

Definition set_sessionToken (token : option string) (w : World) : World :=
  mkWorld (mkState token (cachedUserInfo (session w))) (net w).

Definition set_cachedUserInfo (info : option Json) (w : World) : World :=
  mkWorld (mkState (sessionToken (session w)) info) (net w).

(** A string or [null] taken as a condition. *)
Definition truthy (s : option string) : bool :=
  match s with
  | Some text => negb (String.eqb text "")
  | None => false
  end.

Definition notAuthenticated : Error :=
  mkError "Not authenticated. Please login first." None.

Definition noTokenFound : Error :=
  mkError "No session token found. Please add session-token.key file." None.

(** The TypeError of [cachedUserInfo.user_id] when [cachedUserInfo] is
    [null]. *)
Definition cannotReadUserId : Error :=
  mkError "Cannot read properties of null (reading 'user_id')" None.

Section Client.

(** [config.BASE_URL], [config.DEFAULT_HEADERS] and [String.prototype.trim]
    are not part of the module. *)
Variable BASE_URL : string.
Variable DEFAULT_HEADERS : Headers.
Variable trim : string -> string.

Definition getSessionToken (s : State) : option string := sessionToken s.

(** [readSessionTokenFromFile]: any exception gives [null]. *)
Definition readSessionTokenFromFile (files : Files) : option string :=
  match fileExists files with
  | inr true =>
      match readFile files with
      | inr (Some token) =>
          if truthy (Some token) && (0 <? String.length (trim token))%nat
          then Some (trim token)
          else None
      | inr None => None
      | inl _ => None
      end
  | inr false => None
  | inl _ => None
  end.

(** [getAuthHeaders(headers = {})] *)
Definition getAuthHeaders (extra : Headers) (s : State) : Settled Headers :=
  match sessionToken s with
  | Some token =>
      if truthy (Some token)
      then inr (withKey (spread DEFAULT_HEADERS extra) "X-Session-Token" token)
      else inl notAuthenticated
  | None => inl notAuthenticated
  end.

(** [validateRequest] of [login]. *)
Definition validateRequest : @Request World Json :=
  fun w =>
    match getAuthHeaders noHeaders (session w) with
    | inl e => (inl e, w)
    | inr h =>
        let '(answer, net1) :=
          axios (mkRequest "get" (BASE_URL ++ "/me")%string h None None) (net w) in
        match answer with
        | inr body => (inr body, mkWorld (mkState (sessionToken (session w)) (Some body)) net1)
        | inl e => (inl e, mkWorld (session w) net1)
        end
    end.

(** [login]: the token, or the error it throws.  After the validation the
    code reads [cachedUserInfo.user_id], which throws when the body the server
    sent is [null]; the [catch] then clears the token like for any other
    error. *)
Definition login (files : Files) (w : World)
  : Settled (option string) * World * list Event :=
  match readSessionTokenFromFile files with
  | None => (inl noTokenFound, set_sessionToken None w, [])
  | Some token =>
      let '(r, w1, t) :=
        executeWithRetry validateRequest "Token validation" 0
          (set_sessionToken (Some token) w) in
      match r with
      | inr _ =>
          match cachedUserInfo (session w1) with
          | None | Some Jnull => (inl cannotReadUserId, set_sessionToken None w1, t)
          | Some _ => (inr (sessionToken (session w1)), w1, t)
          end
      | inl e => (inl e, set_sessionToken None w1, t)
      end
  end.

(** [getUserRequest] of [getUserInfo]. *)
Definition getUserRequest (h : Headers) : @Request World Json :=
  fun w =>
    let '(answer, net1) :=
      axios (mkRequest "get" (BASE_URL ++ "/me")%string h (Some 10000) None) (net w) in
    (answer, mkWorld (session w) net1).

(** [getUserInfo(useCache = false)]: the cache answers when [useCache] is
    set and the cached record is truthy. *)
Definition getUserInfo (useCache : bool) (w : World)
  : Settled Json * World * list Event :=
  match (if useCache && truthyValue (cachedUserInfo (session w))
         then cachedUserInfo (session w) else None) with
  | Some info => (inr info, w, [])
  | None =>
      match getAuthHeaders noHeaders (session w) with
      | inl e => (inl e, w, [])
      | inr h =>
          let '(r, w1, t) := executeWithRetry (getUserRequest h) "Get user info" 0 w in
          match r with
          | inr userData => (inr userData, set_cachedUserInfo (Some userData) w1, t)
          | inl e => (inl e, w1, t)
          end
      end
  end.

(** [if (data) { requestConfig.data = data; }] *)
Definition requestData (body : option Json) : option Json :=
  if truthyValue body then body else None.

(** [apiRequest] of [makeApiRequest]: [data] is put in the request when it is
    truthy. *)
Definition apiRequest (verb endpoint : string) (body : option Json) (h : Headers)
  : @Request World Json :=
  fun w =>
    let '(answer, net1) :=
      axios (mkRequest verb (BASE_URL ++ endpoint)%string h (Some 10000)
               (requestData body)) (net w) in
    (answer, mkWorld (session w) net1).

(** [makeApiRequest(method, endpoint, data = null, additionalHeaders = {})] *)
Definition makeApiRequest (verb endpoint : string) (body : option Json)
    (additionalHeaders : Headers) (w : World)
  : Settled Json * World * list Event :=
  match getAuthHeaders additionalHeaders (session w) with
  | inl e => (inl e, w, [])
  | inr h =>
      executeWithRetry (apiRequest verb endpoint body h)
        (verb ++ " " ++ endpoint)%string 0 w
  end.

End Client.

(** The token held is [null] or a string that is not empty. *)
Definition tokenWellFormed (s : State) : Prop :=
  sessionToken s = None \/ truthy (sessionToken s) = true.

(** *** Scenarios *)

(** Trimming of blanks and line ends, for the scenarios. *)
Definition isBlank (c : Ascii.ascii) : bool :=
  ((Ascii.nat_of_ascii c =? 32) || (Ascii.nat_of_ascii c =? 9) ||
   (Ascii.nat_of_ascii c =? 10) || (Ascii.nat_of_ascii c =? 13))%nat.

Fixpoint trimStart (s : string) : string :=
  match s with
  | String c rest => if isBlank c then trimStart rest else s
  | EmptyString => EmptyString
  end.

Fixpoint trimEnd (s : string) : string :=
  match s with
  | String c rest =>
      match trimEnd rest with
      | EmptyString => if isBlank c then EmptyString else String c EmptyString
      | kept => String c kept
      end
  | EmptyString => EmptyString
  end.

Definition trimBlanks (s : string) : string := trimEnd (trimStart s).

Definition someHeaders : Headers :=
  fun key => if String.eqb key "Accept" then Some "application/json" else None.

(** A token file holding one token and a line end. *)
Definition tokenOnDisk : Files :=
  mkFiles (inr true) (inr (Some ("tok-123" ++ String (Ascii.ascii_of_nat 10) "")%string)).

(** No token file. *)
Definition noTokenFile : Files := mkFiles (inr false) (inr None).

Definition refusal : Settled Json :=
  inl (mkError "connect ECONNREFUSED 127.0.0.1:443" None).

(** A server that refuses two connections and then answers. *)
Definition flakyNet : Net :=
  mkNet [refusal; refusal; inr (Jobj "{user_id: 7, auth_provider: wallet}")] [].

(** A server that answers the validation with a [null] body. *)
Definition nullNet : Net := mkNet [inr Jnull] [].

(** A server that rejects the token. *)
Definition rejectingNet : Net :=
  mkNet [inl (mkError "Request failed with status code 401" (Some (mkResponse 401)))] [].

Definition freshWorld (n : Net) : World := mkWorld initial n.

End Session.

(** ** Wallet sign-in ([signMessage], [authenticate],
    [authenticateAllWallets])

    Of the log sinks the console one is traced; the file log, the line with
    the response details of a failure and the list of refreshed wallets,
    which is only logged, are left out. *)

Module Wallets.
Import Js.

(** What the outside answers while one private key is handled. *)
Record KeyAnswers := mkKeyAnswers {
  walletAddress : Settled string;   (* new Wallet(key.trim()).address *)
  randomNonce : string;             (* generateNonce() *)
  now : string;                     (* new Date().toISOString() *)
  walletSignature : Settled string; (* wallet.signMessage(message) *)
  verified : Settled string;        (* session_token of the /verify response *)
  appendFails : option Error        (* fs.appendFileSync throws *)
}.

(** The object [signMessage] returns. *)
Record SignResult := mkSignResult {
  signature : string;
  message : string;
  nonce : string;
  timestamp : string
}.

(** The body posted to [/verify]. *)
Record Payload := mkPayload {
  signedMessage : string;
  payloadMessage : string;
  referral_code : string
}.

(** The object [authenticate] returns. *)
Record AuthResult := mkAuthResult { token : string; address : string }.

Inductive Event : Type :=
| Log (text : string) (level : Automation.Level)
| Posted (payload : Payload)          (* axios.post(`${BASE_URL}/verify`, payload, ...) *)
| Appended (line : string)            (* fs.appendFileSync(tokenPath, line) *)
| Announce (total : nat)              (* the opening log line *)
| Summary (successful total : nat).   (* the closing log line *)

Definition newline : string := String (Ascii.ascii_of_nat 10) "".

(** The sign-in text of [signMessage]. *)
Definition signInText (addr nonce0 issuedAt : string) : string :=
  ("klokapp.ai wants you to sign in with your Ethereum account:" ++ newline ++
   addr ++ newline ++
   newline ++
   newline ++
   "URI: https://klokapp.ai/" ++ newline ++
   "Version: 1" ++ newline ++
   "Chain ID: 1" ++ newline ++
   "Nonce: " ++ nonce0 ++ newline ++
   "Issued At: " ++ issuedAt)%string.

Definition signMessage (addr : string) (a : KeyAnswers) : Settled SignResult :=
  let nonce0 := randomNonce a in
  let timestamp0 := now a in
  let message0 := signInText addr nonce0 timestamp0 in
  match walletSignature a with
  | inr sig => inr (mkSignResult sig message0 nonce0 timestamp0)
  | inl e => inl e
  end.

Section Config.

(** [config.REFERRAL_CODE] *)
Variable REFERRAL_CODE : string.

(** The [catch] block of [authenticate]. *)
Definition authenticateFailed (addr : string) (e : Error) : list Event :=
  [Log ("[ERROR] Failed for " ++ addr ++ ": " ++ Js.message e)%string Automation.error].

(** [authenticate(wallet)] on the token file [file]: the result or [null],
    the file afterwards, and what was done. *)
Definition authenticate (addr : string) (a : KeyAnswers) (file : string)
  : option AuthResult * string * list Event :=
  match signMessage addr a with
  | inl e => (None, file, authenticateFailed addr e)
  | inr signResult =>
      let payload :=
        mkPayload (signature signResult) (message signResult) REFERRAL_CODE in
      let before :=
        [Log ("[INFO] Authenticating for " ++ addr ++ "...")%string Automation.info;
         Posted payload] in
      match verified a with
      | inl e => (None, file, before ++ authenticateFailed addr e)
      | inr session_token =>
          let received :=
            before ++
            [Log ("[SUCCESS] Token received for " ++ addr)%string Automation.success] in
          match appendFails a with
          | Some e => (None, file, received ++ authenticateFailed addr e)
          | None =>
              (Some (mkAuthResult session_token addr),
               (file ++ session_token ++ newline)%string,
               received ++ [Appended (session_token ++ newline)%string])
          end
      end
  end.

(** The [for] loop of [authenticateAllWallets], with [tokens] as pushed so
    far. *)
Fixpoint authenticateEach (keys : list (string * KeyAnswers)) (tokens : list string)
    (file : string) : list string * string * list Event :=
  match keys with
  | [] => (tokens, file, [])
  | (key, a) :: rest =>
      match walletAddress a with
      | inl e =>
          let '(out, file1, t) := authenticateEach rest tokens file in
          (out, file1,
           Log ("[ERROR] Invalid private key: " ++ Js.message e)%string Automation.error :: t)
      | inr addr =>
          let '(result, file1, t1) := authenticate addr a file in
          let tokens1 :=
            match result with
            | Some r => tokens ++ [token r]
            | None => tokens
            end in
          let '(out, file2, t2) := authenticateEach rest tokens1 file1 in
          (out, file2, t1 ++ t2)
      end
  end.

(** [authenticateAllWallets(privateKeys)]; [None] stands for a missing
    argument. *)
Definition authenticateAllWallets (privateKeys : option (list (string * KeyAnswers)))
    (file : string) : list string * string * list Event :=
  match privateKeys with
  | None | Some [] =>
      ([], file, [Log "[ERROR] No private keys provided" Automation.error])
  | Some keys =>
      let '(tokens, file1, t) := authenticateEach keys [] file in
      (tokens, file1,
       Announce (List.length keys) :: t ++
       [Summary (List.length tokens) (List.length keys)])
  end.

End Config.

(** The key goes all the way: wallet built, message signed, token received
    and written. *)
Definition goesThrough (a : KeyAnswers) : option string :=
  match walletAddress a, walletSignature a, verified a, appendFails a with
  | inr _, inr _, inr session_token, None => Some session_token
  | _, _, _, _ => None
  end.

(** The tokens of the keys that go through, in order. *)
Fixpoint tokensOf (keys : list (string * KeyAnswers)) : list string :=
  match keys with
  | [] => []
  | (_, a) :: rest =>
      match goesThrough a with
      | Some t => t :: tokensOf rest
      | None => tokensOf rest
      end
  end.

(** The lines a list of tokens makes in the token file. *)
Fixpoint linesOf (tokens : list string) : string :=
  match tokens with
  | [] => ""
  | t :: rest => (t ++ newline ++ linesOf rest)%string
  end.

(** The requests posted, in order. *)
Fixpoint posts (t : list Event) : list Payload :=
  match t with
  | [] => []
  | Posted p :: rest => p :: posts rest
  | _ :: rest => posts rest
  end.

(** The key reaches the server: wallet built and message signed. *)
Definition reachesServer (a : KeyAnswers) : bool :=
  match walletAddress a, walletSignature a with
  | inr _, inr _ => true
  | _, _ => false
  end.

(** *** Scenarios *)

Definition keyFine (t : string) : string * KeyAnswers :=
  ("0xkey", mkKeyAnswers (inr "0xAbC") "n0" "2025-01-01T00:00:00.000Z"
              (inr "sig") (inr t) None).

Definition keyInvalid : string * KeyAnswers :=
  ("junk", mkKeyAnswers (inl (mkError "invalid private key" None)) "n1" ""
             (inr "sig") (inr "unused") None).

Definition keyRejected : string * KeyAnswers :=
  ("0xkey2", mkKeyAnswers (inr "0xDeF") "n2" "2025-01-01T00:00:00.000Z" (inr "sig")
               (inl (mkError "Request failed with status code 403"
                       (Some (mkResponse 403)))) None).

End Wallets.

(** ** The key handlers of the entry point ([s], [p], [r]) *)

Module Keys.
Import Js Automation.

(** The [s] handler; [tokenOnFile] is what [auth.readSessionTokenFromFile()]
    returns. *)
Definition pressS (tokenOnFile : option string) (env : StartEnv) (first : CycleEnv)
  : Proc unit :=
  running <- getRunningState ;;
  if negb running then
    if Session.truthy tokenOnFile then
      emit (Log [Str "Starting automation..."] info) ;;
      emit (LogToFile [Str "Starting automation (user initiated)"]) ;;
      spawn (startAutomation env first)
    else
      emit (Log [Str "No session token file found. Please add session-token.key file."]
                error) ;;
      emit (UpdateStatus [Str "Missing session-token.key"] error) ;;
      emit Render
  else
    emit (Log [Str "Automation already running"] warning) ;;
    emit (LogToFile [Str "Start request ignored - automation already running"]).

(** The [p] handler. *)
Definition pressP : Proc unit :=
  running <- getRunningState ;;
  if running then
    emit (Log [Str "Pausing automation..."] info) ;;
    emit (LogToFile [Str "Pausing automation (user initiated)"]) ;;
    pauseAutomation
  else
    emit (Log [Str "Automation not running"] warning) ;;
    emit (LogToFile [Str "Pause request ignored - automation not running"]).

(** The [r] handler. *)
Definition pressR (isCooldownActive : bool) (first : CycleEnv) : Proc unit :=
  running <- getRunningState ;;
  if negb running then
    emit (Log [Str "Resuming automation..."] info) ;;
    emit (LogToFile [Str "Resuming automation (user initiated)"]) ;;
    resumeAutomation isCooldownActive first
  else
    emit (Log [Str "Automation already running"] warning) ;;
    emit (LogToFile [Str "Resume request ignored - automation already running"]).

(** The calls a trace makes to the session and chat services. *)
Fixpoint serviceCalls (t : Trace) : list Effect :=
  match t with
  | [] => []
  | Login :: rest => Login :: serviceCalls rest
  | SendChatMessage m :: rest => SendChatMessage m :: serviceCalls rest
  | _ :: rest => serviceCalls rest
  end.

End Keys.

(** ** Further scenarios *)

Module Scenarios.
Import Js Auth.

(** An operation refused [k] times and rejected for good (HTTP 401) from
    then on. *)
Definition refusedThenUnauthorized (k : nat) : @Request nat Z :=
  fun calls =>
    (if (calls <? k)%nat
     then inl (mkError "connect ECONNREFUSED 127.0.0.1:443" None)
     else inl (mkError "Request failed with status code 401" (Some (mkResponse 401))),
     S calls).

End Scenarios.

(** ** Views of a cycle and of a start *)

Module Views.
Import Js Automation.

(** The cycle finds the quota used up and the cooldown coordinator takes the
    loop over. *)
Definition handsOver (env : CycleEnv) : bool :=
  negb (cooldownActive env) &&
  match rateLimitAvailable env, cooldownStarted env with
  | inr false, inr _ => true
  | _, _ => false
  end.

(** The same cycle with other answers to the two display refreshes. *)
Definition withRefresh (env : CycleEnv) (points limits : Settled unit) : CycleEnv :=
  mkCycleEnv (cooldownActive env) (rateLimitAvailable env) (lastKnownResetTime env)
    (displayTimer env) (cooldownStarted env) (generatedMessage env) (chatSent env)
    points limits (randomJitter env).

(** The error of the first step of a start that fails, if any does. *)
Definition firstStartError (env : StartEnv) : option Error :=
  match start_login env, start_getUserInfo env, start_getUserPoints env,
        start_getRateLimit env, start_getModels env, start_selectDefaultModel env with
  | inl e, _, _, _, _, _ => Some e
  | _, inl e, _, _, _, _ => Some e
  | _, _, inl e, _, _, _ => Some e
  | _, _, _, inl e, _, _ => Some e
  | _, _, _, _, inl e, _ => Some e
  | _, _, _, _, _, inl e => Some e
  | _, _, _, _, _, _ => None
  end.

(** A start whose login cannot connect. *)
Definition startRefused : StartEnv :=
  mkStartEnv (inl (mkError "connect ECONNREFUSED 127.0.0.1:443" None))
    (inr tt) (inr tt) (inr tt) (inr tt) (inr tt).

(** A cycle that finds the quota used up. *)
Definition cycleQuotaUsedUp : CycleEnv :=
  mkCycleEnv false (inr false) 1700000000000 7 (inr tt) (inr "gm") (inr tt) (inr tt)
    (inr tt) 1234.

Definition refreshFails : Settled unit :=
  inl (mkError "Request failed with status code 500" (Some (mkResponse 500))).

End Views.

Import Js Auth Automation.

(** * Proof automation *)

(** Runs a procedure of the module symbolically, as far as the answers of
    the collaborators are known; a cycle of the loop is left folded. *)
Ltac outer_eval :=
  cbv beta iota zeta delta
    [startAutomation resumeAutomation
     pauseAutomation call_automationLoop fire dispatch spawn emit await
     set_isRunning set_cooldownTimer set_consecutiveErrors
     incr_consecutiveErrors Proc_ret Proc_bind Proc_catch
     Monad_Proc MonadState_Proc MonadExc_Proc ret bind get put gets catch
     stateOf traceOf fst snd
     isRunning consecutiveErrors cooldownTimer
     cooldownActive rateLimitAvailable lastKnownResetTime displayTimer
     cooldownStarted generatedMessage chatSent pointsFetched rateLimitFetched
     randomJitter
     start_login start_getUserInfo start_getUserPoints start_getRateLimit
     start_getModels start_selectDefaultModel];
  cbn [app negb];
  cbn [settledTransient] in *.

(** The same, entering the cycle as well. *)
Ltac proc_eval :=
  cbv beta iota zeta delta [automationLoop loopBody onChatError onLoopError];
  outer_eval.

Ltac proc_case :=
  match goal with
  | u : unit |- _ => destruct u
  | |- context [match ?x with inl _ => _ | inr _ => _ end] =>
      is_var x; destruct x
  | |- context [negb ?x] => is_var x; destruct x
  | H : ?b = _ |- context [if ?b then _ else _] => rewrite H
  | |- context [if ?b then _ else _] =>
      first [ is_var b; destruct b
            | let v := eval vm_compute in b in
              match v with
              | true => change b with true
              | false => change b with false
              end
            | destruct b eqn:? ]
  end.

Ltac outer_run := outer_eval; repeat (proc_case; outer_eval).
Ltac proc_run := proc_eval; repeat (proc_case; proc_eval).

Ltac cmp_to_Z :=
  repeat match goal with
         | H : (_ >=? _) = true |- _ => apply Z.geb_le in H
         | H : (_ >=? _) = false |- _ => rewrite Z.geb_leb in H; apply Z.leb_gt in H
         | H : (_ >? _) = true |- _ => apply Z.gtb_lt in H
         | H : (_ >? _) = false |- _ => rewrite Z.gtb_ltb in H; apply Z.ltb_ge in H
         end;
  unfold MAX_CONSECUTIVE_ERRORS in *.

Ltac split_transient H :=
  unfold inputTransient, cycleTransient in H;
  repeat match type of H with
         | (_ && _) = true =>
             let H' := fresh "Htr" in
             apply andb_true_iff in H; destruct H as [H H']
         end.

Ltac counter_done :=
  cmp_to_Z; cbn [errorWrites]; repeat split; repeat constructor;
  solve [lia | discriminate | congruence].

(** Replaces the cycle met in the goal by its result, with what [lem] says
    about it. *)
Ltac use_cycle lem :=
  match goal with
  | |- context [automationLoop ?env ?s] =>
      let H := fresh "Hcycle" in
      pose proof (lem env s) as H;
      destruct (automationLoop env s) as [[? ?] ?];
      unfold stateOf, traceOf in H;
      cbn [fst snd consecutiveErrors isRunning] in H
  end.

(** Finishes a goal on the counter once the cycle met in it is replaced by
    what [lem] says. *)
Ltac after_cycle lem :=
  use_cycle lem; outer_eval; cbn [errorWrites];
  match goal with
  | H : _ -> _ |- _ =>
      let Hw := fresh "Hw" in
      let Hc := fresh "Hc" in
      destruct H as [Hw Hc]; [solve [assumption | lia | cbn; lia] .. |];
      split; [repeat (constructor; [unfold MAX_CONSECUTIVE_ERRORS; lia |]); exact Hw
             | exact Hc]
  end.

(** Runs a piece of a call between two awaits. *)
Ltac piece_eval :=
  cbv beta iota zeta delta
    [Interleaved.enterBody Interleaved.resumeBody Interleaved.guarded
     Interleaved.enterCycle Interleaved.resumeCycle Interleaved.detached
     Interleaved.callLoop Interleaved.onStartError Interleaved.enterStart
     Interleaved.resumeStart Interleaved.pauseTurn Interleaved.resumeTurn
     Interleaved.fireTurn Interleaved.resumeTask Interleaved.suspend
     Interleaved.finished Interleaved.settle option_map
     Interleaved.finishTask Interleaved.uninterrupted];
  proc_eval.

Ltac piece_run := piece_eval; repeat (proc_case; piece_eval).

(** The same, a call of the loop being left folded. *)
Ltac turn_eval :=
  cbv beta iota zeta delta
    [Interleaved.onStartError Interleaved.enterStart
     Interleaved.resumeStart Interleaved.pauseTurn Interleaved.resumeTurn
     Interleaved.fireTurn Interleaved.resumeTask Interleaved.detached
     Interleaved.suspend Interleaved.finished Interleaved.settle
     Interleaved.uninterrupted
     startAutomation resumeAutomation pauseAutomation fire call_automationLoop
     spawn emit await
     set_isRunning set_cooldownTimer set_consecutiveErrors
     incr_consecutiveErrors Proc_ret Proc_bind Proc_catch
     Monad_Proc MonadState_Proc MonadExc_Proc ret bind get put gets catch
     isRunning consecutiveErrors cooldownTimer
     start_login start_getUserInfo start_getUserPoints start_getRateLimit
     start_getModels start_selectDefaultModel];
  cbn [app negb].

Ltac turn_eval_in H :=
  cbv beta iota zeta delta
    [Interleaved.uninterrupted call_automationLoop spawn emit
     Proc_ret Proc_bind Monad_Proc ret bind] in H;
  cbn [app] in H.

(** Closes a goal in which both sides go on with the same call of the loop,
    [H] saying what that call does. *)
Ltac by_cycle H :=
  match goal with
  | |- context [automationLoop ?env ?s] =>
      destruct (automationLoop env s) as [[? ?] ?]
  end;
  match goal with
  | |- context [Interleaved.callLoop ?env ?s] =>
      destruct (Interleaved.callLoop env s) as [[[? | ?] ?] ?]
  end;
  [discriminate H |];
  match goal with
  | |- context [Interleaved.finishTask ?f ?n ?s] =>
      destruct (Interleaved.finishTask f n s) as [[? ?] ?]
  end;
  inversion H; subst; reflexivity.

(** Shows that a piece leaves the counter alone or resets it, [quiet] saying
    so of the call of the loop it may end with and [writes_app] how the
    writes of two traces add up. *)
Ltac gentle_with quiet writes_app :=
  unfold Interleaved.resetsOrKeeps; turn_eval;
  repeat match goal with
         | |- context [Interleaved.callLoop ?env ?s] =>
             let next := fresh "next" in
             let t := fresh "t" in
             let Hcall := fresh "Hcall" in
             let Hwrites := fresh "Hwrites" in
             let Hnext := fresh "Hnext" in
             destruct (quiet env s) as (next & t & Hcall & Hwrites & Hnext);
             rewrite Hcall
         | |- context [match ?x with inl _ => _ | inr _ => _ end] =>
             is_var x; destruct x as [? | []]; turn_eval
         | |- context [if ?b then _ else _] => destruct b; turn_eval
         end;
  do 3 eexists; (split; [reflexivity |]);
  cbn [errorWrites consecutiveErrors app]; rewrite ?writes_app;
  repeat match goal with
         | H : errorWrites _ = [] |- _ => rewrite H
         end;
  cbn [app];
  (split; [auto |]);
  repeat match goal with
         | H : _ \/ _ |- _ => destruct H
         end; subst; cbn; auto.

(** * Properties of the retry executor *)

Section ExecutorFacts.
Context {World A : Type} (requestName : string).
Implicit Types (requestFn : @Request World A) (w : World).

(** The body of [executeWithRetry], one call deep. *)
Lemma executeWithRetry_unfold requestFn retryCount w :
  executeWithRetry requestFn requestName retryCount w =
  match requestFn w with
  | (inr value, w1) => (inr value, w1, [Invoke])
  | (inl err, w1) =>
      if transient err && (retryCount <? MAX_RETRIES)%nat then
        let '(r, w2, t) := executeWithRetry requestFn requestName (retryCount + 1) w1 in
        (r, w2, Invoke :: LogRetry requestName err (retryCount + 1) (retryDelay retryCount)
                  :: Wait (retryDelay retryCount) :: t)
      else (inl err, w1, [Invoke])
  end.
Proof.
  funelim (executeWithRetry requestFn requestName retryCount w);
    repeat match goal with
           | H : requestFn _ = _ |- _ => rewrite H; clear H
           | H : (isNetworkError _ || isServerError _) = _ |- _ =>
               unfold transient; rewrite H; clear H
           end;
    try reflexivity.
  - destruct (Nat.ltb_spec retryCount MAX_RETRIES); [reflexivity | lia].
  - destruct (Nat.ltb_spec retryCount MAX_RETRIES); [lia |].
    rewrite andb_false_r. reflexivity.
Qed.

Lemma executeWithRetry_starts_with_call requestFn retryCount w :
  exists rest, snd (executeWithRetry requestFn requestName retryCount w) = Invoke :: rest.
Proof.
  rewrite executeWithRetry_unfold.
  destruct (requestFn w) as [[err | value] w1]; [| eexists; reflexivity].
  destruct (transient err && (retryCount <? MAX_RETRIES)%nat);
    [| eexists; reflexivity].
  destruct (executeWithRetry requestFn requestName (retryCount + 1) w1) as [[r w2] t].
  eexists; reflexivity.
Qed.

Lemma failsTransiently_head requestFn w n :
  failsTransiently requestFn w (S n) ->
  exists err w1, requestFn w = (inl err, w1) /\ transient err = true /\
                   failsTransiently requestFn w1 n.
Proof.
  intros H. destruct (H O) as [err [H0 Ht]]; [lia |].
  unfold attempt in H0. simpl in H0.
  destruct (requestFn w) as [r w1] eqn:E. simpl in H0. subst r.
  exists err, w1. repeat split; trivial.
  intros i Hi. specialize (H (S i) ltac:(lia)).
  unfold attempt in *. simpl in H. rewrite E in H. exact H.
Qed.

(** A success after [n] transient failures is reached while retries remain. *)
Lemma retry_reaches_success requestFn n : forall retryCount w value,
  (retryCount + n <= MAX_RETRIES)%nat ->
  failsTransiently requestFn w n ->
  attempt requestFn w n = inr value ->
  fst (fst (executeWithRetry requestFn requestName retryCount w)) = inr value /\
  invocations (snd (executeWithRetry requestFn requestName retryCount w)) = S n.
Proof.
  induction n as [| n IH]; intros retryCount w value Hle Hfail Hok.
  - rewrite executeWithRetry_unfold. unfold attempt in Hok. simpl in Hok.
    destruct (requestFn w) as [r w1]. simpl in Hok. subst r. split; reflexivity.
  - destruct (failsTransiently_head _ _ _ Hfail) as [err [w1 [E [Ht Hrest]]]].
    assert (Hok' : attempt requestFn w1 n = inr value).
    { unfold attempt in *. simpl in Hok. rewrite E in Hok. exact Hok. }
    rewrite executeWithRetry_unfold, E, Ht.
    destruct (Nat.ltb_spec retryCount MAX_RETRIES); [| lia]. simpl.
    destruct (IH (retryCount + 1)%nat w1 value ltac:(lia) Hrest Hok') as [Hr Hn].
    destruct (executeWithRetry requestFn requestName (retryCount + 1) w1) as [[r w2] t].
    simpl in *. split; [exact Hr | now rewrite Hn].
Qed.

(** When every attempt fails transiently, the run stops at the attempt made
    with [retryCount = MAX_RETRIES] and throws that attempt's error. *)
Lemma retry_runs_out requestFn n : forall retryCount w,
  (retryCount + n = MAX_RETRIES)%nat ->
  failsTransiently requestFn w (S n) ->
  fst (fst (executeWithRetry requestFn requestName retryCount w)) = attempt requestFn w n /\
  invocations (snd (executeWithRetry requestFn requestName retryCount w)) = S n.
Proof.
  induction n as [| n IH]; intros retryCount w Heq Hfail.
  - destruct (failsTransiently_head _ _ _ Hfail) as [err [w1 [E [Ht _]]]].
    rewrite executeWithRetry_unfold. unfold attempt. simpl. rewrite E, Ht.
    destruct (Nat.ltb_spec retryCount MAX_RETRIES); [lia |].
    split; reflexivity.
  - destruct (failsTransiently_head _ _ _ Hfail) as [err [w1 [E [Ht Hrest]]]].
    rewrite executeWithRetry_unfold, E, Ht.
    destruct (Nat.ltb_spec retryCount MAX_RETRIES); [| lia]. simpl.
    destruct (IH (retryCount + 1)%nat w1 ltac:(lia) Hrest) as [Hr Hn].
    destruct (executeWithRetry requestFn requestName (retryCount + 1) w1) as [[r w2] t].
    simpl in *. split; [| now rewrite Hn].
    rewrite Hr. unfold attempt. simpl. rewrite E. reflexivity.
Qed.

(** C3 (as the code has it): for an operation whose failures are all
    transient-classified, the executor makes one first attempt and up to
    [MAX_RETRIES = 5] retries, that is [min (6, attempts-until-success)]
    invocations; when the success comes within these six attempts its value
    is returned, and when all six fail the error of the sixth one is
    thrown. *)
Theorem retry_invocation_count requestFn w (n : nat) :
  failsTransiently requestFn w n ->
  let outcome := executeWithRetry requestFn requestName 0 w in
  (forall value, attempt requestFn w n = inr value ->
     (n <= MAX_RETRIES)%nat ->
     fst (fst outcome) = inr value /\
     invocations (snd outcome) = Nat.min (MAX_RETRIES + 1) (n + 1)) /\
  ((MAX_RETRIES < n)%nat ->
     fst (fst outcome) = attempt requestFn w MAX_RETRIES /\
     (exists err, attempt requestFn w MAX_RETRIES = inl err) /\
     invocations (snd outcome) = (MAX_RETRIES + 1)%nat).
Proof.
  intros Hfail outcome. split.
  - intros value Hok Hle.
    destruct (retry_reaches_success requestFn n 0%nat w value) as [Hr Hn];
      trivial.
    split; [exact Hr |]. subst outcome. rewrite Hn. lia.
  - intros Hlt.
    assert (Hsix : failsTransiently requestFn w (S MAX_RETRIES)).
    { intros i Hi. apply Hfail. lia. }
    destruct (retry_runs_out requestFn MAX_RETRIES 0%nat w) as [Hr Hn]; trivial.
    split; [exact Hr |]. split.
    + destruct (Hfail MAX_RETRIES Hlt) as [err [He _]]. now exists err.
    + subst outcome. rewrite Hn. lia.
Qed.

(** C4: an operation whose failure is terminal-classified is invoked exactly
    once; the executor throws the very error it caught, retries nothing and
    waits for nothing. *)
Theorem terminal_error_not_retried requestFn retryCount w err w1 :
  requestFn w = (inl err, w1) ->
  isNetworkError err = false ->
  isServerError err = false ->
  executeWithRetry requestFn requestName retryCount w = (inl err, w1, [Invoke]) /\
  invocations (snd (executeWithRetry requestFn requestName retryCount w)) = 1%nat /\
  waits (snd (executeWithRetry requestFn requestName retryCount w)) = [].
Proof.
  intros E Hnet Hsrv.
  assert (Hrun : executeWithRetry requestFn requestName retryCount w = (inl err, w1, [Invoke])).
  { rewrite executeWithRetry_unfold, E. unfold transient.
    rewrite Hnet, Hsrv. reflexivity. }
  rewrite Hrun. repeat split.
Qed.

Lemma retry_delay_from requestFn (fuel : nat) : forall retryCount w k,
  (MAX_RETRIES - retryCount <= fuel)%nat ->
  (2 <= k <= invocations (snd (executeWithRetry requestFn requestName retryCount w)))%nat ->
  delayBefore k (snd (executeWithRetry requestFn requestName retryCount w)) =
  Some [retryDelay (retryCount + k - 2)].
Proof.
  unfold delayBefore.
  induction fuel as [| fuel IH]; intros retryCount w k Hfuel Hk;
    rewrite executeWithRetry_unfold in *;
    destruct (requestFn w) as [[err | value] w1]; simpl in Hk; try lia.
  - destruct (Nat.ltb_spec retryCount MAX_RETRIES); [lia |].
    rewrite andb_false_r in *. simpl in Hk. lia.
  - destruct (transient err && (retryCount <? MAX_RETRIES)%nat) eqn:Hc;
      [| simpl in Hk; lia].
    apply andb_true_iff in Hc. destruct Hc as [_ Hlt].
    apply Nat.ltb_lt in Hlt.
    specialize (IH (retryCount + 1)%nat w1).
    destruct (executeWithRetry_starts_with_call requestFn (retryCount + 1) w1)
      as [rest Hrest].
    destruct (executeWithRetry requestFn requestName (retryCount + 1) w1) as [[r w2] t].
    cbn [snd] in *. subst t. cbn [invocations] in *.
    destruct k as [| [| [| k]]]; try lia.
    + cbn. do 3 f_equal. lia.
    + cbn [waitsBefore app].
      specialize (IH (S (S k)) ltac:(lia) ltac:(lia)).
      cbn [waitsBefore] in IH. rewrite IH.
      do 3 f_equal. lia.
Qed.

(** C5 (as the code has it): the first attempt is made with no prior delay,
    and the delay waited before attempt [k >= 2] is
    [2000 * 1.5 ^ (k - 2)] milliseconds: 2000 ms before the second attempt,
    growing by half with every further one. *)
Theorem retry_delay_schedule requestFn w (k : nat) :
  let t := snd (executeWithRetry requestFn requestName 0 w) in
  delayBefore 1 t = Some [] /\
  ((2 <= k <= invocations t)%nat ->
   delayBefore k t =
   Some [(RETRY_DELAY_MS * RETRY_MULTIPLIER ^ (Z.of_nat k - 2))%Q]).
Proof.
  intros t. split.
  - destruct (executeWithRetry_starts_with_call requestFn 0 w) as [rest Hrest].
    subst t. rewrite Hrest. reflexivity.
  - intros Hk. subst t.
    rewrite (retry_delay_from requestFn MAX_RETRIES 0%nat w k); [| lia | exact Hk].
    unfold retryDelay. do 4 f_equal. lia.
Qed.

End ExecutorFacts.


(** ** The executor on concrete operations *)

Lemma refused_fails_transiently k n :
  (n <= k)%nat -> failsTransiently (refusedThenOk k) 0%nat n.
Proof.
  intros Hle i Hi.
  exists (mkError "connect ECONNREFUSED 127.0.0.1:443" None).
  split; [| reflexivity].
  assert (Hw : forall m w, worldAfter (refusedThenOk k) w m = (m + w)%nat).
  { induction m as [| m IH]; intros w; [reflexivity |].
    cbn [worldAfter]. rewrite IH. cbn. lia. }
  unfold attempt. rewrite Hw. unfold refusedThenOk. cbn [fst].
  destruct (Nat.ltb_spec (i + 0) k); [reflexivity | lia].
Qed.

Lemma retry_invocation_count_witness :
  (fst (fst (executeWithRetry (refusedThenOk 2) "GET /points" 0 0%nat)) = inr 7 /\
   invocations (snd (executeWithRetry (refusedThenOk 2) "GET /points" 0 0%nat)) =
   Nat.min (MAX_RETRIES + 1) (2 + 1)) /\
  (fst (fst (executeWithRetry (refusedThenOk 9) "GET /points" 0 0%nat)) =
   attempt (refusedThenOk 9) 0%nat MAX_RETRIES /\
   (exists err, attempt (refusedThenOk 9) 0%nat MAX_RETRIES = inl err) /\
   invocations (snd (executeWithRetry (refusedThenOk 9) "GET /points" 0 0%nat)) =
   (MAX_RETRIES + 1)%nat).
Proof.
  split.
  - apply (proj1 (retry_invocation_count "GET /points" (refusedThenOk 2) 0%nat 2
                    (refused_fails_transiently 2 2 (le_n 2))) 7).
    + reflexivity.
    + unfold MAX_RETRIES. lia.
  - apply (proj2 (retry_invocation_count "GET /points" (refusedThenOk 9) 0%nat 9
                    (refused_fails_transiently 9 9 (le_n 9)))).
    unfold MAX_RETRIES. lia.
Defined.

(** Against C3 as stated: an operation refused five times answers on its
    sixth invocation, and the executor makes that sixth invocation and
    returns the answer, where [min (5, 6)] invocations and a thrown error
    were claimed. *)
Lemma sixth_attempt_is_made_cex :
  let outcome := executeWithRetry (refusedThenOk 5) "GET /points" 0 0%nat in
  failsTransiently (refusedThenOk 5) 0%nat 5 /\
  attempt (refusedThenOk 5) 0%nat 5 = inr 7 /\
  fst (fst outcome) = inr 7 /\
  invocations (snd outcome) = 6%nat /\
  invocations (snd outcome) <> Nat.min MAX_RETRIES 6.
Proof.
  cbv zeta. split; [apply refused_fails_transiently; lia |].
  split; [reflexivity |]. split; [reflexivity |]. split; [reflexivity |].
  vm_compute. discriminate.
Qed.

Lemma terminal_error_not_retried_witness :
  executeWithRetry unauthorized "GET /points" 0 0%nat =
    (inl (mkError "Request failed with status code 401" (Some (mkResponse 401))),
     1%nat, [Invoke]) /\
  invocations (snd (executeWithRetry unauthorized "GET /points" 0 0%nat)) = 1%nat /\
  waits (snd (executeWithRetry unauthorized "GET /points" 0 0%nat)) = [].
Proof.
  apply (terminal_error_not_retried "GET /points" unauthorized 0%nat 0%nat); reflexivity.
Defined.

Lemma retry_delay_schedule_witness :
  delayBefore 1 (snd (executeWithRetry (refusedThenOk 9) "GET /points" 0 0%nat)) = Some [] /\
  delayBefore 3 (snd (executeWithRetry (refusedThenOk 9) "GET /points" 0 0%nat)) =
  Some [(RETRY_DELAY_MS * RETRY_MULTIPLIER ^ (Z.of_nat 3 - 2))%Q].
Proof.
  split.
  - apply (proj1 (retry_delay_schedule "GET /points" (refusedThenOk 9) 0%nat 3)).
  - apply (proj2 (retry_delay_schedule "GET /points" (refusedThenOk 9) 0%nat 3)).
    vm_compute. lia.
Defined.

(** The delays of a run that uses up its retries, in milliseconds. *)
Lemma retry_delays_in_ms :
  Forall2 Qeq (waits (snd (executeWithRetry (refusedThenOk 9) "GET /points" 0 0%nat)))
          [2000; 3000; 4500; 6750; 10125]%Q.
Proof. repeat constructor. Qed.

(** Against C5 as stated: the delay before the second attempt is 2000 ms,
    not [2000 * 1.5 ^ (2 - 1)] = 3000 ms. *)
Lemma second_attempt_delay_cex :
  delayBefore 2 (snd (executeWithRetry (refusedThenOk 1) "GET /points" 0 0%nat)) = Some [2000%Q] /\
  ~ (2000 == RETRY_DELAY_MS * RETRY_MULTIPLIER ^ (2 - 1))%Q.
Proof.
  split; [reflexivity |]. vm_compute. discriminate.
Qed.

(** * Properties of the run-state machine and the loop *)

(** ** Reading traces *)

Lemma errorWrites_app t1 t2 :
  errorWrites (t1 ++ t2) = errorWrites t1 ++ errorWrites t2.
Proof.
  induction t1 as [| e t1 IH]; [reflexivity |].
  destruct e; cbn; rewrite ?IH; reflexivity.
Qed.

Lemma timeouts_app t1 t2 : timeouts (t1 ++ t2) = timeouts t1 ++ timeouts t2.
Proof.
  induction t1 as [| e t1 IH]; [reflexivity |].
  destruct e; cbn; rewrite ?IH; reflexivity.
Qed.

Lemma backoffs_app t1 t2 : backoffs (t1 ++ t2) = backoffs t1 ++ backoffs t2.
Proof.
  induction t1 as [| e t1 IH]; [reflexivity |].
  destruct e as [| | | | | | | | | | | | | | | | | | | | | | [] ms | |];
    cbn; rewrite ?IH; reflexivity.
Qed.

Lemma run_cons i rest s :
  stateOf (run (i :: rest) s) = stateOf (run rest (stateOf (dispatch i s))) /\
  traceOf (run (i :: rest) s) =
  traceOf (dispatch i s) ++ traceOf (run rest (stateOf (dispatch i s))).
Proof.
  cbn [run]. unfold stateOf, traceOf.
  cbv beta iota zeta delta [bind Monad_Proc Proc_bind spawn].
  destruct (dispatch i s) as [[r s1] t1]. cbn [fst snd].
  destruct (run rest s1) as [[r2 s2] t2]. split; reflexivity.
Qed.

(** ** One cycle *)

(** [automationLoop] never rejects, leaves [isRunning] alone and does not
    call itself. *)
Lemma automationLoop_cycle env s :
  fst (fst (automationLoop env s)) = inr tt /\
  isRunning (stateOf (automationLoop env s)) = isRunning s /\
  forall c, errorsAtLoopCalls c (traceOf (automationLoop env s)) = [].
Proof.
  destruct env, s as [r timer n].
  repeat split; try intros c; proc_run; reflexivity.
Qed.

Lemma cycle_nonneg env s :
  0 <= consecutiveErrors s ->
  Forall (fun n => 0 <= n) (errorWrites (traceOf (automationLoop env s))) /\
  0 <= consecutiveErrors (stateOf (automationLoop env s)).
Proof.
  intros Hc. destruct s as [r timer n], env. cbn in Hc.
  proc_run; counter_done.
Qed.

Lemma cycle_bounded env s :
  cycleTransient env = true ->
  consecutiveErrors s <= 2 ->
  Forall (fun n => n <= MAX_CONSECUTIVE_ERRORS)
         (errorWrites (traceOf (automationLoop env s))) /\
  consecutiveErrors (stateOf (automationLoop env s)) <= 2.
Proof.
  intros Htr Hc. destruct s as [r timer n], env. cbn in Hc.
  split_transient Htr. cbn in *.
  proc_run; counter_done.
Qed.

(** C8: a cycle that finds the cooldown active sends no chat message; all it
    does is check the log size and schedule the same check one second
    later. *)
Theorem cooldown_cycle_only_reschedules env s :
  cooldownActive env = true ->
  chatSends (traceOf (automationLoop env s)) = [] /\
  (isRunning s = true ->
   automationLoop env s =
   (inr tt, s, [CheckLogSize; SetTimeout cb_automationLoop 1000])).
Proof.
  intros Hcd. destruct env; cbn in Hcd; subst.
  destruct s as [[|] timer n]; split; proc_run; try reflexivity; discriminate.
Qed.

Lemma cooldown_cycle_only_reschedules_witness :
  chatSends (traceOf (automationLoop cycleCoolingDown runningState)) = [] /\
  automationLoop cycleCoolingDown runningState =
  (inr tt, runningState, [CheckLogSize; SetTimeout cb_automationLoop 1000]).
Proof.
  split.
  - apply (proj1 (cooldown_cycle_only_reschedules cycleCoolingDown runningState
                    eq_refl)).
  - apply (proj2 (cooldown_cycle_only_reschedules cycleCoolingDown runningState
                    eq_refl)).
    reflexivity.
Defined.

(** ** Start, pause and resume *)

Lemma start_while_running env first s :
  isRunning s = true ->
  startAutomation env first s =
  (inr tt, s, [Log [Str "Automation already running"] warning]).
Proof.
  intros Hrun. destruct s as [r timer n]. cbn in Hrun. subst r.
  outer_run. reflexivity.
Qed.

Lemma start_from_stopped env first s :
  isRunning s = false ->
  startSucceeds env = true ->
  isRunning (stateOf (startAutomation env first s)) = true /\
  loopCalls (traceOf (startAutomation env first s)) = 1%nat.
Proof.
  intros Hrun Hok. destruct s as [r timer n]. cbn in Hrun. subst r.
  destruct env as [[|[]] [|[]] [|[]] [|[]] [|[]] [|[]]]; try discriminate Hok.
  clear Hok. unfold loopCalls.
  split; outer_run; use_cycle automationLoop_cycle;
    destruct Hcycle as (_ & Hrun & Hcalls); outer_eval;
    [exact Hrun | cbn [errorsAtLoopCalls]; rewrite Hcalls; reflexivity].
Qed.

(** C9: after a start that went through, a second [startAutomation()] finds
    the run flag set, changes nothing, calls no [automationLoop()] and only
    logs a warning. *)
Theorem second_start_is_noop env1 first1 env2 first2 s :
  isRunning s = false ->
  startSucceeds env1 = true ->
  let s1 := stateOf (startAutomation env1 first1 s) in
  let second := startAutomation env2 first2 s1 in
  isRunning s1 = true /\
  loopCalls (traceOf (startAutomation env1 first1 s)) = 1%nat /\
  second = (inr tt, s1, [Log [Str "Automation already running"] warning]) /\
  loopCalls (traceOf second) = 0%nat /\
  logLevels (traceOf second) = [warning].
Proof.
  intros Hstopped Hok s1 second.
  destruct (start_from_stopped env1 first1 s Hstopped Hok) as [Hrun Hcalls].
  assert (Hsecond : second = (inr tt, s1, [Log [Str "Automation already running"] warning]))
    by (apply start_while_running; exact Hrun).
  repeat split; trivial; rewrite Hsecond; reflexivity.
Qed.

Lemma second_start_is_noop_witness :
  let s1 := stateOf (startAutomation startsFine cycleFine initial) in
  let second := startAutomation startsFine cycleFine s1 in
  isRunning s1 = true /\
  loopCalls (traceOf (startAutomation startsFine cycleFine initial)) = 1%nat /\
  second = (inr tt, s1, [Log [Str "Automation already running"] warning]) /\
  loopCalls (traceOf second) = 0%nat /\
  logLevels (traceOf second) = [warning].
Proof.
  apply (second_start_is_noop startsFine cycleFine startsFine cycleFine initial);
    reflexivity.
Defined.

(** C10: a start from the stopped state and a resume that goes through both
    write 0 to the counter before they call [automationLoop()], whatever the
    counter was.  The beginning of the start, up to its first await, leaves
    the run flag set and the counter at 0; the resume does the same and
    enters the loop at once, the counter being 0.  Taken whole, with nothing
    else running in between, both enter the first cycle from the module
    variables with the run flag set and [consecutiveErrors = 0], and a start
    that fails before it reaches the loop leaves the counter at 0 as
    well. *)
Theorem start_and_resume_reset_errors s :
  isRunning s = false ->
  let entry := mkState true (cooldownTimer s) 0 in
  (forall env first,
     Interleaved.enterStart env first s =
     (inr (Some (Interleaved.InStart env first Interleaved.AtLogin)), entry,
      [SetErrors 0; UpdateStatus [Str "Starting..."] info; Render; CheckLogSize;
       Log [Str "Starting login..."] info; Login])) /\
  (forall first,
     exists next t,
       Interleaved.resumeTurn false first s =
       (inr next, entry,
        [SetErrors 0; UpdateStatus [Str "Running"] success;
         Log [Str "Automation resumed"] success;
         LogToFile [Str "Automation resumed"]; Render; CallAutomationLoop] ++ t) /\
       errorWrites t = [] /\
       (next = None \/
        next = Some (Interleaved.InCycle first Interleaved.AtAvailability))) /\
  (forall env first,
     let r := startAutomation env first s in
     hd_error (errorWrites (traceOf r)) = Some 0 /\
     Forall (eq 0) (errorsAtLoopCalls (consecutiveErrors s) (traceOf r)) /\
     (startSucceeds env = true ->
      errorsAtLoopCalls (consecutiveErrors s) (traceOf r) = [0] /\
      stateOf r = stateOf (automationLoop first entry) /\
      exists before,
        traceOf r = before ++ CallAutomationLoop :: traceOf (automationLoop first entry) /\
        errorWrites before = [0] /\ loopCalls before = 0%nat) /\
     (startSucceeds env = false ->
      stateOf r = mkState false (cooldownTimer s) 0 /\
      errorWrites (traceOf r) = [0] /\ loopCalls (traceOf r) = 0%nat)) /\
  (forall first,
     let r := resumeAutomation false first s in
     hd_error (errorWrites (traceOf r)) = Some 0 /\
     errorsAtLoopCalls (consecutiveErrors s) (traceOf r) = [0] /\
     stateOf r = stateOf (automationLoop first entry) /\
     exists before,
       traceOf r = before ++ CallAutomationLoop :: traceOf (automationLoop first entry) /\
       errorWrites before = [0] /\ loopCalls before = 0%nat).
Proof.
  intros Hrun entry. destruct s as [r timer n]. cbn in Hrun. subst r.
  subst entry. cbn [cooldownTimer].
  pose proof (fun first => automationLoop_cycle first (mkState true timer 0)) as Hcycle.
  split; [| split; [| split]].
  - intros env first. reflexivity.
  - intros first. destruct first.
    piece_run; do 2 eexists; (split; [reflexivity |]); split; auto.
  - intros env first. cbv zeta.
    destruct env as [a1 a2 a3 a4 a5 a6].
    destruct a1 as [e | []];
      [| destruct a2 as [e | []];
         [| destruct a3 as [e | []];
            [| destruct a4 as [e | []];
               [| destruct a5 as [e | []];
                  [| destruct a6 as [e | []]]]]]].
    7: {
      specialize (Hcycle first). destruct Hcycle as (_ & _ & Hcalls).
      outer_eval.
      destruct (automationLoop first (mkState true timer 0)) as [[x s1] t1].
      unfold stateOf, traceOf in *. cbn [fst snd] in *.
      cbn [errorWrites errorsAtLoopCalls hd_error]. rewrite Hcalls.
      split; [reflexivity |]. split; [repeat constructor |].
      split; [| intros Hno; discriminate Hno].
      intros _. split; [reflexivity |]. split; [reflexivity |].
      exists [SetErrors 0; UpdateStatus [Str "Starting..."] info; Render;
              CheckLogSize; Log [Str "Starting login..."] info; Login;
              GetUserInfo; UpdateUserInfo; GetUserPoints; UpdatePointsDisplay;
              GetRateLimit; UpdateRateLimitDisplay; GetModels; UpdateModelsTable;
              SelectDefaultModel; CreateThread;
              UpdateStatus [Str "Running"] success; Render].
      split; [reflexivity |]. split; reflexivity. }
    all: outer_run; cbn [errorWrites errorsAtLoopCalls hd_error];
      (split; [reflexivity |]); (split; [constructor |]);
      (split; [intros Hok; discriminate Hok |]);
      intros _; repeat split.
  - intros first. cbv zeta.
    specialize (Hcycle first). destruct Hcycle as (_ & _ & Hcalls).
    outer_eval.
    destruct (automationLoop first (mkState true timer 0)) as [[x s1] t1].
    unfold stateOf, traceOf in *. cbn [fst snd] in *.
    cbn [errorWrites errorsAtLoopCalls hd_error]. rewrite Hcalls.
    split; [reflexivity |]. split; [reflexivity |]. split; [reflexivity |].
    exists [SetErrors 0; UpdateStatus [Str "Running"] success;
            Log [Str "Automation resumed"] success;
            LogToFile [Str "Automation resumed"]; Render].
    split; [reflexivity |]. split; reflexivity.
Qed.

Lemma start_and_resume_reset_errors_witness :
  let s := mkState false (Some 7) 2 in
  let entry := mkState true (Some 7) 0 in
  Interleaved.enterStart startsFine cycleChatFails s =
    (inr (Some (Interleaved.InStart startsFine cycleChatFails Interleaved.AtLogin)), entry,
     [SetErrors 0; UpdateStatus [Str "Starting..."] info; Render; CheckLogSize;
      Log [Str "Starting login..."] info; Login]) /\
  (exists next t,
     Interleaved.resumeTurn false cycleChatFails s =
     (inr next, entry,
      [SetErrors 0; UpdateStatus [Str "Running"] success;
       Log [Str "Automation resumed"] success;
       LogToFile [Str "Automation resumed"]; Render; CallAutomationLoop] ++ t) /\
     errorWrites t = [] /\
     (next = None \/
      next = Some (Interleaved.InCycle cycleChatFails Interleaved.AtAvailability))) /\
  (let r := startAutomation startsFine cycleChatFails s in
   errorsAtLoopCalls 2 (traceOf r) = [0] /\
   stateOf r = stateOf (automationLoop cycleChatFails entry) /\
   exists before,
     traceOf r = before ++ CallAutomationLoop :: traceOf (automationLoop cycleChatFails entry) /\
     errorWrites before = [0] /\ loopCalls before = 0%nat) /\
  (let r := startAutomation Views.startRefused cycleChatFails s in
   stateOf r = mkState false (Some 7) 0 /\
   errorWrites (traceOf r) = [0] /\ loopCalls (traceOf r) = 0%nat) /\
  (let r := resumeAutomation false cycleCoolingDown s in
   hd_error (errorWrites (traceOf r)) = Some 0 /\
   errorsAtLoopCalls 2 (traceOf r) = [0] /\
   stateOf r = stateOf (automationLoop cycleCoolingDown entry) /\
   exists before,
     traceOf r = before ++ CallAutomationLoop :: traceOf (automationLoop cycleCoolingDown entry) /\
     errorWrites before = [0] /\ loopCalls before = 0%nat).
Proof.
  pose proof (start_and_resume_reset_errors (mkState false (Some 7) 2) eq_refl)
    as (Hbegin & Hresume & Hstart & Hwhole).
  split; [| split; [| split; [| split]]].
  - apply (Hbegin startsFine cycleChatFails).
  - apply (Hresume cycleChatFails).
  - apply (Hstart startsFine cycleChatFails). reflexivity.
  - apply (Hstart Views.startRefused cycleChatFails). reflexivity.
  - apply (Hwhole cycleCoolingDown).
Defined.

(** C7 (as the code has it): a resume is rejected, with the module variables
    unchanged and the loop not entered, exactly when the automation is
    already running or the cooldown is active; a resume made while not
    running and out of cooldown sets the run flag and calls the loop. *)
Theorem resume_rejected_iff isCooldownActive first s :
  (resumeRejected isCooldownActive first s <->
   isRunning s = true \/ isCooldownActive = true) /\
  (isRunning s = false -> isCooldownActive = false ->
   isRunning (stateOf (resumeAutomation isCooldownActive first s)) = true /\
   loopCalls (traceOf (resumeAutomation isCooldownActive first s)) = 1%nat).
Proof.
  unfold resumeRejected, loopCalls.
  destruct s as [[|] timer n]; destruct isCooldownActive.
  1-3: split;
    [ split;
      [ intros _; cbn; auto
      | intros _; outer_run; cbn; split; [reflexivity | intuition discriminate] ]
    | cbn; intros H1 H2; discriminate ].
  assert (Hgo : isRunning (stateOf (resumeAutomation false first
                   {| isRunning := false; cooldownTimer := timer;
                      consecutiveErrors := n |})) = true /\
                errorsAtLoopCalls 0 (traceOf (resumeAutomation false first
                   {| isRunning := false; cooldownTimer := timer;
                      consecutiveErrors := n |})) = [0]).
  { split; outer_run; use_cycle automationLoop_cycle; outer_eval;
      destruct Hcycle as (_ & Hrun & Hcalls);
      [exact Hrun | cbn [errorsAtLoopCalls]; rewrite Hcalls; reflexivity]. }
  destruct Hgo as [Hrun Hcalls]. split.
  - split.
    + intros [Hstate _]. rewrite Hstate in Hrun. discriminate Hrun.
    + cbn. intros [H | H]; discriminate H.
  - intros _ _. split; [exact Hrun | rewrite Hcalls; reflexivity].
Qed.

Lemma resume_rejected_iff_witness :
  (resumeRejected true cycleFine (mkState false None 1) <->
   isRunning (mkState false None 1) = true \/ true = true) /\
  isRunning (stateOf (resumeAutomation false cycleFine (mkState false None 1))) = true /\
  loopCalls (traceOf (resumeAutomation false cycleFine (mkState false None 1))) = 1%nat.
Proof.
  split.
  - apply (proj1 (resume_rejected_iff true cycleFine (mkState false None 1))).
  - apply (proj2 (resume_rejected_iff false cycleFine (mkState false None 1)));
      reflexivity.
Defined.

(** Against C7 as stated: while the automation is running and no cooldown is
    active, a resume is rejected all the same. *)
Lemma resume_while_running_rejected_cex :
  resumeRejected false cycleFine runningState /\
  ~ (resumeRejected false cycleFine runningState <-> false = true).
Proof.
  assert (Hrej : resumeRejected false cycleFine runningState).
  { split; [reflexivity |]. cbn. intuition discriminate. }
  split; [exact Hrej |].
  intros [Himp _]. discriminate (Himp Hrej).
Qed.

(** ** The counter along a run *)

Lemma dispatch_nonneg i s :
  0 <= consecutiveErrors s ->
  Forall (fun n => 0 <= n) (errorWrites (traceOf (dispatch i s))) /\
  0 <= consecutiveErrors (stateOf (dispatch i s)).
Proof.
  intros Hc. destruct s as [r timer n]. cbn in Hc.
  destruct i as [env first | | cd first | cb env cyc];
    try destruct env; try destruct cb; try destruct cd.
  all: outer_run.
  all: first [after_cycle cycle_nonneg | counter_done].
Qed.

Lemma dispatch_bounded i s :
  inputTransient i = true ->
  consecutiveErrors s <= 2 ->
  Forall (fun n => n <= MAX_CONSECUTIVE_ERRORS) (errorWrites (traceOf (dispatch i s))) /\
  consecutiveErrors (stateOf (dispatch i s)) <= 2.
Proof.
  intros Htr Hc. destruct s as [r timer n]. cbn in Hc.
  destruct i as [env first | | cd first | cb env cyc];
    try destruct env; try destruct cb; try destruct cd.
  all: cbn [inputTransient] in Htr.
  all: outer_run.
  all: first [after_cycle cycle_bounded | counter_done].
Qed.

Lemma run_nonneg inputs : forall s,
  0 <= consecutiveErrors s ->
  Forall (fun n => 0 <= n) (errorWrites (traceOf (run inputs s))) /\
  0 <= consecutiveErrors (stateOf (run inputs s)).
Proof.
  induction inputs as [| i rest IH]; intros s Hc.
  - split; [constructor | exact Hc].
  - destruct (run_cons i rest s) as [Hs Ht]. rewrite Hs, Ht, errorWrites_app.
    destruct (dispatch_nonneg i s Hc) as [Hw Hc'].
    destruct (IH _ Hc') as [Hw' Hc''].
    split; [apply Forall_app; split; assumption | exact Hc''].
Qed.

Lemma run_bounded inputs : forall s,
  forallb inputTransient inputs = true ->
  consecutiveErrors s <= 2 ->
  Forall (fun n => n <= MAX_CONSECUTIVE_ERRORS) (errorWrites (traceOf (run inputs s))) /\
  consecutiveErrors (stateOf (run inputs s)) <= 2.
Proof.
  induction inputs as [| i rest IH]; intros s Htr Hc.
  - split; [constructor | exact Hc].
  - cbn [forallb] in Htr. apply andb_true_iff in Htr. destruct Htr as [Hi Hrest].
    destruct (run_cons i rest s) as [Hs Ht]. rewrite Hs, Ht, errorWrites_app.
    destruct (dispatch_bounded i s Hi Hc) as [Hw Hc'].
    destruct (IH _ Hrest Hc') as [Hw' Hc''].
    split; [apply Forall_app; split; assumption | exact Hc''].
Qed.

Lemma successful_send_resets env s m :
  isRunning s = true ->
  cooldownActive env = false ->
  rateLimitAvailable env = inr true ->
  generatedMessage env = inr m ->
  chatSent env = inr tt ->
  exists pre post,
    traceOf (automationLoop env s) = pre ++ SendChatMessage m :: SetErrors 0 :: post /\
    errorWrites post = [] /\
    consecutiveErrors (stateOf (automationLoop env s)) = 0.
Proof.
  intros Hrun Hcd Hav Hmsg Hsent.
  destruct s as [r timer n], env. cbn in *. subst.
  exists [CheckLogSize; CheckRateLimitAvailability; GenerateUserMessage; SetErrors 0].
  proc_run; eexists; repeat split.
Qed.

(** In no cycle that runs without interruption does the chat-error branch
    take its long pause: the counter is written to 0 just before every
    send. *)
Lemma chat_error_pause_is_short env s :
  Forall (eq 10000) (sleeps (traceOf (automationLoop env s))).
Proof.
  destruct s as [r timer n], env.
  proc_run; cbn; repeat constructor.
Qed.

(** ** The loop between its awaits *)

Section InterleavedFacts.
Import Interleaved.

(** *** A call that nothing interrupts is the call taken whole *)

Lemma finishTask_step fuel task s :
  finishTask (S fuel) (Some task) s = Proc_bind (resumeTask task) (finishTask fuel) s.
Proof. reflexivity. Qed.

(** A call of the loop that nothing interrupts is [automationLoop()] taken
    whole; six settlements are enough for it. *)
Lemma uninterrupted_cycle_from fuel env s :
  (next <- callLoop env ;; finishTask (S (S (S (S (S (S fuel)))))) next) s =
  call_automationLoop env s.
Proof.
  destruct env as [cd avail reset timer' started gen chat pts rl jitter],
           s as [r timer n].
  destruct r; [| reflexivity].
  destruct cd; [reflexivity |].
  destruct avail as [e | [|]].
  - piece_run; reflexivity.
  - destruct gen as [e | m].
    + piece_run; reflexivity.
    + destruct fuel, chat as [e | []], pts as [e1 | []], rl as [e2 | []];
        reflexivity.
  - destruct started as [e | []].
    + piece_run; reflexivity.
    + reflexivity.
Qed.

Lemma uninterrupted_cycle env s :
  uninterrupted (callLoop env) s = call_automationLoop env s.
Proof. exact (uninterrupted_cycle_from 6 env s). Qed.

Lemma uninterrupted_pause s :
  uninterrupted pauseTurn s = pauseAutomation s.
Proof.
  destruct s as [[|] timer n]; reflexivity.
Qed.

Lemma uninterrupted_resume isCooldownActive first s :
  uninterrupted (resumeTurn isCooldownActive first) s =
  resumeAutomation isCooldownActive first s.
Proof.
  destruct s as [[|] timer n]; [reflexivity |].
  destruct isCooldownActive; [reflexivity |].
  pose proof (uninterrupted_cycle first (mkState true timer 0)) as H.
  turn_eval. turn_eval_in H. by_cycle H.
Qed.

(** The same of a start, with the first cycle it enters. *)
Lemma uninterrupted_start env first s :
  uninterrupted (enterStart env first) s = startAutomation env first s.
Proof.
  destruct env as [a1 a2 a3 a4 a5 a6], s as [[|] timer n]; [reflexivity |].
  destruct a1 as [e | []]; [piece_run; reflexivity |].
  destruct a2 as [e | []]; [piece_run; reflexivity |].
  destruct a3 as [e | []]; [piece_run; reflexivity |].
  destruct a4 as [e | []]; [piece_run; reflexivity |].
  destruct a5 as [e | []]; [piece_run; reflexivity |].
  destruct a6 as [e | []]; [piece_run; reflexivity |].
  pose proof (uninterrupted_cycle_from 0 first (mkState true timer 0)) as H.
  turn_eval. repeat (rewrite finishTask_step; turn_eval).
  turn_eval_in H. by_cycle H.
Qed.

(** The same of every callback. *)
Lemma uninterrupted_timer cb env cyc s :
  uninterrupted (fireTurn cb env cyc) s = fire cb env cyc s.
Proof.
  destruct cb.
  - exact (uninterrupted_cycle cyc s).
  - destruct s as [[|] timer n]; [| reflexivity].
    pose proof (uninterrupted_cycle cyc (mkState true timer n)) as H.
    turn_eval. turn_eval_in H. by_cycle H.
  - destruct s as [[|] timer n]; [| reflexivity].
    pose proof (uninterrupted_cycle cyc (mkState true timer n)) as H.
    turn_eval. turn_eval_in H. by_cycle H.
  - destruct s as [[|] timer n]; [reflexivity |].
    destruct env as [a1 a2 a3 a4 a5 a6].
    destruct a1 as [e | []]; [piece_run; reflexivity |].
    destruct a2 as [e | []]; [piece_run; reflexivity |].
    destruct a3 as [e | []]; [piece_run; reflexivity |].
    destruct a4 as [e | []]; [piece_run; reflexivity |].
    destruct a5 as [e | []]; [piece_run; reflexivity |].
    destruct a6 as [e | []]; [piece_run; reflexivity |].
    pose proof (uninterrupted_cycle_from 0 cyc (mkState true timer 0)) as H.
    turn_eval. repeat (rewrite finishTask_step; turn_eval).
    turn_eval_in H. by_cycle H.
  - reflexivity.
Qed.

(** *** The pieces and the counter *)

(** Up to its first await the loop changes nothing. *)
Lemma enterCycle_quiet env s :
  exists next t,
    enterCycle env s = (inr next, s, t) /\ errorWrites t = [] /\
    (next = None \/ next = Some AtAvailability).
Proof.
  destruct env, s as [r timer n].
  piece_run; do 2 eexists; (split; [reflexivity |]); split; auto.
Qed.

Lemma resumeCycle_nonneg env point s :
  0 <= consecutiveErrors s ->
  exists next,
    fst (fst (resumeCycle env point s)) = inr next /\
    Forall (fun n => 0 <= n) (errorWrites (traceOf (resumeCycle env point s))) /\
    0 <= consecutiveErrors (stateOf (resumeCycle env point s)).
Proof.
  intros Hc. destruct env, s as [r timer n]. cbn in Hc.
  destruct point; piece_run; eexists; (split; [reflexivity |]); counter_done.
Qed.

(** A piece of a cycle, when no other cycle is in progress: it never rejects,
    writes nothing above the threshold, leaves the counter at 2 at most, does
    not enter the long pause, and leaves 0 behind when it goes to the
    send. *)
Lemma resumeCycle_bounded env point s :
  cycleTransient env = true ->
  consecutiveErrors s <= 2 ->
  point <> AtLongPause ->
  (point = AtSend -> consecutiveErrors s = 0) ->
  exists next,
    fst (fst (resumeCycle env point s)) = inr next /\
    Forall (fun n => n <= MAX_CONSECUTIVE_ERRORS)
           (errorWrites (traceOf (resumeCycle env point s))) /\
    consecutiveErrors (stateOf (resumeCycle env point s)) <= 2 /\
    next <> Some AtLongPause /\
    (next = Some AtSend -> consecutiveErrors (stateOf (resumeCycle env point s)) = 0).
Proof.
  intros Htr Hc Hlong Hsend. destruct env, s as [r timer n]. cbn in Hc.
  split_transient Htr. cbn in *.
  destruct point; try congruence;
    try (specialize (Hsend eq_refl); subst n);
    piece_run; eexists; (split; [reflexivity |]);
    cmp_to_Z; cbn [errorWrites];
    repeat split; repeat constructor; try lia; try discriminate; try congruence.
Qed.

Lemma callLoop_quiet env s :
  exists next t,
    callLoop env s = (inr next, s, t) /\ errorWrites t = [] /\
    (next = None \/ next = Some (InCycle env AtAvailability)).
Proof.
  destruct (enterCycle_quiet env s) as (next & t & Henter & Hwrites & Hnext).
  unfold callLoop, detached.
  cbv beta iota zeta delta [emit Proc_bind Proc_ret Monad_Proc bind ret].
  rewrite Henter. do 2 eexists. split; [reflexivity |].
  cbn [app errorWrites]. split; [rewrite app_nil_r; exact Hwrites |].
  destruct Hnext as [-> | ->]; [left | right]; reflexivity.
Qed.

Lemma callLoop_gentle env s : resetsOrKeeps env (callLoop env) s.
Proof. gentle_with callLoop_quiet errorWrites_app. Qed.

Lemma enterStart_gentle env first s :
  resetsOrKeeps first (detached (enterStart env first)) s.
Proof. destruct s as [r timer n]. gentle_with callLoop_quiet errorWrites_app. Qed.

Lemma resumeStart_gentle env first point s :
  resetsOrKeeps first (resumeStart env first point) s.
Proof. destruct env, s as [r timer n], point; gentle_with callLoop_quiet errorWrites_app. Qed.

Lemma pauseTurn_gentle cyc s : resetsOrKeeps cyc pauseTurn s.
Proof. destruct s as [r timer n]. gentle_with callLoop_quiet errorWrites_app. Qed.

Lemma resumeTurn_gentle isCooldownActive first s :
  resetsOrKeeps first (resumeTurn isCooldownActive first) s.
Proof. destruct s as [r timer n]. gentle_with callLoop_quiet errorWrites_app. Qed.

Lemma fireTurn_gentle cb env cyc s :
  resetsOrKeeps cyc (fireTurn cb env cyc) s.
Proof. destruct s as [r timer n], cb; gentle_with callLoop_quiet errorWrites_app. Qed.

(** *** The event loop and the counter *)

Lemma without_split k (tasks : list Task) task :
  nth_error tasks k = Some task ->
  exists l1 l2, tasks = l1 ++ task :: l2 /\ without k tasks = l1 ++ l2.
Proof.
  intros Hnth. apply nth_error_split in Hnth.
  destruct Hnth as (l1 & l2 & -> & <-). exists l1, l2. split; [reflexivity |].
  unfold without.
  rewrite firstn_app, firstn_all, Nat.sub_diag, firstn_O, app_nil_r.
  rewrite skipn_app, skipn_all2 by lia.
  replace (S (List.length l1) - List.length l1)%nat with 1%nat by lia.
  reflexivity.
Qed.

Lemma taskSettled_mono c c' task :
  taskSettled c task -> c' = c \/ c' = 0 -> taskSettled c' task.
Proof.
  destruct task as [env point | env first point]; cbn; [| trivial].
  intros (Htr & Hlong & Hsend) Hc. repeat split; trivial.
  intros Hpoint. specialize (Hsend Hpoint). lia.
Qed.

Lemma taskSettled_start c c' task :
  isCycle task = false -> taskSettled c task -> taskSettled c' task.
Proof.
  destruct task as [env point | env first point]; cbn; [discriminate | trivial].
Qed.

(** With one cycle in progress, the other suspended calls are starts. *)
Lemma other_tasks_are_starts l1 l2 task :
  isCycle task = true ->
  (List.length (filter isCycle (l1 ++ task :: l2)) <= 1)%nat ->
  Forall (fun other => isCycle other = false) (l1 ++ l2).
Proof.
  intros Hcycle Hone. rewrite filter_app in Hone. cbn [filter] in Hone.
  rewrite Hcycle, length_app in Hone. cbn [List.length] in Hone.
  assert (H1 : filter isCycle l1 = []) by (destruct (filter isCycle l1); [reflexivity | cbn in Hone; lia]).
  assert (H2 : filter isCycle l2 = []) by (destruct (filter isCycle l2); [reflexivity | cbn in Hone; lia]).
  apply Forall_app. split; apply Forall_forall; intros other Hin.
  - destruct (isCycle other) eqn:Hother; [| reflexivity].
    assert (Hf : In other (filter isCycle l1)) by (apply filter_In; split; assumption).
    rewrite H1 in Hf. destruct Hf.
  - destruct (isCycle other) eqn:Hother; [| reflexivity].
    assert (Hf : In other (filter isCycle l2)) by (apply filter_In; split; assumption).
    rewrite H2 in Hf. destruct Hf.
Qed.

Lemma perform_gentle cyc p others sys :
  resetsOrKeeps cyc p (vars sys) ->
  cycleTransient cyc = true ->
  consecutiveErrors (vars sys) <= 2 ->
  Forall (taskSettled (consecutiveErrors (vars sys))) others ->
  settledSystem (perform p others sys) /\
  exists t, history (perform p others sys) = history sys ++ t /\
            Forall (fun n => n <= MAX_CONSECUTIVE_ERRORS) (errorWrites t).
Proof.
  intros (next & s1 & t & Hp & Hcount & Hnext) Htr Hc Hothers.
  unfold perform, settledSystem. rewrite Hp. cbn [vars suspended history].
  assert (Hc1 : consecutiveErrors s1 = consecutiveErrors (vars sys) \/
                consecutiveErrors s1 = 0) by (destruct Hcount as [[_ H] | [_ H]]; auto).
  split; [split |].
  - lia.
  - apply Forall_app. split.
    + eapply Forall_impl; [| exact Hothers].
      intros task Htask. apply (taskSettled_mono _ _ _ Htask Hc1).
    + destruct next as [[env point | env first point] |];
        [apply Forall_cons; [| apply Forall_nil] .. | apply Forall_nil];
        cbn [taskSettled].
      * destruct Hnext as [-> ->].
        split; [exact Htr | split; [discriminate | discriminate]].
      * subst first. exact Htr.
  - exists t. split; [reflexivity |].
    destruct Hcount as [[-> _] | [-> _]]; repeat constructor.
    unfold MAX_CONSECUTIVE_ERRORS. lia.
Qed.

Lemma perform_gentle_nonneg cyc p others sys :
  resetsOrKeeps cyc p (vars sys) ->
  0 <= consecutiveErrors (vars sys) ->
  0 <= consecutiveErrors (vars (perform p others sys)) /\
  exists t, history (perform p others sys) = history sys ++ t /\
            Forall (fun n => 0 <= n) (errorWrites t).
Proof.
  intros (next & s1 & t & Hp & Hcount & Hnext) Hc.
  unfold perform. rewrite Hp. cbn [vars suspended history].
  split; [destruct Hcount as [[_ H] | [_ H]]; lia |].
  exists t. split; [reflexivity |].
  destruct Hcount as [[-> _] | [-> _]]; repeat constructor. lia.
Qed.

Lemma perform_cycle env point others sys :
  perform (resumeTask (InCycle env point)) others sys =
  mkSystem (stateOf (resumeCycle env point (vars sys)))
    (others ++ match fst (fst (resumeCycle env point (vars sys))) with
               | inr (Some next) => [InCycle env next]
               | _ => []
               end)
    (history sys ++ traceOf (resumeCycle env point (vars sys))).
Proof.
  unfold perform, resumeTask, stateOf, traceOf.
  cbv beta iota zeta delta [Proc_bind Proc_ret Monad_Proc bind ret].
  destruct (resumeCycle env point (vars sys)) as [[[e | [next |]] s1] t1];
    cbn [fst snd option_map]; rewrite ?app_nil_r; reflexivity.
Qed.

(** One turn keeps what is known of the system, when at most one cycle is in
    progress as it begins. *)
Lemma turn_settled i sys :
  settledSystem sys ->
  (cyclesInProgress sys <= 1)%nat ->
  turnTransient i = true ->
  settledSystem (turn i sys) /\
  exists t, history (turn i sys) = history sys ++ t /\
            Forall (fun n => n <= MAX_CONSECUTIVE_ERRORS) (errorWrites t).
Proof.
  intros [Hc Htasks] Hone Htr.
  destruct i as [env first | | cd first | cb env cyc | k]; cbn [turn turnTransient] in *.
  - apply (perform_gentle first); auto using enterStart_gentle.
  - apply (perform_gentle cycleFine); auto using pauseTurn_gentle.
  - apply (perform_gentle first); auto using resumeTurn_gentle.
  - apply (perform_gentle cyc); auto using fireTurn_gentle.
  - destruct (nth_error (suspended sys) k) as [task |] eqn:Hnth.
    + destruct (without_split k _ task Hnth) as (l1 & l2 & Hsplit & Hwithout).
      rewrite Hwithout. rewrite Hsplit in Htasks.
      apply Forall_app in Htasks. destruct Htasks as [Hl1 Hl2].
      inversion Hl2 as [| ? ? Htask Hl2']. subst.
      assert (Hothers : Forall (taskSettled (consecutiveErrors (vars sys))) (l1 ++ l2))
        by (apply Forall_app; split; assumption).
      destruct task as [env point | env first point].
      * cbn [taskSettled] in Htask. destruct Htask as (Henv & Hlong & Hsend).
        destruct (resumeCycle_bounded env point (vars sys) Henv Hc Hlong Hsend)
          as (next & Hnext & Hwrites & Hc1 & Hlong1 & Hsend1).
        rewrite perform_cycle. rewrite Hnext. unfold settledSystem.
        cbn [vars suspended history]. split; [split |].
        -- exact Hc1.
        -- apply Forall_app. split.
           ++ unfold cyclesInProgress in Hone. rewrite Hsplit in Hone.
              pose proof (other_tasks_are_starts l1 l2 (InCycle env point)
                            eq_refl Hone) as Hstarts.
              apply Forall_forall. intros other Hin.
              apply (taskSettled_start (consecutiveErrors (vars sys))).
              ** apply (proj1 (Forall_forall _ _) Hstarts other Hin).
              ** apply (proj1 (Forall_forall _ _) Hothers other Hin).
           ++ destruct next as [next |]; [| apply Forall_nil].
              apply Forall_cons; [| apply Forall_nil].
              cbn [taskSettled]. split; [exact Henv | split; [congruence |]].
              intros ->. apply Hsend1. reflexivity.
        -- eexists. split; [reflexivity | exact Hwrites].
      * cbn [taskSettled] in Htask.
        apply (perform_gentle first); auto.
        apply (resumeStart_gentle env first point).
    + split; [split; assumption |]. exists []. rewrite app_nil_r.
      split; [reflexivity | constructor].
Qed.

Lemma turn_nonneg i sys :
  0 <= consecutiveErrors (vars sys) ->
  0 <= consecutiveErrors (vars (turn i sys)) /\
  exists t, history (turn i sys) = history sys ++ t /\
            Forall (fun n => 0 <= n) (errorWrites t).
Proof.
  intros Hc.
  destruct i as [env first | | cd first | cb env cyc | k]; cbn [turn].
  - apply (perform_gentle_nonneg first); auto using enterStart_gentle.
  - apply (perform_gentle_nonneg cycleFine); auto using pauseTurn_gentle.
  - apply (perform_gentle_nonneg first); auto using resumeTurn_gentle.
  - apply (perform_gentle_nonneg cyc); auto using fireTurn_gentle.
  - destruct (nth_error (suspended sys) k) as [[env point | env first point] |].
    + destruct (resumeCycle_nonneg env point (vars sys) Hc)
        as (next & Hnext & Hwrites & Hc1).
      rewrite perform_cycle. cbn [vars history].
      split; [exact Hc1 |]. eexists. split; [reflexivity | exact Hwrites].
    + apply (perform_gentle_nonneg first); auto.
      apply (resumeStart_gentle env first point).
    + split; [exact Hc |]. exists []. rewrite app_nil_r.
      split; [reflexivity | constructor].
Qed.

Lemma execute_nonneg turns : forall sys,
  0 <= consecutiveErrors (vars sys) ->
  Forall (fun n => 0 <= n) (errorWrites (history sys)) ->
  Forall (fun n => 0 <= n) (errorWrites (history (execute turns sys))) /\
  0 <= consecutiveErrors (vars (execute turns sys)).
Proof.
  induction turns as [| i rest IH]; intros sys Hc Hw; cbn [execute].
  - split; assumption.
  - destruct (turn_nonneg i sys Hc) as (Hc1 & t & Hhist & Ht).
    apply IH; [exact Hc1 |].
    rewrite Hhist, errorWrites_app. apply Forall_app. split; assumption.
Qed.

Lemma execute_bounded turns : forall sys,
  settledSystem sys ->
  Forall (fun n => n <= MAX_CONSECUTIVE_ERRORS) (errorWrites (history sys)) ->
  forallb turnTransient turns = true ->
  oneCycleAtATime turns sys = true ->
  Forall (fun n => n <= MAX_CONSECUTIVE_ERRORS)
         (errorWrites (history (execute turns sys))) /\
  consecutiveErrors (vars (execute turns sys)) <= 2.
Proof.
  induction turns as [| i rest IH]; intros sys Hsys Hw Htr Hone;
    cbn [execute forallb oneCycleAtATime] in *.
  - split; [exact Hw | exact (proj1 Hsys)].
  - apply andb_true_iff in Htr. destruct Htr as [Hi Hrest].
    apply andb_true_iff in Hone. destruct Hone as [Hnow Hlater].
    apply Nat.leb_le in Hnow.
    destruct (turn_settled i sys Hsys Hnow Hi) as (Hsys1 & t & Hhist & Ht).
    apply IH; trivial.
    rewrite Hhist, errorWrites_app. apply Forall_app. split; assumption.
Qed.

End InterleavedFacts.

Section CounterFacts.
Import Interleaved.

Lemma successful_send_resets_at_once env s :
  chatSent env = inr tt ->
  resumeCycle env AtSend s =
  (inr (Some AtPoints), mkState (isRunning s) (cooldownTimer s) 0,
   [SetErrors 0; GetUserPoints]).
Proof.
  intros Hsent. destruct env, s as [r timer n]. cbn in Hsent. subst.
  piece_run; reflexivity.
Qed.

Lemma failed_send_pauses env s err :
  chatSent env = inl err ->
  exists t,
    resumeCycle env AtSend s =
    (inr (Some (if consecutiveErrors s + 1 >=? MAX_CONSECUTIVE_ERRORS
                then AtLongPause else AtShortPause)),
     mkState (isRunning s) (cooldownTimer s) (consecutiveErrors s + 1), t) /\
    errorWrites t = [consecutiveErrors s + 1] /\
    sleeps t = [if consecutiveErrors s + 1 >=? MAX_CONSECUTIVE_ERRORS
                then 180000 else 10000].
Proof.
  intros Hsent. destruct env, s as [r timer n]. cbn in Hsent. subst.
  piece_run; eexists; repeat split.
Qed.

Lemma long_pause_over_resets_at_once env s :
  resumeCycle env AtLongPause s =
  (inr (Some AtPoints), mkState (isRunning s) (cooldownTimer s) 0,
   [SetErrors 0; GetUserPoints]).
Proof. destruct env, s as [r timer n]. reflexivity. Qed.

Lemma long_backoff_resets env point s :
  In 180000 (backoffs (traceOf (resumeCycle env point s))) ->
  consecutiveErrors (stateOf (resumeCycle env point s)) = 0 /\
  last (errorWrites (traceOf (resumeCycle env point s))) 1 = 0.
Proof.
  destruct s as [r timer n], env, point;
    piece_run; cbn; intuition (try discriminate; try reflexivity).
Qed.

(** C2 (as the code has it): the counter is never negative, in any
    execution.  In an execution in which at no time two calls of the loop
    are suspended at an await and whose loop-level errors are all
    network-class it never exceeds the threshold 3.  A send that succeeds is
    followed at once by the write of 0; a send that fails adds one and, from
    the threshold on, suspends the cycle for 180 seconds, after which the
    first thing the cycle does is write 0; and a loop-level handler that
    schedules the 180-second backoff leaves the counter at 0, the 0 being
    its last write. *)
Theorem counter_invariant :
  (forall turns,
     Forall (fun n => 0 <= n) (errorWrites (history (execute turns boot))) /\
     0 <= consecutiveErrors (vars (execute turns boot))) /\
  (forall turns,
     forallb turnTransient turns = true ->
     oneCycleAtATime turns boot = true ->
     Forall (fun n => n <= MAX_CONSECUTIVE_ERRORS)
            (errorWrites (history (execute turns boot))) /\
     consecutiveErrors (vars (execute turns boot)) <= MAX_CONSECUTIVE_ERRORS) /\
  (forall env s,
     chatSent env = inr tt ->
     resumeCycle env AtSend s =
     (inr (Some AtPoints), mkState (isRunning s) (cooldownTimer s) 0,
      [SetErrors 0; GetUserPoints])) /\
  (forall env s err,
     chatSent env = inl err ->
     MAX_CONSECUTIVE_ERRORS <= consecutiveErrors s + 1 ->
     fst (fst (resumeCycle env AtSend s)) = inr (Some AtLongPause) /\
     sleeps (traceOf (resumeCycle env AtSend s)) = [180000] /\
     resumeCycle env AtLongPause (stateOf (resumeCycle env AtSend s)) =
     (inr (Some AtPoints), mkState (isRunning s) (cooldownTimer s) 0,
      [SetErrors 0; GetUserPoints])) /\
  (forall env point s,
     In 180000 (backoffs (traceOf (resumeCycle env point s))) ->
     consecutiveErrors (stateOf (resumeCycle env point s)) = 0 /\
     last (errorWrites (traceOf (resumeCycle env point s))) 1 = 0).
Proof.
  split; [| split; [| split; [| split]]].
  - intros turns. apply execute_nonneg; cbn; [lia | constructor].
  - intros turns Htr Hone.
    assert (Hboot : settledSystem boot) by (split; [cbn; lia | apply Forall_nil]).
    assert (Hw0 : Forall (fun n => n <= MAX_CONSECUTIVE_ERRORS)
                         (errorWrites (history boot))) by apply Forall_nil.
    destruct (execute_bounded turns boot Hboot Hw0 Htr Hone) as [Hw Hc].
    split; [exact Hw | unfold MAX_CONSECUTIVE_ERRORS; lia].
  - exact successful_send_resets_at_once.
  - intros env s err Hsent Hmax.
    destruct (failed_send_pauses env s err Hsent) as (t & Hstep & Hwrites & Hsleeps).
    rewrite Hstep. unfold stateOf, traceOf. cbn [fst snd].
    apply Z.geb_le in Hmax. rewrite Hmax in *.
    split; [reflexivity |]. split; [exact Hsleeps |].
    rewrite long_pause_over_resets_at_once. reflexivity.
  - exact long_backoff_resets.
Qed.

End CounterFacts.

Lemma counter_invariant_witness :
  (Forall (fun n => n <= MAX_CONSECUTIVE_ERRORS)
          (errorWrites (Interleaved.history
                          (Interleaved.execute Interleaved.refusedTurns Interleaved.boot))) /\
   consecutiveErrors (Interleaved.vars
                        (Interleaved.execute Interleaved.refusedTurns Interleaved.boot))
   <= MAX_CONSECUTIVE_ERRORS) /\
  Interleaved.resumeCycle cycleFine Interleaved.AtSend twoErrorsIn =
    (inr (Some Interleaved.AtPoints), mkState true None 0,
     [SetErrors 0; GetUserPoints]) /\
  (fst (fst (Interleaved.resumeCycle Interleaved.cycleSendRefused Interleaved.AtSend
               twoErrorsIn)) = inr (Some Interleaved.AtLongPause) /\
   sleeps (traceOf (Interleaved.resumeCycle Interleaved.cycleSendRefused
                      Interleaved.AtSend twoErrorsIn)) = [180000] /\
   Interleaved.resumeCycle Interleaved.cycleSendRefused Interleaved.AtLongPause
     (stateOf (Interleaved.resumeCycle Interleaved.cycleSendRefused
                 Interleaved.AtSend twoErrorsIn)) =
   (inr (Some Interleaved.AtPoints), mkState true None 0,
    [SetErrors 0; GetUserPoints])) /\
  (consecutiveErrors
     (stateOf (Interleaved.resumeCycle cycleQuotaRefused Interleaved.AtAvailability
                 twoErrorsIn)) = 0 /\
   last (errorWrites
           (traceOf (Interleaved.resumeCycle cycleQuotaRefused
                       Interleaved.AtAvailability twoErrorsIn))) 1 = 0).
Proof.
  split; [| split; [| split]].
  - apply (proj1 (proj2 counter_invariant) Interleaved.refusedTurns); reflexivity.
  - apply (proj1 (proj2 (proj2 counter_invariant)) cycleFine twoErrorsIn).
    reflexivity.
  - apply (proj1 (proj2 (proj2 (proj2 counter_invariant)))
             Interleaved.cycleSendRefused twoErrorsIn Interleaved.refused).
    + reflexivity.
    + vm_compute. discriminate.
  - apply (proj2 (proj2 (proj2 (proj2 counter_invariant)))
             cycleQuotaRefused Interleaved.AtAvailability twoErrorsIn).
    vm_compute. left. reflexivity.
Defined.


(** Against C2 as stated: four loop-level errors that are not network-class
    (the quota check answers 401) take the counter to 4, above the
    threshold, with one loop alive and one cycle at a time; the same whether
    the cycles are taken whole or cut at their awaits. *)
Lemma counter_exceeds_threshold_cex :
  errorWrites (traceOf (run unauthorizedRun initial)) = [0; 1; 2; 3; 4] /\
  consecutiveErrors (stateOf (run unauthorizedRun initial)) = 4 /\
  ~ (consecutiveErrors (stateOf (run unauthorizedRun initial)) <= MAX_CONSECUTIVE_ERRORS) /\
  Interleaved.oneCycleAtATime Interleaved.unauthorizedTurns Interleaved.boot = true /\
  errorWrites (Interleaved.history
                 (Interleaved.execute Interleaved.unauthorizedTurns Interleaved.boot)) =
  [0; 1; 2; 3; 4] /\
  consecutiveErrors (Interleaved.vars
                       (Interleaved.execute Interleaved.unauthorizedTurns
                          Interleaved.boot)) = 4.
Proof.
  split; [reflexivity |]. split; [reflexivity |].
  split; [vm_compute; intros H; apply H; reflexivity |].
  repeat split.
Qed.

(** The bound is reached: with one loop and the quota check refused every
    time the counter goes 1, 2, 3 and back to 0. *)
Example refused_turns_reach_threshold :
  errorWrites (Interleaved.history
                 (Interleaved.execute Interleaved.refusedTurns Interleaved.boot)) =
  [0; 1; 2; 3; 0; 1] /\
  Interleaved.oneCycleAtATime Interleaved.refusedTurns Interleaved.boot = true.
Proof. split; reflexivity. Qed.

(** Why the bound needs one cycle at a time: with two loops alive, and
    network-class errors only, the counter is taken to 4 while the first
    loop is in its long pause. *)
Lemma two_loops_exceed_threshold :
  forallb Interleaved.turnTransient Interleaved.twoLoops = true /\
  Interleaved.oneCycleAtATime Interleaved.twoLoops Interleaved.boot = false /\
  errorWrites (Interleaved.history
                 (Interleaved.execute Interleaved.twoLoops Interleaved.boot)) =
  [0; 0; 0; 1; 2; 3; 4; 0] /\
  sleeps (Interleaved.history
            (Interleaved.execute Interleaved.twoLoops Interleaved.boot)) = [180000].
Proof. repeat split. Qed.

(** C1 (what the code does): three cycles in a row whose chat send fails
    each pause 10 seconds and leave the counter at 1; the 180-second pause is
    not taken. *)
Theorem three_chat_failures_pause_ten_seconds :
  chatSends (traceOf (run chatFailsRun initial)) = ["gm"; "gm"; "gm"]%string /\
  sleeps (traceOf (run chatFailsRun initial)) = [10000; 10000; 10000] /\
  errorWrites (traceOf (run chatFailsRun initial)) = [0; 0; 1; 0; 1; 0; 1] /\
  consecutiveErrors (stateOf (run chatFailsRun initial)) = 1.
Proof. repeat split. Qed.

(** ** Loop-level errors *)

Lemma refused_looksTransient err :
  includes (message err) "ECONNREFUSED" = true -> looksTransient err = true.
Proof.
  intros H. unfold looksTransient. rewrite H.
  rewrite !orb_true_r. reflexivity.
Qed.

(** When the [try] block throws, it has written nothing to the counter and
    has scheduled nothing. *)
Lemma loopBody_throws env s err s1 t1 :
  loopBody env s = (inl err, s1, t1) ->
  isRunning s1 = isRunning s /\
  consecutiveErrors s1 = consecutiveErrors s /\
  errorWrites t1 = [] /\ timeouts t1 = [] /\ backoffs t1 = [].
Proof.
  destruct s as [r timer n], env.
  proc_run; intros Hbody; inversion Hbody; subst; repeat split.
Qed.

(** What the loop-level [catch] does with the error it is given. *)
Lemma onLoopError_step err s :
  let r := onLoopError err s in
  let n := consecutiveErrors s + 1 in
  isRunning (stateOf r) = isRunning s /\
  consecutiveErrors (stateOf r) =
    (if looksTransient err && (n >=? MAX_CONSECUTIVE_ERRORS) then 0 else n) /\
  hd_error (errorWrites (traceOf r)) = Some n /\
  timeouts (traceOf r) =
    [(cb_retry,
      if looksTransient err then
        if n >=? MAX_CONSECUTIVE_ERRORS then 180000
        else if n >? 1 then 15000 else 5000
      else 15000)] /\
  backoffs (traceOf r) = map snd (timeouts (traceOf r)).
Proof.
  destruct s as [r timer n]. cbv zeta.
  destruct (looksTransient err) eqn:Htr;
    [destruct (n + 1 >=? MAX_CONSECUTIVE_ERRORS) eqn:Hge;
       [| destruct (n + 1 >? 1) eqn:Hgt] |];
    proc_eval; rewrite ?Htr; proc_eval; rewrite ?Hge; proc_eval;
    rewrite ?Hgt; proc_eval; repeat split.
Qed.

Lemma loop_error_step env s err s1 t1 :
  loopBody env s = (inl err, s1, t1) ->
  let r := automationLoop env s in
  let n := consecutiveErrors s + 1 in
  isRunning (stateOf r) = isRunning s /\
  consecutiveErrors (stateOf r) =
    (if looksTransient err && (n >=? MAX_CONSECUTIVE_ERRORS) then 0 else n) /\
  hd_error (errorWrites (traceOf r)) = Some n /\
  timeouts (traceOf r) =
    [(cb_retry,
      if looksTransient err then
        if n >=? MAX_CONSECUTIVE_ERRORS then 180000
        else if n >? 1 then 15000 else 5000
      else 15000)] /\
  backoffs (traceOf r) = map snd (timeouts (traceOf r)).
Proof.
  intros Hbody r n. subst r n.
  destruct (loopBody_throws env s err s1 t1 Hbody) as (Hrun & Hc & Hw & Hto & Hbo).
  pose proof (onLoopError_step err s1) as Hstep. cbv zeta in Hstep.
  unfold automationLoop.
  cbv beta iota zeta delta [catch MonadExc_Proc Proc_catch].
  rewrite Hbody.
  destruct (onLoopError err s1) as [[r2 s2] t2].
  unfold stateOf, traceOf in *. cbn [fst snd] in *.
  rewrite errorWrites_app, timeouts_app, backoffs_app, Hw, Hto, Hbo.
  cbn [app]. rewrite <- Hrun, <- Hc. exact Hstep.
Qed.

(** C6 (as the code has it): an exception that escapes the [try] block of a
    cycle increments the counter and schedules one guarded retry.  For a
    network-class error the delay follows the ladder: 5 seconds when the
    incremented counter is 1, 15 seconds when it is 2, 180 seconds with the
    counter back to 0 once it reaches 3.  For any other error the delay is
    15 seconds whatever the counter, which stays incremented.  Two
    loop-level errors in a row with an ECONNREFUSED message, from a counter
    at 0, wait 5 seconds and then 15. *)
Theorem loop_error_backoff_ladder :
  (forall env s err s1 t1,
     loopBody env s = (inl err, s1, t1) ->
     let r := automationLoop env s in
     let n := consecutiveErrors s + 1 in
     hd_error (errorWrites (traceOf r)) = Some n /\
     timeouts (traceOf r) = map (pair cb_retry) (backoffs (traceOf r)) /\
     (looksTransient err = true -> n <= 1 ->
      backoffs (traceOf r) = [5000] /\ consecutiveErrors (stateOf r) = n) /\
     (looksTransient err = true -> n = 2 ->
      backoffs (traceOf r) = [15000] /\ consecutiveErrors (stateOf r) = n) /\
     (looksTransient err = true -> MAX_CONSECUTIVE_ERRORS <= n ->
      backoffs (traceOf r) = [180000] /\ consecutiveErrors (stateOf r) = 0) /\
     (looksTransient err = false ->
      backoffs (traceOf r) = [15000] /\ consecutiveErrors (stateOf r) = n)) /\
  (forall env1 env2 s e1 e2 sa ta sb tb,
     consecutiveErrors s = 0 ->
     loopBody env1 s = (inl e1, sa, ta) ->
     includes (message e1) "ECONNREFUSED" = true ->
     loopBody env2 (stateOf (automationLoop env1 s)) = (inl e2, sb, tb) ->
     includes (message e2) "ECONNREFUSED" = true ->
     backoffs (traceOf (automationLoop env1 s)) = [5000] /\
     backoffs (traceOf (automationLoop env2 (stateOf (automationLoop env1 s)))) =
     [15000]).
Proof.
  split.
  - intros env s err s1 t1 Hbody r n.
    destruct (loop_error_step env s err s1 t1 Hbody) as (_ & Hc & Hw & Hto & Hbo).
    fold r in Hc, Hw, Hto, Hbo. fold n in Hc, Hw, Hto.
    rewrite Hbo, Hto. cbn [map snd]. rewrite Hc.
    split; [exact Hw |]. split; [reflexivity |].
    unfold MAX_CONSECUTIVE_ERRORS in *.
    split; [| split; [| split]]; intros Htr; try intros Hn; rewrite Htr;
      cbn [andb];
      try (destruct (Z.geb_spec n 3); [| destruct (Z.gtb_spec n 1)]);
      solve [split; reflexivity | lia].
  - intros env1 env2 s e1 e2 sa ta sb tb Hzero Hb1 Hm1 Hb2 Hm2.
    destruct (loop_error_step env1 s e1 sa ta Hb1) as (_ & Hc1 & _ & Hto1 & Hbo1).
    destruct (loop_error_step env2 _ e2 sb tb Hb2) as (_ & _ & _ & Hto2 & Hbo2).
    rewrite Hbo1, Hto1, Hbo2, Hto2, Hc1, Hzero.
    rewrite (refused_looksTransient e1 Hm1), (refused_looksTransient e2 Hm2).
    split; reflexivity.
Qed.

Lemma loop_error_backoff_ladder_witness :
  (hd_error (errorWrites (traceOf (automationLoop cycleQuotaRefused twoErrorsIn))) =
   Some (consecutiveErrors twoErrorsIn + 1) /\
   backoffs (traceOf (automationLoop cycleQuotaRefused twoErrorsIn)) = [180000] /\
   consecutiveErrors (stateOf (automationLoop cycleQuotaRefused twoErrorsIn)) = 0) /\
  (backoffs (traceOf (automationLoop cycleQuotaUnauthorized twoErrorsIn)) = [15000] /\
   consecutiveErrors (stateOf (automationLoop cycleQuotaUnauthorized twoErrorsIn)) =
   consecutiveErrors twoErrorsIn + 1) /\
  (backoffs (traceOf (automationLoop cycleQuotaRefused runningState)) = [5000] /\
   backoffs (traceOf (automationLoop cycleQuotaRefused
                        (stateOf (automationLoop cycleQuotaRefused runningState)))) =
   [15000]).
Proof.
  split; [| split].
  - destruct (proj1 loop_error_backoff_ladder cycleQuotaRefused twoErrorsIn
                _ _ _ eq_refl) as (Hw & _ & _ & _ & Hlong & _).
    split; [exact Hw |]. apply Hlong; [reflexivity | vm_compute; discriminate].
  - destruct (proj1 loop_error_backoff_ladder cycleQuotaUnauthorized twoErrorsIn
                _ _ _ eq_refl) as (_ & _ & _ & _ & _ & Hfixed).
    apply Hfixed. reflexivity.
  - apply (proj2 loop_error_backoff_ladder cycleQuotaRefused cycleQuotaRefused
             runningState _ _ _ _ _ _ eq_refl eq_refl eq_refl eq_refl eq_refl).
Defined.

(** Against C6 as stated: a first loop-level error that is not network-class
    (the quota check answers 401) waits 15 seconds, not 5, and a third one in
    a row waits 15 seconds again and leaves the counter at 3. *)
Lemma unauthorized_backoff_cex :
  backoffs (traceOf (automationLoop cycleQuotaUnauthorized runningState)) = [15000] /\
  backoffs (traceOf (automationLoop cycleQuotaUnauthorized runningState)) <> [5000] /\
  backoffs (traceOf (automationLoop cycleQuotaUnauthorized twoErrorsIn)) = [15000] /\
  backoffs (traceOf (automationLoop cycleQuotaUnauthorized twoErrorsIn)) <> [180000] /\
  consecutiveErrors (stateOf (automationLoop cycleQuotaUnauthorized twoErrorsIn)) = 3.
Proof.
  repeat split; try reflexivity; vm_compute; discriminate.
Qed.

(** * Further properties *)

(** ** The retry executor on any operation *)

Section ExecutorMore.
Context {World A : Type} (requestName : string).
Implicit Types (requestFn : @Request World A) (w : World).

(** A run that stops at its first invocation. *)
Lemma executeWithRetry_anatomy_single requestFn w (r : Settled A) w1 retryCount :
  requestFn w = (r, w1) ->
  (forall err, r = inl err ->
     transient err = false \/ (MAX_RETRIES <= retryCount)%nat) ->
  let o := (r, w1, [Invoke]) in
  let n := invocations (snd o) in
  snd (fst o) = worldAfter requestFn w n /\
  fst (fst o) = attempt requestFn w (n - 1) /\
  (1 <= n <= S (MAX_RETRIES - retryCount))%nat /\
  waits (snd o) = map retryDelay (seq retryCount (n - 1)) /\
  (forall err, fst (fst o) = inl err ->
     transient err = false \/ n = S (MAX_RETRIES - retryCount)) /\
  failsTransiently requestFn w (n - 1).
Proof.
  intros E Hstop. cbv zeta. cbn [fst snd invocations waits].
  change (1 - 1)%nat with 0%nat. unfold attempt. cbn [seq map worldAfter].
  rewrite E. cbn [fst snd]. repeat split; try lia.
  - intros err Heq. destruct (Hstop err Heq) as [Ht | Hge];
      [left; exact Ht | right; lia].
  - intros i Hi. lia.
Qed.

(** Everything a run of the executor is made of, by induction on the retries
    left. *)
Lemma executeWithRetry_anatomy requestFn (fuel : nat) : forall retryCount w,
  (MAX_RETRIES - retryCount <= fuel)%nat ->
  let o := executeWithRetry requestFn requestName retryCount w in
  let n := invocations (snd o) in
  snd (fst o) = worldAfter requestFn w n /\
  fst (fst o) = attempt requestFn w (n - 1) /\
  (1 <= n <= S (MAX_RETRIES - retryCount))%nat /\
  waits (snd o) = map retryDelay (seq retryCount (n - 1)) /\
  (forall err, fst (fst o) = inl err ->
     transient err = false \/ n = S (MAX_RETRIES - retryCount)) /\
  failsTransiently requestFn w (n - 1).
Proof.
  induction fuel as [| fuel IH]; intros retryCount w Hfuel;
    rewrite executeWithRetry_unfold;
    destruct (requestFn w) as [[err | value] w1] eqn:E;
    try (apply executeWithRetry_anatomy_single; [exact E | discriminate]);
    (destruct (transient err) eqn:Ht; cbn [andb];
     [| apply executeWithRetry_anatomy_single;
        [exact E | intros e' He'; inversion He'; subst; left; exact Ht]]);
    (destruct (Nat.ltb_spec retryCount MAX_RETRIES) as [Hlt | Hge];
     [| apply executeWithRetry_anatomy_single; [exact E | intros; right; exact Hge]]);
    [lia |].
  specialize (IH (retryCount + 1)%nat w1 ltac:(lia)). cbv zeta in IH.
  destruct (executeWithRetry requestFn requestName (retryCount + 1) w1)
    as [[r w2] t].
  cbv zeta. cbn [fst snd invocations waits] in *.
  destruct IH as (Hw & Hr & Hn & Hwaits & Herr & Hfail).
  destruct (invocations t) as [| m] eqn:Hm; [lia |].
  replace (S (S m) - 1)%nat with (S m) by lia.
  replace (S m - 1)%nat with m in * by lia.
  repeat split; try lia.
  - cbn [worldAfter]. rewrite E. exact Hw.
  - rewrite Hr. unfold attempt. cbn [worldAfter]. rewrite E. reflexivity.
  - rewrite Hwaits. cbn [seq map]. rewrite Nat.add_1_r. reflexivity.
  - intros err' Heq. destruct (Herr err' Heq) as [Hterm | Hlast];
      [left; exact Hterm | right; lia].
  - intros [| i] Hi.
    + exists err. unfold attempt. cbn [worldAfter]. rewrite E. split; trivial.
    + destruct (Hfail i ltac:(lia)) as [e' [He' Ht']].
      exists e'. split; [| exact Ht'].
      unfold attempt in *. cbn [worldAfter]. rewrite E. exact He'.
Qed.

(** X1: the executor invokes the operation at least once and at most
    [MAX_RETRIES + 1 - retryCount] times, six times from [retryCount = 0],
    whatever the operation does; called with [retryCount] at or above
    [MAX_RETRIES] it invokes it exactly once. *)
Theorem retry_attempts_bounded requestFn retryCount w :
  let n := invocations (snd (executeWithRetry requestFn requestName retryCount w)) in
  (1 <= n <= S (MAX_RETRIES - retryCount))%nat /\
  ((MAX_RETRIES <= retryCount)%nat -> n = 1%nat).
Proof.
  destruct (executeWithRetry_anatomy requestFn MAX_RETRIES retryCount w ltac:(lia))
    as (_ & _ & Hn & _).
  cbv zeta. split; [exact Hn | intros Hge; lia].
Qed.

(** X2: what the executor returns or throws is what its last invocation
    returned or threw, every earlier invocation failed with a transient
    error, and the world it leaves is the one the invocations made, one after
    the other. *)
Theorem retry_returns_last_attempt requestFn retryCount w :
  let o := executeWithRetry requestFn requestName retryCount w in
  let n := invocations (snd o) in
  fst (fst o) = attempt requestFn w (n - 1) /\
  snd (fst o) = worldAfter requestFn w n /\
  failsTransiently requestFn w (n - 1).
Proof.
  destruct (executeWithRetry_anatomy requestFn MAX_RETRIES retryCount w ltac:(lia))
    as (Hw & Hr & _ & _ & _ & Hfail).
  cbv zeta. repeat split; assumption.
Qed.

(** X4: the executor throws an error only if that error is not transient or
    the retries are used up. *)
Theorem retry_throws_only_terminal_or_exhausted requestFn w err :
  let o := executeWithRetry requestFn requestName 0 w in
  fst (fst o) = inl err ->
  transient err = false \/ invocations (snd o) = S MAX_RETRIES.
Proof.
  cbv zeta. intros Herr.
  destruct (executeWithRetry_anatomy requestFn MAX_RETRIES 0%nat w ltac:(lia))
    as (_ & _ & _ & _ & Hcase & _).
  destruct (Hcase err Herr) as [Ht | Hn]; [left; exact Ht | right].
  rewrite Hn. reflexivity.
Qed.

(** X3: between two attempts the executor waits exactly once, the delay
    after the attempt made with retry count [i] being [retryDelay i]; a run
    from retry count 0 waits 26375 ms at most in all. *)
Theorem retry_waits_schedule requestFn w :
  let t := snd (executeWithRetry requestFn requestName 0 w) in
  waits t = map retryDelay (seq 0 (invocations t - 1)) /\
  List.length (waits t) = (invocations t - 1)%nat /\
  (fold_right Qplus 0 (waits t) <= 26375)%Q.
Proof.
  destruct (executeWithRetry_anatomy requestFn MAX_RETRIES 0%nat w ltac:(lia))
    as (_ & _ & Hn & Hwaits & _).
  cbv zeta. rewrite Hwaits. unfold MAX_RETRIES in Hn.
  split; [reflexivity |]. split; [now rewrite length_map, length_seq |].
  destruct (invocations (snd (executeWithRetry requestFn requestName 0 w)))
    as [| [| [| [| [| [| [| n]]]]]]]; try lia; vm_compute; discriminate.
Qed.

(** X5: when the operation fails [n <= 5] times with transient errors and
    then with an error that is not transient, the executor makes [n + 1]
    invocations and throws that last error. *)
Theorem retry_stops_at_terminal_error requestFn w (n : nat) err :
  failsTransiently requestFn w n ->
  (n <= MAX_RETRIES)%nat ->
  attempt requestFn w n = inl err ->
  transient err = false ->
  let o := executeWithRetry requestFn requestName 0 w in
  fst (fst o) = inl err /\ invocations (snd o) = S n.
Proof.
  intros Hfail Hle Hn Hterm. cbv zeta.
  destruct (executeWithRetry_anatomy requestFn MAX_RETRIES 0%nat w ltac:(lia))
    as (_ & Hr & Hm & _ & Hstop & Hfail').
  set (m := invocations (snd (executeWithRetry requestFn requestName 0 w))) in *.
  assert (Heq : (m - 1)%nat = n).
  { destruct (Nat.lt_trichotomy (m - 1) n) as [Hlt | [Heq | Hgt]]; [| exact Heq |].
    - destruct (Hfail _ Hlt) as [e [He Ht]].
      rewrite He in Hr. destruct (Hstop e Hr) as [Hno | Hlast];
        [congruence | lia].
    - destruct (Hfail' _ Hgt) as [e [He Ht]]. congruence. }
  rewrite Hr, Heq. split; [exact Hn | lia].
Qed.

End ExecutorMore.

Lemma retry_attempts_bounded_witness :
  (1 <= invocations (snd (executeWithRetry (refusedThenOk 9) "GET /points" 7 0%nat))
   <= S (MAX_RETRIES - 7))%nat /\
  invocations (snd (executeWithRetry (refusedThenOk 9) "GET /points" 7 0%nat)) = 1%nat.
Proof.
  split.
  - apply (proj1 (retry_attempts_bounded "GET /points" (refusedThenOk 9) 7%nat 0%nat)).
  - apply (proj2 (retry_attempts_bounded "GET /points" (refusedThenOk 9) 7%nat 0%nat)).
    unfold MAX_RETRIES. lia.
Defined.

Lemma retry_throws_only_terminal_or_exhausted_witness :
  transient (mkError "connect ECONNREFUSED 127.0.0.1:443" None) = false \/
  invocations (snd (executeWithRetry (refusedThenOk 9) "GET /points" 0 0%nat)) =
  S MAX_RETRIES.
Proof.
  apply (retry_throws_only_terminal_or_exhausted "GET /points" (refusedThenOk 9) 0%nat).
  reflexivity.
Defined.

Lemma retry_stops_at_terminal_error_witness :
  fst (fst (executeWithRetry (Scenarios.refusedThenUnauthorized 2) "GET /points" 0 0%nat)) =
    inl (mkError "Request failed with status code 401" (Some (mkResponse 401))) /\
  invocations (snd (executeWithRetry (Scenarios.refusedThenUnauthorized 2)
                      "GET /points" 0 0%nat)) = 3%nat.
Proof.
  apply (retry_stops_at_terminal_error "GET /points"
           (Scenarios.refusedThenUnauthorized 2) 0%nat 2).
  - intros i Hi. exists (mkError "connect ECONNREFUSED 127.0.0.1:443" None).
    destruct i as [| [| i]]; [split; reflexivity | split; reflexivity | lia].
  - unfold MAX_RETRIES. lia.
  - reflexivity.
  - reflexivity.
Defined.

(** ** The session client *)

Section SessionFacts.
Import Session.
Variable BASE_URL : string.
Variable DEFAULT_HEADERS : Headers.
Variable trim : string -> string.


Lemma truthy_nonempty token : truthy (Some token) = true <-> token <> "".
Proof.
  unfold truthy. destruct (String.eqb_spec token ""); cbn; split;
    congruence.
Qed.

Lemma axios_sent config n :
  sent (snd (axios config n)) = sent n ++ [config] /\
  answers (snd (axios config n)) = tl (answers n) /\
  (forall body, fst (axios config n) = inr body -> In (inr body) (answers n)).
Proof.
  unfold axios. destruct (answers n) as [| a rest]; cbn; repeat split.
  - intros body H. discriminate H.
  - intros body H. left. exact H.
Qed.

(** X6: the headers [getAuthHeaders] builds always carry the session token
    under [X-Session-Token], whatever the caller passes under that name; for
    every other name the caller's header wins over the default one; and
    without a token, or with an empty one, it throws instead. *)
Theorem getAuthHeaders_token_wins extra s :
  (forall token, sessionToken s = Some token -> token <> "" ->
     exists h, getAuthHeaders DEFAULT_HEADERS extra s = inr h /\
       h "X-Session-Token" = Some token /\
       forall key, key <> "X-Session-Token" ->
         h key = match extra key with
                 | Some v => Some v
                 | None => DEFAULT_HEADERS key
                 end) /\
  (truthy (sessionToken s) = false -> getAuthHeaders DEFAULT_HEADERS extra s = inl notAuthenticated).
Proof.
  unfold getAuthHeaders. split.
  - intros token Htok Hne. rewrite Htok.
    rewrite (proj2 (truthy_nonempty token) Hne).
    eexists. split; [reflexivity |]. unfold withKey, spread. split.
    + reflexivity.
    + intros key Hkey. destruct (String.eqb_spec key "X-Session-Token");
        [contradiction | reflexivity].
  - intros Hno. destruct (sessionToken s) as [token |]; [| reflexivity].
    rewrite Hno. reflexivity.
Qed.

(** X7: [readSessionTokenFromFile] returns a token only when the file exists
    and can be read, and then the token is the trimmed content and is not
    empty; a missing or unreadable file, or a failing check, gives [null]. *)
Theorem readSessionTokenFromFile_nonempty files :
  (forall token, readSessionTokenFromFile trim files = Some token ->
     token <> "" /\ truthy (Some token) = true /\
     exists raw, fileExists files = inr true /\
                 readFile files = inr (Some raw) /\ token = trim raw) /\
  (fileExists files <> inr true -> readSessionTokenFromFile trim files = None) /\
  ((forall raw, readFile files <> inr (Some raw)) -> readSessionTokenFromFile trim files = None).
Proof.
  unfold readSessionTokenFromFile. split; [| split].
  - intros token.
    destruct (fileExists files) as [e | [|]]; try discriminate.
    destruct (readFile files) as [e | [raw |]]; try discriminate.
    destruct (truthy (Some raw) && (0 <? String.length (trim raw))%nat) eqn:Hc;
      try discriminate.
    intros Heq. inversion Heq; subst. clear Heq.
    apply andb_true_iff in Hc. destruct Hc as [_ Hlen].
    apply Nat.ltb_lt in Hlen.
    assert (Hne : trim raw <> "").
    { intros Hempty. rewrite Hempty in Hlen. cbn in Hlen. lia. }
    split; [exact Hne |]. split; [apply truthy_nonempty; exact Hne |].
    exists raw. repeat split.
  - intros Hno. destruct (fileExists files) as [e | [|]];
      [reflexivity | congruence | reflexivity].
  - intros Hno. destruct (fileExists files) as [e | [|]]; try reflexivity.
    destruct (readFile files) as [e | [raw |]]; try reflexivity.
    exfalso. apply (Hno raw). reflexivity.
Qed.

Lemma readToken_truthy files token :
  readSessionTokenFromFile trim files = Some token -> truthy (Some token) = true.
Proof.
  unfold readSessionTokenFromFile.
  destruct (fileExists files) as [e | [|]]; try discriminate.
  destruct (readFile files) as [e | [raw |]]; try discriminate.
  destruct (truthy (Some raw) && (0 <? String.length (trim raw))%nat) eqn:Hc;
    try discriminate.
  intros Heq. inversion Heq; subst. clear Heq.
  apply andb_true_iff in Hc. destruct Hc as [_ Hlen]. apply Nat.ltb_lt in Hlen.
  apply truthy_nonempty. intros Hempty. rewrite Hempty in Hlen. cbn in Hlen. lia.
Qed.

(** The request [login] sends to check a token. *)
Lemma validateRequest_step w token :
  sessionToken (session w) = Some token ->
  truthy (Some token) = true ->
  let o := validateRequest BASE_URL DEFAULT_HEADERS w in
  sessionToken (session (snd o)) = Some token /\
  sent (net (snd o)) =
    sent (net w) ++
    [mkRequest "get" (BASE_URL ++ "/me")%string
       (withKey (spread DEFAULT_HEADERS noHeaders) "X-Session-Token" token)
       None None] /\
  answers (net (snd o)) = tl (answers (net w)) /\
  (forall body, fst o = inr body ->
     cachedUserInfo (session (snd o)) = Some body /\
     In (inr body) (answers (net w))) /\
  (forall e, fst o = inl e ->
     cachedUserInfo (session (snd o)) = cachedUserInfo (session w)).
Proof.
  intros Htok Htruthy. cbv zeta. unfold validateRequest, getAuthHeaders.
  rewrite Htok, Htruthy.
  match goal with
  | |- context [axios ?c ?n] =>
      destruct (axios_sent c n) as (Hsent & Hans & Hin);
      destruct (axios c n) as [[e | body] net1]
  end; cbn [fst snd session net sessionToken cachedUserInfo] in *;
    repeat split; trivial; try discriminate.
  - congruence.
  - apply Hin. assumption.
Qed.

Lemma validateRequest_worlds n : forall w token,
  sessionToken (session w) = Some token ->
  truthy (Some token) = true ->
  let w' := worldAfter (validateRequest BASE_URL DEFAULT_HEADERS) w n in
  sessionToken (session w') = Some token /\
  sent (net w') =
    sent (net w) ++
    repeat (mkRequest "get" (BASE_URL ++ "/me")%string
              (withKey (spread DEFAULT_HEADERS noHeaders) "X-Session-Token" token)
              None None) n /\
  answers (net w') = skipn n (answers (net w)) /\
  ((forall i, (i < n)%nat ->
      exists e, attempt (validateRequest BASE_URL DEFAULT_HEADERS) w i = inl e) ->
   cachedUserInfo (session w') = cachedUserInfo (session w)).
Proof.
  induction n as [| n IH]; intros w token Htok Htruthy; cbv zeta.
  - cbn [worldAfter repeat skipn]. rewrite app_nil_r. repeat split; trivial.
  - destruct (validateRequest_step w token Htok Htruthy)
      as (Htok1 & Hsent1 & Hans1 & _ & Hfail1).
    destruct (IH _ token Htok1 Htruthy) as (Htok2 & Hsent2 & Hans2 & Hcache2).
    cbn [worldAfter]. repeat split.
    + exact Htok2.
    + rewrite Hsent2, Hsent1, <- app_assoc. reflexivity.
    + rewrite Hans2, Hans1. destruct (answers (net w)); [| reflexivity].
      cbn. destruct n; reflexivity.
    + intros Hall. rewrite Hcache2.
      * destruct (Hall 0%nat ltac:(lia)) as [e He]. apply (Hfail1 e). exact He.
      * intros i Hi. destruct (Hall (S i) ltac:(lia)) as [e He].
        exists e. exact He.
Qed.

Lemma worldAfter_last {W B : Type} (f : @Request W B) n : forall w,
  worldAfter f w (S n) = snd (f (worldAfter f w n)).
Proof.
  induction n as [| n IH]; intros w; [reflexivity |].
  change (worldAfter f w (S (S n))) with (worldAfter f (snd (f w)) (S n)).
  rewrite IH. reflexivity.
Qed.

Lemma in_skipn_in {B : Type} (x : B) n : forall l, In x (skipn n l) -> In x l.
Proof.
  induction n as [| n IH]; intros [| y l] H; cbn in *; auto.
Qed.

(** What [login] leaves behind, from the anatomy of its retry run. *)
Lemma login_anatomy files w token :
  readSessionTokenFromFile trim files = Some token ->
  let o := login BASE_URL DEFAULT_HEADERS trim files w in
  let n := invocations (snd o) in
  (1 <= n <= S MAX_RETRIES)%nat /\
  sent (net (snd (fst o))) =
    sent (net w) ++
    repeat (mkRequest "get" (BASE_URL ++ "/me")%string
              (withKey (spread DEFAULT_HEADERS noHeaders) "X-Session-Token" token)
              None None) n /\
  match fst (fst o) with
  | inr tok =>
      tok = Some token /\ sessionToken (session (snd (fst o))) = Some token /\
      exists body, cachedUserInfo (session (snd (fst o))) = Some body /\
                   body <> Jnull /\
                   In (inr body) (answers (net w))
  | inl e =>
      sessionToken (session (snd (fst o))) = None /\
      (cachedUserInfo (session (snd (fst o))) = cachedUserInfo (session w) \/
       cachedUserInfo (session (snd (fst o))) = Some Jnull /\
       e = cannotReadUserId /\
       In (inr Jnull) (answers (net w)))
  end.
Proof.
  intros Hread. cbv zeta. unfold login. rewrite Hread.
  pose proof (readToken_truthy files token Hread) as Htruthy.
  set (w1 := set_sessionToken (Some token) w).
  assert (Htok1 : sessionToken (session w1) = Some token) by reflexivity.
  pose proof (executeWithRetry_anatomy "Token validation"
                (validateRequest BASE_URL DEFAULT_HEADERS) MAX_RETRIES 0%nat w1
                ltac:(lia)) as Hrun.
  cbv zeta in Hrun.
  destruct (executeWithRetry (validateRequest BASE_URL DEFAULT_HEADERS)
              "Token validation" 0 w1) as [[r w2] t].
  cbn [fst snd] in Hrun. destruct Hrun as (Hw & Hr & Hn & _ & _ & Hfail).
  destruct (validateRequest_worlds (invocations t) w1 token Htok1 Htruthy)
    as (Htok2 & Hsent2 & _ & Hcache2).
  rewrite <- Hw in Htok2, Hsent2, Hcache2.
  destruct r as [e | body]; cbn [fst snd].
  - split; [rewrite Nat.sub_0_r in Hn; exact Hn |].
    split; [exact Hsent2 |]. split; [reflexivity |].
    cbn [set_sessionToken session cachedUserInfo].
    left. apply Hcache2. intros i Hi.
    destruct (Nat.eq_dec i (invocations t - 1)) as [-> | Hne].
    + exists e. symmetry. exact Hr.
    + destruct (Hfail i ltac:(lia)) as [e' [He' _]]. exists e'. exact He'.
  - assert (Hbody : cachedUserInfo (session w2) = Some body /\
                    In (inr body) (answers (net w))).
    { destruct (invocations t) as [| m] eqn:Hm; [lia |].
      replace (S m - 1)%nat with m in Hr by lia.
      destruct (validateRequest_worlds m w1 token Htok1 Htruthy)
        as (Htokm & _ & Hansm & _).
      destruct (validateRequest_step _ token Htokm Htruthy)
        as (_ & _ & _ & Hok & _).
      destruct (Hok body) as [Hcache Hin]; [symmetry; exact Hr |].
      split.
      - rewrite Hw, worldAfter_last. exact Hcache.
      - rewrite Hansm in Hin. apply in_skipn_in in Hin. exact Hin. }
    destruct Hbody as [Hcache Hin]. rewrite Hcache.
    assert (Hcount : (1 <= invocations t <= S MAX_RETRIES)%nat)
      by (rewrite Nat.sub_0_r in Hn; exact Hn).
    destruct body as [| b | z | text | text]; cbn [fst snd];
      (split; [exact Hcount |]); (split; [exact Hsent2 |]).
    + split; [reflexivity |]. right.
      cbn [set_sessionToken session cachedUserInfo]. repeat split; trivial.
    + split; [rewrite Htok2; reflexivity |]. split; [exact Htok2 |].
      eexists. split; [exact Hcache |]. split; [discriminate | exact Hin].
    + split; [rewrite Htok2; reflexivity |]. split; [exact Htok2 |].
      eexists. split; [exact Hcache |]. split; [discriminate | exact Hin].
    + split; [rewrite Htok2; reflexivity |]. split; [exact Htok2 |].
      eexists. split; [exact Hcache |]. split; [discriminate | exact Hin].
    + split; [rewrite Htok2; reflexivity |]. split; [exact Htok2 |].
      eexists. split; [exact Hcache |]. split; [discriminate | exact Hin].
Qed.

Lemma login_result files w :
  let o := login BASE_URL DEFAULT_HEADERS trim files w in
  match fst (fst o) with
  | inr tok =>
      tok = readSessionTokenFromFile trim files /\
      truthy tok = true /\
      sessionToken (session (snd (fst o))) = tok /\
      exists body, cachedUserInfo (session (snd (fst o))) = Some body /\
                   body <> Jnull /\
                   In (inr body) (answers (net w))
  | inl e =>
      sessionToken (session (snd (fst o))) = None /\
      (cachedUserInfo (session (snd (fst o))) = cachedUserInfo (session w) \/
       cachedUserInfo (session (snd (fst o))) = Some Jnull /\
       e = cannotReadUserId /\
       In (inr Jnull) (answers (net w)))
  end /\
  tokenWellFormed (session (snd (fst o))).
Proof.
  cbv zeta. unfold tokenWellFormed.
  destruct (readSessionTokenFromFile trim files) as [token |] eqn:Hread.
  - pose proof (readToken_truthy files token Hread) as Htruthy.
    destruct (login_anatomy files w token Hread) as (_ & _ & Hcase).
    destruct (fst (fst (login BASE_URL DEFAULT_HEADERS trim files w)))
      as [e | tok].
    + destruct Hcase as [Hnone Hcache]. split; [split; assumption |].
      left. exact Hnone.
    + destruct Hcase as (Htok & Hheld & body & Hcache & Hnull & Hin). subst tok.
      split; [| right; rewrite Hheld; exact Htruthy].
      repeat split; trivial. exists body. repeat split; assumption.
  - unfold login. rewrite Hread. cbn.
    split; [split; [reflexivity | left; reflexivity] | left; reflexivity].
Qed.

(** X8: a [login] that returns has stored the token read from the file,
    which is not empty, and has cached a user record the server sent, which
    is not [null]; a [login] that throws leaves no token behind, and leaves
    the cache as it was unless the server answered the validation with a
    [null] body: then the cache holds that [null] and the error is the
    TypeError of reading [user_id].  Either way the token held afterwards is
    [null] or not empty. *)
Theorem login_outcome files w :
  let o := login BASE_URL DEFAULT_HEADERS trim files w in
  match fst (fst o) with
  | inr tok =>
      tok = readSessionTokenFromFile trim files /\
      truthy tok = true /\
      sessionToken (session (snd (fst o))) = tok /\
      exists body, cachedUserInfo (session (snd (fst o))) = Some body /\
                   body <> Jnull /\
                   In (inr body) (answers (net w))
  | inl e =>
      sessionToken (session (snd (fst o))) = None /\
      (cachedUserInfo (session (snd (fst o))) = cachedUserInfo (session w) \/
       cachedUserInfo (session (snd (fst o))) = Some Jnull /\
       e = cannotReadUserId /\
       In (inr Jnull) (answers (net w)))
  end /\
  tokenWellFormed (session (snd (fst o))).
Proof.
  cbv zeta. unfold tokenWellFormed.
  destruct (readSessionTokenFromFile trim files) as [token |] eqn:Hread.
  - pose proof (readToken_truthy files token Hread) as Htruthy.
    destruct (login_anatomy files w token Hread) as (_ & _ & Hcase).
    destruct (fst (fst (login BASE_URL DEFAULT_HEADERS trim files w)))
      as [e | tok].
    + destruct Hcase as [Hnone Hcache]. split; [split; assumption |].
      left. exact Hnone.
    + destruct Hcase as (Htok & Hheld & body & Hcache & Hnull & Hin). subst tok.
      split; [| right; rewrite Hheld; exact Htruthy].
      repeat split; trivial. exists body. repeat split; assumption.
  - unfold login. rewrite Hread. cbn.
    split; [split; [reflexivity | left; reflexivity] | left; reflexivity].
Qed.

(** X9: without a usable token file [login] throws at once and sends
    nothing; with one it sends between one and six requests, all of them
    [GET /me] under the token read from the file. *)
Theorem login_requests files w :
  let o := login BASE_URL DEFAULT_HEADERS trim files w in
  (readSessionTokenFromFile trim files = None ->
   fst (fst o) = inl noTokenFound /\ net (snd (fst o)) = net w /\ snd o = []) /\
  (forall token, readSessionTokenFromFile trim files = Some token ->
   exists new,
     sent (net (snd (fst o))) = sent (net w) ++ new /\
     List.length new = invocations (snd o) /\
     (1 <= List.length new <= 6)%nat /\
     Forall (fun c => method c = "get" /\ url c = (BASE_URL ++ "/me")%string /\
                      headers c "X-Session-Token" = Some token /\
                      data c = None) new).
Proof.
  cbv zeta. split.
  - intros Hread. unfold login. rewrite Hread. repeat split.
  - intros token Hread.
    destruct (login_anatomy files w token Hread) as (Hn & Hsent & _).
    eexists. split; [exact Hsent |]. rewrite repeat_length.
    split; [reflexivity |]. split; [unfold MAX_RETRIES in Hn; lia |].
    apply Forall_forall. intros c Hc. apply repeat_spec in Hc. subst c.
    repeat split.
Qed.

(** Requests that leave the session alone and always send the same
    configuration. *)
Lemma plainRequest_worlds (f : @Request World Json) config :
  (forall w, f w = (fst (axios config (net w)),
                    mkWorld (session w) (snd (axios config (net w))))) ->
  forall n w,
    session (worldAfter f w n) = session w /\
    sent (net (worldAfter f w n)) = sent (net w) ++ repeat config n /\
    (forall body, attempt f w n = inr body -> In (inr body) (answers (net w))).
Proof.
  intros Hf. induction n as [| n IH]; intros w.
  - cbn [worldAfter repeat]. rewrite app_nil_r. repeat split.
    unfold attempt. cbn [worldAfter]. rewrite Hf. cbn [fst].
    apply (axios_sent config (net w)).
  - destruct (IH (snd (f w))) as (Hs & Hsent & Hin).
    destruct (axios_sent config (net w)) as (Hsent1 & Hans1 & _).
    cbn [worldAfter]. rewrite Hs, Hsent. rewrite Hf. cbn [snd session net].
    rewrite Hsent1, <- app_assoc. repeat split.
    intros body Hbody.
    assert (Hb : attempt f (snd (f w)) n = inr body) by exact Hbody.
    apply Hin in Hb. rewrite Hf in Hb. cbn [snd net] in Hb. rewrite Hans1 in Hb.
    destruct (answers (net w)); [destruct Hb | right; exact Hb].
Qed.

Lemma getUserRequest_plain h w :
  getUserRequest BASE_URL h w =
  (fst (axios (mkRequest "get" (BASE_URL ++ "/me")%string h (Some 10000) None) (net w)),
   mkWorld (session w)
     (snd (axios (mkRequest "get" (BASE_URL ++ "/me")%string h (Some 10000) None) (net w)))).
Proof. unfold getUserRequest. destruct (axios _ (net w)). reflexivity. Qed.

Lemma apiRequest_plain verb endpoint body h w :
  apiRequest BASE_URL verb endpoint body h w =
  (fst (axios (mkRequest verb (BASE_URL ++ endpoint)%string h (Some 10000)
                 (requestData body)) (net w)),
   mkWorld (session w)
     (snd (axios (mkRequest verb (BASE_URL ++ endpoint)%string h (Some 10000)
                    (requestData body)) (net w)))).
Proof. unfold apiRequest. destruct (axios _ (net w)). reflexivity. Qed.

(** X12: with a token in place, [makeApiRequest] sends between one and six
    requests, each with the given method, the base URL followed by the
    endpoint, the auth headers and a 10-second timeout; the request carries
    the given body when that body is truthy and no body otherwise ([null],
    [false], [0] and the empty string are left out).  It changes neither the
    token nor the cached user record, and what it returns is one of the
    server's answers. *)
Theorem makeApiRequest_requests verb endpoint body extra w token :
  sessionToken (session w) = Some token ->
  token <> "" ->
  let o := makeApiRequest BASE_URL DEFAULT_HEADERS verb endpoint body extra w in
  let config :=
    mkRequest verb (BASE_URL ++ endpoint)%string
      (withKey (spread DEFAULT_HEADERS extra) "X-Session-Token" token)
      (Some 10000)
      (match body with
       | Some (Jobj text) => Some (Jobj text)
       | Some (Jstr text) => if String.eqb text "" then None else Some (Jstr text)
       | Some (Jnum n) => if (n =? 0)%Z then None else Some (Jnum n)
       | Some (Jbool b) => if b then Some (Jbool true) else None
       | Some Jnull => None
       | None => None
       end) in
  session (snd (fst o)) = session w /\
  sent (net (snd (fst o))) = sent (net w) ++ repeat config (invocations (snd o)) /\
  (1 <= invocations (snd o) <= 6)%nat /\
  (forall answer, fst (fst o) = inr answer -> In (inr answer) (answers (net w))).
Proof.
  intros Htok Hne. cbv zeta.
  match goal with
  | |- context [mkRequest _ _ _ _ ?d] =>
      replace d with (requestData body)
        by (unfold requestData, truthyValue, truthyJson;
            destruct body as [[| [|] | n | text | text] |];
            try reflexivity;
            [destruct (n =? 0)%Z | destruct (String.eqb text "")]; reflexivity)
  end.
  unfold makeApiRequest, getAuthHeaders.
  rewrite Htok, (proj2 (truthy_nonempty token) Hne).
  set (h := withKey (spread DEFAULT_HEADERS extra) "X-Session-Token" token).
  set (f := apiRequest BASE_URL verb endpoint body h).
  pose proof (executeWithRetry_anatomy (verb ++ " " ++ endpoint)%string f
                MAX_RETRIES 0%nat w ltac:(lia)) as Hrun.
  cbv zeta in Hrun. destruct Hrun as (Hw & Hr & Hn & _).
  pose proof (plainRequest_worlds f _ (apiRequest_plain verb endpoint body h)) as Hplain.
  rewrite Hw.
  destruct (Hplain (invocations (snd (executeWithRetry f (verb ++ " " ++ endpoint) 0 w))) w)
    as (Hs & Hsent & _).
  split; [exact Hs |]. split; [exact Hsent |].
  split; [unfold MAX_RETRIES in Hn; lia |].
  intros answer Hans. rewrite Hr in Hans.
  apply (Hplain _ w) in Hans. exact Hans.
Qed.

(** What a [getUserInfo] that goes to the server leaves behind. *)
Lemma getUserInfo_fetch w token :
  sessionToken (session w) = Some token ->
  token <> "" ->
  let o := getUserInfo BASE_URL DEFAULT_HEADERS false w in
  sessionToken (session (snd (fst o))) = Some token /\
  (1 <= invocations (snd o) <= 6)%nat /\
  sent (net (snd (fst o))) =
    sent (net w) ++
    repeat (mkRequest "get" (BASE_URL ++ "/me")%string
              (withKey (spread DEFAULT_HEADERS noHeaders) "X-Session-Token" token)
              (Some 10000) None) (invocations (snd o)) /\
  match fst (fst o) with
  | inr userData =>
      cachedUserInfo (session (snd (fst o))) = Some userData /\
      In (inr userData) (answers (net w))
  | inl e => cachedUserInfo (session (snd (fst o))) = cachedUserInfo (session w)
  end.
Proof.
  intros Htok Hne. cbv zeta. unfold getUserInfo, getAuthHeaders. cbn [andb].
  rewrite Htok, (proj2 (truthy_nonempty token) Hne).
  set (h := withKey (spread DEFAULT_HEADERS noHeaders) "X-Session-Token" token).
  set (f := getUserRequest BASE_URL h).
  pose proof (executeWithRetry_anatomy "Get user info" f MAX_RETRIES 0%nat w
                ltac:(lia)) as Hrun.
  cbv zeta in Hrun. destruct Hrun as (Hw & Hr & Hn & _).
  pose proof (plainRequest_worlds f _ (getUserRequest_plain h)) as Hplain.
  destruct (executeWithRetry f "Get user info" 0 w) as [[r w1] t].
  cbn [fst snd] in *.
  destruct (Hplain (invocations t) w) as (Hs & Hsent & _).
  rewrite <- Hw in Hs, Hsent.
  assert (Hbound : (1 <= invocations t <= 6)%nat)
    by (unfold MAX_RETRIES in Hn; lia).
  destruct r as [e | userData]; cbn [fst snd set_cachedUserInfo session net
                                      sessionToken cachedUserInfo].
  - rewrite Hs. repeat split; trivial; lia.
  - rewrite Hs. repeat split; trivial; try lia.
    apply (Hplain (invocations t - 1)%nat w). symmetry. exact Hr.
Qed.

(** X10: [getUserInfo(true)] returns the cached user record, without any
    request and without a look at the token, when that record is truthy; with
    no record or a falsy one in the cache it does what [getUserInfo()] does.
    So a truthy record that a successful [getUserInfo()] has just fetched is
    what the next [getUserInfo(true)] returns, and after a successful
    [login()] the cache holds the record the server sent, which is not
    [null], and [getUserInfo(true)] returns it when it is truthy. *)
Theorem cached_user_info_round_trip :
  (forall w info,
     cachedUserInfo (session w) = Some info ->
     truthyJson info = true ->
     getUserInfo BASE_URL DEFAULT_HEADERS true w = (inr info, w, [])) /\
  (forall w,
     match cachedUserInfo (session w) with
     | Some record => truthyJson record = false
     | None => True
     end ->
     getUserInfo BASE_URL DEFAULT_HEADERS true w =
     getUserInfo BASE_URL DEFAULT_HEADERS false w) /\
  (forall w userData,
     fst (fst (getUserInfo BASE_URL DEFAULT_HEADERS false w)) = inr userData ->
     truthyJson userData = true ->
     let w1 := snd (fst (getUserInfo BASE_URL DEFAULT_HEADERS false w)) in
     getUserInfo BASE_URL DEFAULT_HEADERS true w1 = (inr userData, w1, [])) /\
  (forall files w tok,
     fst (fst (login BASE_URL DEFAULT_HEADERS trim files w)) = inr tok ->
     let w1 := snd (fst (login BASE_URL DEFAULT_HEADERS trim files w)) in
     exists body,
       In (inr body) (answers (net w)) /\
       body <> Jnull /\
       cachedUserInfo (session w1) = Some body /\
       (truthyJson body = true ->
        getUserInfo BASE_URL DEFAULT_HEADERS true w1 = (inr body, w1, []))).
Proof.
  assert (Hhit : forall w info,
             cachedUserInfo (session w) = Some info ->
             truthyJson info = true ->
             getUserInfo BASE_URL DEFAULT_HEADERS true w = (inr info, w, [])).
  { intros w info Hc Ht. unfold getUserInfo. rewrite Hc. cbn [truthyValue andb].
    rewrite Ht. reflexivity. }
  split; [exact Hhit |]. split; [| split].
  - intros w Hfalsy. unfold getUserInfo.
    destruct (cachedUserInfo (session w)) as [record |]; cbn [truthyValue andb];
      [rewrite Hfalsy |]; reflexivity.
  - intros w userData Hok Ht w1. apply Hhit; [| exact Ht]. subst w1. revert Hok.
    unfold getUserInfo. cbn [andb].
    destruct (getAuthHeaders DEFAULT_HEADERS noHeaders (session w)) as [e | h];
      [discriminate |].
    destruct (executeWithRetry (getUserRequest BASE_URL h) "Get user info" 0 w)
      as [[[e | d] w2] t]; cbn; [discriminate |].
    intros Heq. inversion Heq. reflexivity.
  - intros files w tok Hok w1.
    pose proof (login_result files w) as Hout. cbv zeta in Hout.
    rewrite Hok in Hout.
    destruct Hout as ((_ & _ & _ & body & Hc & Hnull & Hin) & _).
    exists body. split; [exact Hin |]. split; [exact Hnull |].
    split; [exact Hc |]. intros Ht. apply Hhit; assumption.
Qed.

(** X11: after a [login] that threw, [getUserInfo()] and every
    [makeApiRequest] throw "Not authenticated" without sending anything and
    without touching the session. *)
Theorem failed_login_locks_out files w e :
  fst (fst (login BASE_URL DEFAULT_HEADERS trim files w)) = inl e ->
  let w1 := snd (fst (login BASE_URL DEFAULT_HEADERS trim files w)) in
  getUserInfo BASE_URL DEFAULT_HEADERS false w1 = (inl notAuthenticated, w1, []) /\
  forall verb endpoint body extra,
    makeApiRequest BASE_URL DEFAULT_HEADERS verb endpoint body extra w1 =
    (inl notAuthenticated, w1, []).
Proof.
  intros Hfail w1.
  pose proof (login_result files w) as Hout. cbv zeta in Hout.
  rewrite Hfail in Hout. destruct Hout as ((Hnone & _) & _).
  fold w1 in Hnone.
  split; [| intros verb endpoint body extra];
    unfold getUserInfo, makeApiRequest, getAuthHeaders; rewrite Hnone; reflexivity.
Qed.

(** X13: with a token in place, [getUserInfo()] sends between one and six
    [GET /me] requests with a 10-second timeout, keeps the token, and
    replaces the cached user record exactly when it succeeds, by the record
    it returns; when it throws the cache is as before. *)
Theorem getUserInfo_updates_cache_on_success w token :
  sessionToken (session w) = Some token ->
  token <> "" ->
  let o := getUserInfo BASE_URL DEFAULT_HEADERS false w in
  sessionToken (session (snd (fst o))) = Some token /\
  (1 <= invocations (snd o) <= 6)%nat /\
  List.length (sent (net (snd (fst o)))) =
    (List.length (sent (net w)) + invocations (snd o))%nat /\
  (forall userData, fst (fst o) = inr userData ->
     cachedUserInfo (session (snd (fst o))) = Some userData /\
     In (inr userData) (answers (net w))) /\
  (forall err, fst (fst o) = inl err ->
     cachedUserInfo (session (snd (fst o))) = cachedUserInfo (session w)).
Proof.
  intros Htok Hne. cbv zeta.
  destruct (getUserInfo_fetch w token Htok Hne) as (Hkeep & Hn & Hsent & Hcase).
  split; [exact Hkeep |]. split; [exact Hn |].
  split; [rewrite Hsent, length_app, repeat_length; reflexivity |].
  destruct (fst (fst (getUserInfo BASE_URL DEFAULT_HEADERS false w))) as [e | d];
    split; intros x Hx; inversion Hx; subst; assumption.
Qed.

End SessionFacts.

Lemma getAuthHeaders_token_wins_witness :
  exists h,
    Session.getAuthHeaders Session.someHeaders
      (Session.withKey Session.noHeaders "X-Session-Token" "forged")
      (Session.mkState (Some "tok-123") None) = inr h /\
    h "X-Session-Token" = Some "tok-123" /\
    forall key, key <> "X-Session-Token" ->
      h key = match Session.withKey Session.noHeaders "X-Session-Token" "forged" key with
              | Some v => Some v
              | None => Session.someHeaders key
              end.
Proof.
  apply (proj1 (getAuthHeaders_token_wins Session.someHeaders
                  (Session.withKey Session.noHeaders "X-Session-Token" "forged")
                  (Session.mkState (Some "tok-123") None)) "tok-123").
  - reflexivity.
  - discriminate.
Defined.

Lemma readSessionTokenFromFile_nonempty_witness :
  "tok-123" <> "" /\ Session.truthy (Some "tok-123") = true /\
  exists raw, Session.fileExists Session.tokenOnDisk = inr true /\
              Session.readFile Session.tokenOnDisk = inr (Some raw) /\
              "tok-123" = Session.trimBlanks raw.
Proof.
  apply (proj1 (readSessionTokenFromFile_nonempty Session.trimBlanks
                  Session.tokenOnDisk) "tok-123").
  reflexivity.
Defined.

Lemma login_requests_witness :
  exists new,
    Session.sent (Session.net (snd (fst (Session.login "https://api" Session.someHeaders
        Session.trimBlanks Session.tokenOnDisk (Session.freshWorld Session.flakyNet))))) =
    Session.sent (Session.net (Session.freshWorld Session.flakyNet)) ++ new /\
    List.length new =
      invocations (snd (Session.login "https://api" Session.someHeaders
        Session.trimBlanks Session.tokenOnDisk (Session.freshWorld Session.flakyNet))) /\
    (1 <= List.length new <= 6)%nat /\
    Forall (fun c => Session.method c = "get" /\
                     Session.url c = ("https://api" ++ "/me")%string /\
                     Session.headers c "X-Session-Token" = Some "tok-123" /\
                     Session.data c = None) new.
Proof.
  apply (proj2 (login_requests "https://api" Session.someHeaders Session.trimBlanks
                  Session.tokenOnDisk (Session.freshWorld Session.flakyNet)) "tok-123").
  reflexivity.
Defined.

Lemma makeApiRequest_requests_witness :
  let w := Session.mkWorld (Session.mkState (Some "tok-123") None) Session.flakyNet in
  let o := Session.makeApiRequest "https://api" Session.someHeaders "post" "/chat"
             (Some (Session.Jstr "")) Session.noHeaders w in
  Session.session (snd (fst o)) = Session.session w /\
  Session.sent (Session.net (snd (fst o))) =
    Session.sent (Session.net w) ++
    repeat (Session.mkRequest "post" ("https://api" ++ "/chat")%string
              (Session.withKey (Session.spread Session.someHeaders Session.noHeaders)
                 "X-Session-Token" "tok-123")
              (Some 10000) None) (invocations (snd o)) /\
  (1 <= invocations (snd o) <= 6)%nat /\
  (forall answer, fst (fst o) = inr answer ->
     In (inr answer) (Session.answers (Session.net w))).
Proof.
  apply (makeApiRequest_requests "https://api" Session.someHeaders "post" "/chat"
           (Some (Session.Jstr "")) Session.noHeaders
           (Session.mkWorld (Session.mkState (Some "tok-123") None) Session.flakyNet)
           "tok-123").
  - reflexivity.
  - discriminate.
Defined.

Lemma cached_user_info_round_trip_witness :
  (let w := Session.mkWorld
              (Session.mkState None (Some (Session.Jobj "{user_id: 7}")))
              Session.rejectingNet in
   Session.getUserInfo "https://api" Session.someHeaders true w =
     (inr (Session.Jobj "{user_id: 7}"), w, [])) /\
  (let w := Session.mkWorld
              (Session.mkState (Some "tok-123") (Some (Session.Jstr "")))
              Session.flakyNet in
   Session.getUserInfo "https://api" Session.someHeaders true w =
   Session.getUserInfo "https://api" Session.someHeaders false w) /\
  (let w := Session.freshWorld Session.flakyNet in
   let w1 := snd (fst (Session.login "https://api" Session.someHeaders
                         Session.trimBlanks Session.tokenOnDisk w)) in
   exists body,
     In (inr body) (Session.answers (Session.net w)) /\
     body <> Session.Jnull /\
     Session.cachedUserInfo (Session.session w1) = Some body /\
     (Session.truthyJson body = true ->
      Session.getUserInfo "https://api" Session.someHeaders true w1 = (inr body, w1, []))).
Proof.
  split; [| split].
  - apply (proj1 (cached_user_info_round_trip "https://api" Session.someHeaders
                    Session.trimBlanks)
             (Session.mkWorld
                (Session.mkState None (Some (Session.Jobj "{user_id: 7}")))
                Session.rejectingNet)
             (Session.Jobj "{user_id: 7}")); reflexivity.
  - apply (proj1 (proj2 (cached_user_info_round_trip "https://api" Session.someHeaders
                           Session.trimBlanks))
             (Session.mkWorld
                (Session.mkState (Some "tok-123") (Some (Session.Jstr "")))
                Session.flakyNet)).
    reflexivity.
  - apply (proj2 (proj2 (proj2 (cached_user_info_round_trip "https://api"
                                  Session.someHeaders Session.trimBlanks)))
             Session.tokenOnDisk (Session.freshWorld Session.flakyNet) (Some "tok-123")).
    reflexivity.
Defined.

(** A validation answered by a [null] body: [login] throws the TypeError,
    the token is cleared and the cache holds the [null]. *)
Example login_with_null_body :
  Session.login "https://api" Session.someHeaders Session.trimBlanks
    Session.tokenOnDisk
    (Session.mkWorld (Session.mkState None (Some (Session.Jobj "{user_id: 7}")))
       Session.nullNet) =
  (inl Session.cannotReadUserId,
   Session.mkWorld (Session.mkState None (Some Session.Jnull))
     (Session.mkNet []
        [Session.mkRequest "get" "https://api/me"
           (Session.withKey (Session.spread Session.someHeaders Session.noHeaders)
              "X-Session-Token" "tok-123") None None]),
   [Invoke]).
Proof. reflexivity. Qed.

Lemma failed_login_locks_out_witness :
  let w1 := snd (fst (Session.login "https://api" Session.someHeaders
                        Session.trimBlanks Session.tokenOnDisk
                        (Session.freshWorld Session.rejectingNet))) in
  Session.getUserInfo "https://api" Session.someHeaders false w1 =
    (inl Session.notAuthenticated, w1, []) /\
  forall verb endpoint body extra,
    Session.makeApiRequest "https://api" Session.someHeaders verb endpoint body extra w1 =
    (inl Session.notAuthenticated, w1, []).
Proof.
  apply (failed_login_locks_out "https://api" Session.someHeaders Session.trimBlanks
           Session.tokenOnDisk (Session.freshWorld Session.rejectingNet)
           (mkError "Request failed with status code 401" (Some (mkResponse 401)))).
  reflexivity.
Defined.

Lemma getUserInfo_updates_cache_on_success_witness :
  let w := Session.mkWorld (Session.mkState (Some "tok-123") (Some (Session.Jobj "{old}")))
             Session.flakyNet in
  let o := Session.getUserInfo "https://api" Session.someHeaders false w in
  Session.sessionToken (Session.session (snd (fst o))) = Some "tok-123" /\
  (1 <= invocations (snd o) <= 6)%nat /\
  List.length (Session.sent (Session.net (snd (fst o)))) =
    (List.length (Session.sent (Session.net w)) + invocations (snd o))%nat /\
  (forall userData, fst (fst o) = inr userData ->
     Session.cachedUserInfo (Session.session (snd (fst o))) = Some userData /\
     In (inr userData) (Session.answers (Session.net w))) /\
  (forall err, fst (fst o) = inl err ->
     Session.cachedUserInfo (Session.session (snd (fst o))) =
     Session.cachedUserInfo (Session.session w)).
Proof.
  apply (getUserInfo_updates_cache_on_success "https://api" Session.someHeaders
           (Session.mkWorld (Session.mkState (Some "tok-123") (Some (Session.Jobj "{old}")))
              Session.flakyNet) "tok-123").
  - reflexivity.
  - discriminate.
Defined.


(** ** Wallet sign-in *)

Section WalletFacts.
Import Wallets.
Variable REFERRAL_CODE : string.

Lemma string_app_assoc (a b c : string) :
  ((a ++ b) ++ c)%string = (a ++ b ++ c)%string.
Proof.
  induction a as [| ch a IH]; cbn; [reflexivity | now rewrite IH].
Qed.

Lemma string_app_empty (a : string) : (a ++ "")%string = a.
Proof.
  induction a as [| ch a IH]; cbn; [reflexivity | now rewrite IH].
Qed.

Lemma posts_app t1 t2 : posts (t1 ++ t2) = posts t1 ++ posts t2.
Proof.
  induction t1 as [| e t1 IH]; [reflexivity |].
  destruct e; cbn; rewrite ?IH; reflexivity.
Qed.

(** One key whose wallet could be built. *)
Lemma authenticate_one addr a file :
  walletAddress a = inr addr ->
  let o := authenticate REFERRAL_CODE addr a file in
  match goesThrough a with
  | Some session_token =>
      fst (fst o) = Some (mkAuthResult session_token addr) /\
      snd (fst o) = (file ++ session_token ++ newline)%string
  | None => fst (fst o) = None /\ snd (fst o) = file
  end /\
  List.length (posts (snd o)) = (if reachesServer a then 1 else 0)%nat /\
  Forall (fun p => referral_code p = REFERRAL_CODE /\
                   payloadMessage p = signInText addr (randomNonce a) (now a))
         (posts (snd o)).
Proof.
  intros Haddr. cbv zeta.
  unfold authenticate, signMessage, goesThrough, reachesServer. rewrite Haddr.
  destruct (walletSignature a) as [e | sig]; cbn.
  - repeat split. constructor.
  - destruct (verified a) as [e | tok]; cbn.
    + repeat split. repeat constructor.
    + destruct (appendFails a) as [e |]; cbn; repeat split; repeat constructor.
Qed.

Lemma authenticateEach_spec keys : forall tokens file,
  let o := authenticateEach REFERRAL_CODE keys tokens file in
  fst (fst o) = tokens ++ tokensOf keys /\
  snd (fst o) = (file ++ linesOf (tokensOf keys))%string /\
  List.length (posts (snd o)) =
    List.length (filter (fun k => reachesServer (snd k)) keys) /\
  Forall (fun p => referral_code p = REFERRAL_CODE) (posts (snd o)).
Proof.
  induction keys as [| [key a] rest IH]; intros tokens file; cbv zeta.
  - cbn. rewrite app_nil_r, string_app_empty. repeat split. constructor.
  - cbn [authenticateEach tokensOf filter snd].
    destruct (walletAddress a) as [e | addr] eqn:Haddr.
    + specialize (IH tokens file). cbv zeta in IH.
      destruct (authenticateEach REFERRAL_CODE rest tokens file) as [[out f1] t].
      cbn [fst snd] in *. destruct IH as (Hout & Hfile & Hposts & Hall).
      unfold goesThrough, reachesServer. rewrite Haddr. cbn [posts].
      repeat split; assumption.
    + pose proof (authenticate_one addr a file Haddr) as Hone. cbv zeta in Hone.
      destruct (authenticate REFERRAL_CODE addr a file) as [[result f1] t1].
      cbn [fst snd] in Hone. destruct Hone as (Hcase & Hp1 & Hall1).
      destruct (goesThrough a) as [tok |] eqn:Hgo;
        destruct Hcase as [Hres Hf1]; subst result f1.
      * specialize (IH (tokens ++ [tok]) (file ++ tok ++ newline)%string).
        cbv zeta in IH. cbn [token].
        destruct (authenticateEach REFERRAL_CODE rest (tokens ++ [tok])
                    (file ++ tok ++ newline)) as [[out f2] t2].
        cbn [fst snd] in *. destruct IH as (Hout & Hfile & Hposts & Hall).
        rewrite posts_app, length_app, Hp1, Hposts.
        repeat split.
        -- rewrite Hout, <- app_assoc. reflexivity.
        -- rewrite Hfile. cbn [linesOf].
           rewrite !string_app_assoc. reflexivity.
        -- destruct (reachesServer a); reflexivity.
        -- apply Forall_app. split; [| exact Hall].
           eapply Forall_impl; [| exact Hall1]. intros p [Hp _]. exact Hp.
      * specialize (IH tokens file). cbv zeta in IH.
        destruct (authenticateEach REFERRAL_CODE rest tokens file) as [[out f2] t2].
        cbn [fst snd] in *. destruct IH as (Hout & Hfile & Hposts & Hall).
        rewrite posts_app, length_app, Hp1, Hposts.
        repeat split; trivial.
        -- destruct (reachesServer a); reflexivity.
        -- apply Forall_app. split; [| exact Hall].
           eapply Forall_impl; [| exact Hall1]. intros p [Hp _]. exact Hp.
Qed.

Lemma tokensOf_length keys : (List.length (tokensOf keys) <= List.length keys)%nat.
Proof.
  induction keys as [| [key a] rest IH]; cbn; [lia |].
  destruct (goesThrough a); cbn; lia.
Qed.

Lemma authenticateAllWallets_spec keys file :
  let o := authenticateAllWallets REFERRAL_CODE (Some keys) file in
  fst (fst o) = tokensOf keys /\
  snd (fst o) = (file ++ linesOf (tokensOf keys))%string /\
  List.length (posts (snd o)) =
    List.length (filter (fun k => reachesServer (snd k)) keys) /\
  Forall (fun p => referral_code p = REFERRAL_CODE) (posts (snd o)).
Proof.
  cbv zeta. destruct keys as [| k rest].
  - cbn. rewrite string_app_empty. repeat split. constructor.
  - unfold authenticateAllWallets.
    pose proof (authenticateEach_spec (k :: rest) [] file) as H. cbv zeta in H.
    destruct (authenticateEach REFERRAL_CODE (k :: rest) [] file) as [[out f1] t].
    cbn [fst snd app] in *. destruct H as (Hout & Hfile & Hposts & Hall).
    cbn [posts]. rewrite posts_app. cbn [posts]. rewrite app_nil_r.
    repeat split; assumption.
Qed.

(** X14: [authenticateAllWallets] returns the tokens of exactly those keys
    for which the wallet was built, the message signed, the token received
    and the file written, in the order of the keys; a key that fails at any
    of these steps is skipped and the keys after it are still handled.
    Without keys it returns the empty list. *)
Theorem wallets_return_tokens_that_went_through keys file :
  fst (fst (authenticateAllWallets REFERRAL_CODE (Some keys) file)) = tokensOf keys /\
  (List.length (tokensOf keys) <= List.length keys)%nat /\
  fst (fst (authenticateAllWallets REFERRAL_CODE None file)) = [].
Proof.
  destruct (authenticateAllWallets_spec keys file) as (Hout & _).
  split; [exact Hout |]. split; [apply tokensOf_length | reflexivity].
Qed.

(** X15: the token file afterwards is the file before followed by the
    returned tokens, one per line and in order: every token returned has
    been written, and nothing else has. *)
Theorem wallets_append_returned_tokens privateKeys file :
  let o := authenticateAllWallets REFERRAL_CODE privateKeys file in
  snd (fst o) = (file ++ linesOf (fst (fst o)))%string.
Proof.
  cbv zeta. destruct privateKeys as [keys |].
  - destruct (authenticateAllWallets_spec keys file) as (Hout & Hfile & _).
    rewrite Hout. exact Hfile.
  - cbn. rewrite string_app_empty. reflexivity.
Qed.

(** X16: one request is posted to [/verify] for every key whose wallet could
    be built and whose message was signed, none for the others, and each
    carries the configured referral code; without keys nothing is posted. *)
Theorem wallets_post_once_per_signed_key keys file :
  let t := snd (authenticateAllWallets REFERRAL_CODE (Some keys) file) in
  List.length (posts t) =
    List.length (filter (fun k => reachesServer (snd k)) keys) /\
  (List.length (posts t) <= List.length keys)%nat /\
  Forall (fun p => referral_code p = REFERRAL_CODE) (posts t) /\
  posts (snd (authenticateAllWallets REFERRAL_CODE None file)) = [].
Proof.
  cbv zeta.
  destruct (authenticateAllWallets_spec keys file) as (_ & _ & Hposts & Hall).
  split; [exact Hposts |]. split; [| split; [exact Hall | reflexivity]].
  rewrite Hposts. apply filter_length_le.
Qed.

End WalletFacts.

(** ** More on the loop, start and pause *)

Section AutomationMore.
Import Views.

(** X17: the automation module and the retry executor classify errors alike,
    so a network-class error that an API call made through the executor
    throws has been through all six attempts. *)
Theorem network_errors_surface_after_six_attempts :
  (forall err, looksTransient err = transient err) /\
  (forall (World A : Type) (requestFn : @Request World A) requestName w err,
     fst (fst (executeWithRetry requestFn requestName 0 w)) = inl err ->
     looksTransient err = true ->
     invocations (snd (executeWithRetry requestFn requestName 0 w)) = 6%nat).
Proof.
  assert (Hsame : forall err, looksTransient err = transient err) by reflexivity.
  split; [exact Hsame |].
  intros World A requestFn requestName w err Herr Htr.
  destruct (executeWithRetry_anatomy requestName requestFn MAX_RETRIES 0%nat w
              ltac:(lia)) as (_ & _ & _ & _ & Hstop & _).
  destruct (Hstop err Herr) as [Hno | Hn]; [| exact Hn].
  rewrite Hsame in Htr. congruence.
Qed.

(** X18: a cycle never rejects, whatever its collaborators throw, and it
    never changes the run flag. *)
Theorem cycle_never_rejects env s :
  fst (fst (automationLoop env s)) = inr tt /\
  isRunning (stateOf (automationLoop env s)) = isRunning s.
Proof.
  destruct (automationLoop_cycle env s) as (Hok & Hrun & _).
  split; assumption.
Qed.

(** X20: a cycle that runs leaves exactly one continuation: it sets one
    timer, unless it hands the loop to the cooldown coordinator, and then it
    sets none; a cycle that finds the run flag down does nothing at all. *)
Theorem cycle_leaves_one_continuation env s :
  (isRunning s = true ->
   List.length (timeouts (traceOf (automationLoop env s))) =
     (if handsOver env then 0 else 1)%nat /\
   (handsOver env = true ->
    In (StartCooldown cb_ifRunning) (traceOf (automationLoop env s)))) /\
  (isRunning s = false -> automationLoop env s = (inr tt, s, [])).
Proof.
  destruct s as [r timer n], env. unfold handsOver. cbn [isRunning].
  split; intros Hrun; subst r; [split |]; proc_run;
    cbn; auto; try discriminate; intuition discriminate.
Qed.

(** X21: a cycle sends at most one chat message, and it sends one exactly
    when the run flag is up, no cooldown is active, the quota check answers
    that quota is left and a message was generated; what it sends is that
    message. *)
Theorem cycle_sends_at_most_once env s :
  (List.length (chatSends (traceOf (automationLoop env s))) <= 1)%nat /\
  (forall m,
     chatSends (traceOf (automationLoop env s)) = [m] <->
     isRunning s = true /\ cooldownActive env = false /\
     rateLimitAvailable env = inr true /\ generatedMessage env = inr m).
Proof.
  destruct s as [r timer n], env. cbn [isRunning cooldownActive rateLimitAvailable
                                        generatedMessage].
  split; [| intros m; split];
    proc_run; cbn; try lia;
    try (intros H; discriminate H);
    try (intros H; inversion H; subst; repeat split; reflexivity);
    try (intros (H1 & H2 & H3 & H4); try discriminate; inversion H4; subst;
         try discriminate; reflexivity).
Qed.

(** X22: with [Math.random()] in its range, every timer a cycle sets is
    either the loop itself, after 1 second (cooldown) or after a delay in
    [3000, 10000) ms, or the guarded retry, after 5, 15 or 180 seconds. *)
Theorem cycle_timer_delays env s cb ms :
  0 <= randomJitter env < 7000 ->
  In (cb, ms) (timeouts (traceOf (automationLoop env s))) ->
  (cb = cb_automationLoop /\ (ms = 1000 \/ 3000 <= ms < 10000)) \/
  (cb = cb_retry /\ (ms = 5000 \/ ms = 15000 \/ ms = 180000)).
Proof.
  intros Hj. destruct s as [r timer n], env. cbn [randomJitter] in Hj.
  proc_run; cbn; intros Hin;
    repeat match goal with
           | H : _ \/ _ |- _ => destruct H
           | H : False |- _ => destruct H
           | H : (_, _) = (_, _) |- _ => inversion H; subst; clear H
           end;
    solve [left; split; [reflexivity | lia]
          | right; split; [reflexivity | lia]].
Qed.

Lemma refresh_answers_do_not_matter env s points limits :
  let r := automationLoop (withRefresh env (inr tt) (inr tt)) s in
  let r' := automationLoop (withRefresh env points limits) s in
  (fst (fst r'), stateOf r', chatSends (traceOf r'), errorWrites (traceOf r'),
   sleeps (traceOf r'), timeouts (traceOf r')) =
  (fst (fst r), stateOf r, chatSends (traceOf r), errorWrites (traceOf r),
   sleeps (traceOf r), timeouts (traceOf r)).
Proof.
  destruct s as [r timer n], env. unfold withRefresh. cbv zeta.
  proc_run; reflexivity.
Qed.

(** X23: what the two display refreshes at the end of a cycle answer makes
    no difference to the state the cycle leaves, to what it sends, to the
    counter, to its pauses or to the timers it sets. *)
Theorem refresh_failures_change_nothing env s points limits :
  let r := automationLoop env s in
  let r' := automationLoop (withRefresh env points limits) s in
  fst (fst r') = fst (fst r) /\
  stateOf r' = stateOf r /\
  chatSends (traceOf r') = chatSends (traceOf r) /\
  errorWrites (traceOf r') = errorWrites (traceOf r) /\
  sleeps (traceOf r') = sleeps (traceOf r) /\
  timeouts (traceOf r') = timeouts (traceOf r).
Proof.
  cbv zeta.
  pose proof (refresh_answers_do_not_matter env s points limits) as H1.
  pose proof (refresh_answers_do_not_matter env s (pointsFetched env)
                (rateLimitFetched env)) as H2.
  cbv zeta in H1, H2.
  replace (withRefresh env (pointsFetched env) (rateLimitFetched env)) with env
    in H2 by (destruct env; reflexivity).
  rewrite <- H2 in H1. inversion H1 as [[Hr Hs Hc He Hsl Ht]].
  repeat split; assumption.
Qed.

(** X24: a cycle that finds the quota used up sends nothing, starts the
    countdown display with the last known reset time, keeps its handle in
    [cooldownTimer] and calls the cooldown coordinator with the guarded
    resume callback; if that call returns, the cycle sets no timer and
    leaves the counter alone, and if it throws, the cycle ends in the
    loop-level retry. *)
Theorem quota_used_up_hands_over env s :
  isRunning s = true ->
  cooldownActive env = false ->
  rateLimitAvailable env = inr false ->
  let r := automationLoop env s in
  chatSends (traceOf r) = [] /\
  cooldownTimer (stateOf r) = Some (displayTimer env) /\
  In (StartCooldownDisplay (lastKnownResetTime env) cb_noop) (traceOf r) /\
  In (StartCooldown cb_ifRunning) (traceOf r) /\
  (cooldownStarted env = inr tt ->
   timeouts (traceOf r) = [] /\ errorWrites (traceOf r) = [] /\
   consecutiveErrors (stateOf r) = consecutiveErrors s) /\
  (forall err, cooldownStarted env = inl err ->
   exists ms, timeouts (traceOf r) = [(cb_retry, ms)]).
Proof.
  intros Hrun Hcd Hav. destruct s as [r timer n], env. cbn in Hrun, Hcd, Hav.
  subst. cbv zeta. cbn [displayTimer lastKnownResetTime cooldownStarted].
  repeat split; try (intros H; revert H); try (intros err H; revert H);
    proc_run; cbn; try discriminate; auto 10;
    try (intros _; repeat split; reflexivity);
    try (intros _; eexists; reflexivity).
Qed.

Lemma failed_start_anatomy env first s err :
  isRunning s = false ->
  firstStartError env = Some err ->
  let r := startAutomation env first s in
  fst (fst r) = inr tt /\
  isRunning (stateOf r) = false /\
  consecutiveErrors (stateOf r) = 0 /\
  cooldownTimer (stateOf r) = cooldownTimer s /\
  loopCalls (traceOf r) = 0%nat /\
  chatSends (traceOf r) = [] /\
  timeouts (traceOf r) =
    (if looksTransient err then [(cb_autoRestart, 10000)] else []).
Proof.
  intros Hrun Herr. destruct s as [r timer n]. cbn in Hrun. subst r.
  cbv zeta. unfold loopCalls.
  destruct env as [[e1 | []] [e2 | []] [e3 | []] [e4 | []] [e5 | []] [e6 | []]];
    cbn in Herr; inversion Herr; subst; clear Herr;
    repeat split; outer_run; reflexivity.
Qed.

(** X25: a start in which a step throws puts the run flag back down, has
    written 0 to the counter, does not enter the loop and sends nothing; it
    schedules the one-shot restart after 10 seconds exactly when the error
    is network-class, and schedules nothing otherwise. *)
Theorem failed_start_stops_and_may_restart env first s err :
  isRunning s = false ->
  firstStartError env = Some err ->
  let r := startAutomation env first s in
  fst (fst r) = inr tt /\
  isRunning (stateOf r) = false /\
  consecutiveErrors (stateOf r) = 0 /\
  cooldownTimer (stateOf r) = cooldownTimer s /\
  loopCalls (traceOf r) = 0%nat /\
  chatSends (traceOf r) = [] /\
  timeouts (traceOf r) =
    (if looksTransient err then [(cb_autoRestart, 10000)] else []).
Proof.
  intros Hrun Herr. destruct s as [r timer n]. cbn in Hrun. subst r.
  cbv zeta. unfold loopCalls.
  destruct env as [[e1 | []] [e2 | []] [e3 | []] [e4 | []] [e5 | []] [e6 | []]];
    cbn in Herr; inversion Herr; subst; clear Herr;
    repeat split; outer_run; reflexivity.
Qed.

(** X26: the restart callback does nothing when the automation is running
    by the time it comes due; when it is not, it makes a start, and after a
    start that failed on a network-class error a restart whose steps all
    succeed brings the automation up with one call of the loop. *)
Theorem auto_restart_is_guarded :
  (forall env cyc s,
     isRunning s = true -> fire cb_autoRestart env cyc s = (inr tt, s, [])) /\
  (forall env cyc s,
     isRunning s = false ->
     stateOf (fire cb_autoRestart env cyc s) = stateOf (startAutomation env cyc s)) /\
  (forall env1 first1 env2 first2 s err,
     isRunning s = false ->
     firstStartError env1 = Some err ->
     looksTransient err = true ->
     startSucceeds env2 = true ->
     let s1 := stateOf (startAutomation env1 first1 s) in
     timeouts (traceOf (startAutomation env1 first1 s)) = [(cb_autoRestart, 10000)] /\
     isRunning (stateOf (fire cb_autoRestart env2 first2 s1)) = true /\
     loopCalls (traceOf (fire cb_autoRestart env2 first2 s1)) = 1%nat).
Proof.
  split; [| split].
  - intros env cyc [r timer n] Hrun. cbn in Hrun. subst r. outer_run. reflexivity.
  - intros env cyc [r timer n] Hrun. cbn in Hrun. subst r.
    unfold fire.
    cbv beta iota zeta delta [bind ret gets get Monad_Proc MonadState_Proc
                              Proc_bind Proc_ret isRunning negb emit spawn stateOf
                              fst snd].
    destruct (startAutomation env cyc _) as [[r1 s1] t1]. reflexivity.
  - intros env1 first1 env2 first2 s err Hrun Herr Htr Hok s1.
    destruct (failed_start_anatomy env1 first1 s err Hrun Herr)
      as (_ & Hdown & _ & _ & _ & _ & Hto).
    fold s1 in Hdown. rewrite Htr in Hto. split; [exact Hto |].
    destruct (start_from_stopped env2 first2 s1 Hdown Hok) as [Hup Hcalls].
    destruct s1 as [r1 timer1 n1]. cbn in Hdown. subst r1.
    unfold loopCalls in *. unfold fire.
    cbv beta iota zeta delta [bind ret gets get Monad_Proc MonadState_Proc
                              Proc_bind Proc_ret isRunning negb emit spawn stateOf
                              traceOf fst snd] in *.
    destruct (startAutomation env2 first2 _) as [[r2 s2] t2].
    cbn [app errorsAtLoopCalls]. split; assumption.
Qed.

(** X27: [pauseAutomation] from the running state puts the run flag down,
    leaves the counter and the countdown handle as they are and sets no
    timer; called again, or when nothing runs, it changes nothing and only
    logs a warning. *)
Theorem pause_only_lowers_the_flag s :
  let r := pauseAutomation s in
  isRunning (stateOf r) = false /\
  consecutiveErrors (stateOf r) = consecutiveErrors s /\
  cooldownTimer (stateOf r) = cooldownTimer s /\
  timeouts (traceOf r) = [] /\
  (isRunning s = false ->
   r = (inr tt, s, [Log [Str "Automation not running"] warning])) /\
  pauseAutomation (stateOf r) =
    (inr tt, stateOf r, [Log [Str "Automation not running"] warning]).
Proof.
  destruct s as [[|] timer n]; cbv zeta; repeat split;
    try (intros H; discriminate H); outer_run; reflexivity.
Qed.

(** X19: once the run flag is down, every loop callback that comes due, the
    loop's own timer, the guarded retry or the cooldown's resume, changes
    nothing, sends nothing and sets no new timer: the loop dies out. *)
Theorem paused_loop_dies_out cb env cyc s :
  cb <> cb_autoRestart ->
  let s1 := stateOf (pauseAutomation s) in
  let r := fire cb env cyc s1 in
  stateOf r = s1 /\
  chatSends (traceOf r) = [] /\
  timeouts (traceOf r) = [] /\
  errorWrites (traceOf r) = [] /\
  sleeps (traceOf r) = [].
Proof.
  intros Hcb. destruct s as [[|] timer n], cb; try contradiction; cbv zeta;
    destruct cyc; repeat split; proc_run; reflexivity.
Qed.

End AutomationMore.

(** ** The key handlers *)

Section KeyFacts.
Import Keys.

(** X28: the [s] key starts nothing without a token on file: the module
    variables stay as they are, no login is attempted and the loop is not
    called; with a token and nothing running it leaves the state a plain
    [startAutomation] leaves; and while the automation runs it changes
    nothing. *)
Theorem key_s_needs_a_token tokenOnFile env first s :
  (isRunning s = false -> Session.truthy tokenOnFile = false ->
   stateOf (pressS tokenOnFile env first s) = s /\
   serviceCalls (traceOf (pressS tokenOnFile env first s)) = [] /\
   loopCalls (traceOf (pressS tokenOnFile env first s)) = 0%nat /\
   logLevels (traceOf (pressS tokenOnFile env first s)) = [error]) /\
  (isRunning s = false -> Session.truthy tokenOnFile = true ->
   stateOf (pressS tokenOnFile env first s) = stateOf (startAutomation env first s)) /\
  (isRunning s = true ->
   stateOf (pressS tokenOnFile env first s) = s /\
   serviceCalls (traceOf (pressS tokenOnFile env first s)) = [] /\
   loopCalls (traceOf (pressS tokenOnFile env first s)) = 0%nat).
Proof.
  unfold loopCalls.
  destruct s as [[|] timer n]; cbn [isRunning]; (split; [| split]);
    try (intros H; discriminate H); try (intros _ Htok); try (intros _);
    unfold pressS, getRunningState;
    cbv beta iota zeta delta [bind ret gets get Monad_Proc MonadState_Proc
                              Proc_bind Proc_ret isRunning negb emit spawn stateOf
                              traceOf fst snd];
    rewrite ?Htok; cbv beta iota zeta delta [emit Proc_bind].
  - repeat split.
  - repeat split.
  - destruct (startAutomation env first _) as [[r1 s1] t1]. reflexivity.
Qed.

(** X29: [p] then [r]: the [p] key on a running automation puts the run
    flag down and keeps the counter; an [r] key during a cooldown leaves it
    paused; an [r] key out of cooldown writes 0 to the counter, puts the flag
    up and calls the loop once; a second [p] in a row changes nothing. *)
Theorem keys_pause_then_resume first s :
  isRunning s = true ->
  let s1 := stateOf (pressP s) in
  isRunning s1 = false /\
  consecutiveErrors s1 = consecutiveErrors s /\
  stateOf (pressP s1) = s1 /\
  stateOf (pressR true first s1) = s1 /\
  loopCalls (traceOf (pressR true first s1)) = 0%nat /\
  isRunning (stateOf (pressR false first s1)) = true /\
  hd_error (errorWrites (traceOf (pressR false first s1))) = Some 0 /\
  loopCalls (traceOf (pressR false first s1)) = 1%nat.
Proof.
  intros Hrun. destruct s as [r timer n]. cbn in Hrun. subst r. cbv zeta.
  unfold loopCalls.
  repeat split; unfold pressP, pressR, getRunningState; outer_run;
    try reflexivity;
    use_cycle automationLoop_cycle; outer_eval;
    destruct Hcycle as (_ & Hrun & Hcalls);
    cbn [errorWrites errorsAtLoopCalls hd_error]; rewrite ?Hcalls;
    solve [reflexivity | exact Hrun].
Qed.

End KeyFacts.


(** ** The further properties on concrete runs *)

Lemma network_errors_surface_after_six_attempts_witness :
  invocations (snd (executeWithRetry (refusedThenOk 9) "GET /points" 0 0%nat)) = 6%nat.
Proof.
  apply (proj2 network_errors_surface_after_six_attempts nat Z (refusedThenOk 9)
           "GET /points" 0%nat (mkError "connect ECONNREFUSED 127.0.0.1:443" None));
    reflexivity.
Defined.

Lemma cycle_leaves_one_continuation_witness :
  (List.length (timeouts (traceOf (automationLoop Views.cycleQuotaUsedUp runningState))) =
     (if Views.handsOver Views.cycleQuotaUsedUp then 0 else 1)%nat /\
   In (StartCooldown cb_ifRunning)
      (traceOf (automationLoop Views.cycleQuotaUsedUp runningState))) /\
  automationLoop cycleFine initial = (inr tt, initial, []).
Proof.
  split.
  - destruct (proj1 (cycle_leaves_one_continuation Views.cycleQuotaUsedUp runningState)
                eq_refl) as [Hone Hover].
    split; [exact Hone | apply Hover; reflexivity].
  - apply (proj2 (cycle_leaves_one_continuation cycleFine initial)). reflexivity.
Defined.

Lemma cycle_sends_at_most_once_witness :
  chatSends (traceOf (automationLoop cycleFine runningState)) = ["gm"].
Proof.
  apply (proj2 (proj2 (cycle_sends_at_most_once cycleFine runningState) "gm")).
  repeat split.
Defined.

Lemma cycle_timer_delays_witness :
  (cb_automationLoop = cb_automationLoop /\ (4234 = 1000 \/ 3000 <= 4234 < 10000)) \/
  (cb_automationLoop = cb_retry /\ (4234 = 5000 \/ 4234 = 15000 \/ 4234 = 180000)).
Proof.
  apply (cycle_timer_delays cycleFine runningState cb_automationLoop 4234).
  - cbn. lia.
  - cbn. left. reflexivity.
Defined.

Lemma quota_used_up_hands_over_witness :
  let r := automationLoop Views.cycleQuotaUsedUp runningState in
  chatSends (traceOf r) = [] /\
  cooldownTimer (stateOf r) = Some (displayTimer Views.cycleQuotaUsedUp) /\
  In (StartCooldownDisplay (lastKnownResetTime Views.cycleQuotaUsedUp) cb_noop)
     (traceOf r) /\
  In (StartCooldown cb_ifRunning) (traceOf r) /\
  (cooldownStarted Views.cycleQuotaUsedUp = inr tt ->
   timeouts (traceOf r) = [] /\ errorWrites (traceOf r) = [] /\
   consecutiveErrors (stateOf r) = consecutiveErrors runningState) /\
  (forall err, cooldownStarted Views.cycleQuotaUsedUp = inl err ->
   exists ms, timeouts (traceOf r) = [(cb_retry, ms)]).
Proof.
  apply (quota_used_up_hands_over Views.cycleQuotaUsedUp runningState); reflexivity.
Defined.

Lemma failed_start_stops_and_may_restart_witness :
  let r := startAutomation Views.startRefused cycleFine initial in
  fst (fst r) = inr tt /\
  isRunning (stateOf r) = false /\
  consecutiveErrors (stateOf r) = 0 /\
  cooldownTimer (stateOf r) = cooldownTimer initial /\
  loopCalls (traceOf r) = 0%nat /\
  chatSends (traceOf r) = [] /\
  timeouts (traceOf r) =
    (if looksTransient (mkError "connect ECONNREFUSED 127.0.0.1:443" None)
     then [(cb_autoRestart, 10000)] else []).
Proof.
  apply (failed_start_stops_and_may_restart Views.startRefused cycleFine initial);
    reflexivity.
Defined.

Lemma auto_restart_is_guarded_witness :
  fire cb_autoRestart startsFine cycleFine runningState = (inr tt, runningState, []) /\
  (let s1 := stateOf (startAutomation Views.startRefused cycleFine initial) in
   timeouts (traceOf (startAutomation Views.startRefused cycleFine initial)) =
     [(cb_autoRestart, 10000)] /\
   isRunning (stateOf (fire cb_autoRestart startsFine cycleFine s1)) = true /\
   loopCalls (traceOf (fire cb_autoRestart startsFine cycleFine s1)) = 1%nat).
Proof.
  split.
  - apply (proj1 auto_restart_is_guarded startsFine cycleFine runningState).
    reflexivity.
  - apply (proj2 (proj2 auto_restart_is_guarded) Views.startRefused cycleFine
             startsFine cycleFine initial
             (mkError "connect ECONNREFUSED 127.0.0.1:443" None));
      reflexivity.
Defined.

Lemma pause_only_lowers_the_flag_witness :
  pauseAutomation initial =
  (inr tt, initial, [Log [Str "Automation not running"] warning]).
Proof.
  destruct (pause_only_lowers_the_flag initial) as (_ & _ & _ & _ & Hidle & _).
  apply Hidle. reflexivity.
Defined.

Lemma paused_loop_dies_out_witness :
  let s1 := stateOf (pauseAutomation twoErrorsIn) in
  let r := fire cb_retry startsFine cycleFine s1 in
  stateOf r = s1 /\
  chatSends (traceOf r) = [] /\
  timeouts (traceOf r) = [] /\
  errorWrites (traceOf r) = [] /\
  sleeps (traceOf r) = [].
Proof.
  apply (paused_loop_dies_out cb_retry startsFine cycleFine twoErrorsIn).
  discriminate.
Defined.

Lemma key_s_needs_a_token_witness :
  (stateOf (Keys.pressS None startsFine cycleFine initial) = initial /\
   Keys.serviceCalls (traceOf (Keys.pressS None startsFine cycleFine initial)) = [] /\
   loopCalls (traceOf (Keys.pressS None startsFine cycleFine initial)) = 0%nat /\
   logLevels (traceOf (Keys.pressS None startsFine cycleFine initial)) = [error]) /\
  stateOf (Keys.pressS (Some "tok-123") startsFine cycleFine initial) =
  stateOf (startAutomation startsFine cycleFine initial).
Proof.
  split.
  - apply (proj1 (key_s_needs_a_token None startsFine cycleFine initial));
      reflexivity.
  - apply (proj1 (proj2 (key_s_needs_a_token (Some "tok-123") startsFine cycleFine
                           initial))); reflexivity.
Defined.

Lemma keys_pause_then_resume_witness :
  let s1 := stateOf (Keys.pressP twoErrorsIn) in
  isRunning s1 = false /\
  consecutiveErrors s1 = consecutiveErrors twoErrorsIn /\
  stateOf (Keys.pressP s1) = s1 /\
  stateOf (Keys.pressR true cycleFine s1) = s1 /\
  loopCalls (traceOf (Keys.pressR true cycleFine s1)) = 0%nat /\
  isRunning (stateOf (Keys.pressR false cycleFine s1)) = true /\
  hd_error (errorWrites (traceOf (Keys.pressR false cycleFine s1))) = Some 0 /\
  loopCalls (traceOf (Keys.pressR false cycleFine s1)) = 1%nat.
Proof.
  apply (keys_pause_then_resume cycleFine twoErrorsIn). reflexivity.
Defined.
